(** * Bank-statement extraction pipeline: shallow embedding and properties

    The development embeds the transaction-extraction code of the backend
    (advanced_statement_parser.py, enhanced_pdf_parser.py,
    indian_bank_parser.py, free_pdf_parser.py, gemini_pdf_parser.py,
    statement_parser.py and the upload route of statement_api.py) and
    states the properties of the specification over that embedding.

    Modelling conventions.
    - A Python [str] is a list of Unicode code points ([list N]).  The
      character classes of the model cover ASCII, the Unicode white space
      and the rupee sign; any other code point is an ordinary symbol
      (neither digit, letter nor space, without case mapping).
    - A Python [float] that holds an amount is an exact rational in lowest
      terms.  Amounts are only compared, never added, in the embedded
      code.
    - A [datetime] produced by [strptime] with a date-only format is a
      calendar date; [datetime.now()] is observed through its date.
      [strftime] writes the year with four digits, as the documentation
      has it and as every platform does for the years from 1000 on; the C
      library of Linux writes a year below 1000 without padding, so what
      is stated of a rendering that is parsed back is stated for the
      years from 1000 on.
    - [float(...)] is exact on the decimal strings that the patterns of
      the parsers match; the spellings of infinity and of NaN, which no
      such pattern matches, are outside the model, and nothing is stated
      of an amount that the code converts without such a pattern (an
      entry of the AI service, a cell of [BankStatementParser.parse_csv]).
    - What the PDF, OCR, spreadsheet and AI libraries return for a file is
      part of the description of that file (a record of library outcomes);
      every line of the repository's own logic above them is embedded. *)

From Stdlib Require Import ZArith QArith Qabs Lia Bool Ascii String.
From stdpp Require Import gmap strings list sorting.

Set Default Proof Using "Type".
Local Open Scope N_scope.

(** ** Python strings *)

Module PyStr.

Definition char := N.
Definition pystr := list char.

Definition of_ascii (a : ascii) : char := N_of_ascii a.

(** The code points of an ASCII literal. *)
Fixpoint py (s : string) : pystr :=
  match s with
  | EmptyString => []
  | String a s' => of_ascii a :: py s'
  end.

Definition rupee : char := 8377.     (* U+20B9 *)
Definition newline : char := 10.

Definition in_range (lo hi c : char) : bool := (lo <=? c) && (c <=? hi).

Definition is_digit (c : char) : bool := in_range 48 57 c.
Definition is_upper (c : char) : bool := in_range 65 90 c.
Definition is_lower (c : char) : bool := in_range 97 122 c.
Definition is_alpha (c : char) : bool := is_upper c || is_lower c.

(** [str.isspace] on one code point, which is also the class [\s] of a
    [str] pattern. *)
Definition is_space (c : char) : bool :=
  in_range 9 13 c || in_range 28 32 c || (c =? 133) || (c =? 160)
  || (c =? 5760) || in_range 8192 8202 c || (c =? 8232) || (c =? 8233)
  || (c =? 8239) || (c =? 8287) || (c =? 12288).

(** The class [\w]. *)
Definition is_word (c : char) : bool := is_alpha c || is_digit c || (c =? 95).

Definition upper_c (c : char) : char := if is_lower c then c - 32 else c.
Definition lower_c (c : char) : char := if is_upper c then c + 32 else c.

Definition upper (s : pystr) : pystr := map upper_c s.
Definition lower (s : pystr) : pystr := map lower_c s.

Definition eqb (s t : pystr) : bool := bool_decide (s = t).

(** [s.startswith(p)] *)
Fixpoint startswith (p s : pystr) : bool :=
  match p, s with
  | [], _ => true
  | a :: p', b :: s' => (a =? b) && startswith p' s'
  | _ :: _, [] => false
  end.

(** [p in s] *)
Fixpoint contains (p s : pystr) : bool :=
  startswith p s ||
  match s with
  | [] => false
  | _ :: s' => contains p s'
  end.

(** [any(w in s for w in ws)] *)
Definition any_in (ws : list pystr) (s : pystr) : bool :=
  existsb (fun w => contains w s) ws.

Fixpoint lstrip (s : pystr) : pystr :=
  match s with
  | c :: s' => if is_space c then lstrip s' else s
  | [] => []
  end.

Definition rstrip (s : pystr) : pystr := rev (lstrip (rev s)).

(** [s.strip()] *)
Definition strip (s : pystr) : pystr := rstrip (lstrip s).

(** [s.split(sep)] for a one-character separator: never returns an empty
    list. *)
Fixpoint split_on (sep : char) (s : pystr) : list pystr :=
  match s with
  | [] => [[]]
  | c :: s' =>
      if c =? sep then [] :: split_on sep s'
      else match split_on sep s' with
           | w :: ws => (c :: w) :: ws
           | [] => [[c]]
           end
  end.

(** [s.split()]: the maximal runs of non-space characters. *)
Fixpoint words_aux (cur : pystr) (s : pystr) : list pystr :=
  match s with
  | [] => match cur with [] => [] | _ => [rev cur] end
  | c :: s' =>
      if is_space c
      then match cur with
           | [] => words_aux [] s'
           | _ => rev cur :: words_aux [] s'
           end
      else words_aux (c :: cur) s'
  end.

Definition words (s : pystr) : list pystr := words_aux [] s.

(** [sep.join(ws)] *)
Fixpoint join (sep : pystr) (ws : list pystr) : pystr :=
  match ws with
  | [] => []
  | [w] => w
  | w :: ws' => w ++ sep ++ join sep ws'
  end.

(** [s.replace(old, new)] for a non-empty [old]: the occurrences are
    taken from the left and do not overlap. *)
Fixpoint replace_aux (fuel : nat) (old new s : pystr) : pystr :=
  match fuel with
  | O => s
  | S fuel' =>
      match s with
      | [] => []
      | c :: s' =>
          if startswith old s
          then new ++ replace_aux fuel' old new (drop (length old) s)
          else c :: replace_aux fuel' old new s'
      end
  end.

Definition replace (old new s : pystr) : pystr :=
  match old with
  | [] => s
  | _ => replace_aux (S (length s)) old new s
  end.

(** [s.isdigit()] *)
Definition isdigit (s : pystr) : bool :=
  match s with
  | [] => false
  | _ => forallb is_digit s
  end.

(** [s.title()] *)
Fixpoint title_aux (prev_cased : bool) (s : pystr) : pystr :=
  match s with
  | [] => []
  | c :: s' =>
      (if prev_cased then lower_c c else upper_c c) :: title_aux (is_alpha c) s'
  end.

Definition title (s : pystr) : pystr := title_aux false s.

(** [s.find(p)] *)
Fixpoint find_aux (i : nat) (p s : pystr) : option nat :=
  if startswith p s then Some i
  else match s with
       | [] => None
       | _ :: s' => find_aux (S i) p s'
       end.

Definition find (p s : pystr) : option nat := find_aux 0 p s.

Definition digit_val (c : char) : Z := Z.of_N (c - 48).

(** [int(s)] for a string of ASCII digits. *)
Definition int_of_digits (s : pystr) : Z :=
  fold_left (fun acc c => (10 * acc + digit_val c)%Z) s 0%Z.

End PyStr.

Import PyStr.

(** ** Regular expressions ([re])

    A backtracking matcher with the priorities of Python's [re]: an
    alternation tries its branches from the left, a repetition is greedy,
    and the first match found in that order is the match. *)

Module Re.

Inductive citem :=
| CChr (c : char)
| CRange (lo hi : char)
| CDigit            (* \d *)
| CSpace            (* \s *)
| CWord.            (* \w *)

Inductive re :=
| Eps
| Chr (c : char)
| Dot                                  (* . : anything but a newline *)
| Cls (neg : bool) (items : list citem) (* [...] and [^...] *)
| Cat (r1 r2 : re)
| Alt (r1 r2 : re)
| Star (r : re)
| Grp (n : nat) (r : re)               (* the n-th capturing group *)
| WordB                                (* \b *)
| Eos.                                 (* $ *)

Definition Plus (r : re) : re := Cat r (Star r).
Definition Opt (r : re) : re := Alt r Eps.
Definition digit : re := Cls false [CDigit].
Definition space : re := Cls false [CSpace].

(** A literal string. *)
Fixpoint Lit (s : pystr) : re :=
  match s with
  | [] => Eps
  | [c] => Chr c
  | c :: s' => Cat (Chr c) (Lit s')
  end.

(** [r1|r2|...|rn] *)
Fixpoint Alts (rs : list re) : re :=
  match rs with
  | [] => Cls false []
  | [r] => r
  | r :: rs' => Alt r (Alts rs')
  end.

(** [r1 r2 ... rn] *)
Fixpoint Seq (rs : list re) : re :=
  match rs with
  | [] => Eps
  | [r] => r
  | r :: rs' => Cat r (Seq rs')
  end.

(** [r{n}] *)
Fixpoint Times (n : nat) (r : re) : re :=
  match n with
  | O => Eps
  | S O => r
  | S n' => Cat r (Times n' r)
  end.

(** [r{0,n}], greedy *)
Fixpoint UpTo (n : nat) (r : re) : re :=
  match n with
  | O => Eps
  | S n' => Opt (Cat r (UpTo n' r))
  end.

(** [r{m,n}] *)
Definition Rep (m n : nat) (r : re) : re :=
  match (n - m)%nat with
  | O => Times m r
  | k => match m with
         | O => UpTo k r
         | _ => Cat (Times m r) (UpTo k r)
         end
  end.

Definition item_has (c : char) (it : citem) : bool :=
  match it with
  | CChr d => c =? d
  | CRange lo hi => in_range lo hi c
  | CDigit => is_digit c
  | CSpace => is_space c
  | CWord => is_word c
  end.

(** Under [re.IGNORECASE] a character matches when one of its case
    variants does. *)
Definition class_has (ci : bool) (items : list citem) (c : char) : bool :=
  existsb (item_has c) items
  || (ci && (existsb (item_has (lower_c c)) items
             || existsb (item_has (upper_c c)) items)).

Definition chr_eq (ci : bool) (c d : char) : bool :=
  (c =? d) || (ci && (lower_c c =? lower_c d)).

Definition caps := list (nat * pystr).

(** A cursor is the character before the position (for [\b]) and the
    text from the position on. *)
Definition is_word_o (o : option char) : bool :=
  match o with Some c => is_word c | None => false end.

Definition at_boundary (prev : option char) (s : pystr) : bool :=
  xorb (is_word_o prev) (is_word_o (head s)).

Section Matcher.
Context {A : Type}.
Variable ci : bool.

Definition kont := option char -> pystr -> caps -> option A.

Definition orelse (x y : option A) : option A :=
  match x with Some _ => x | None => y end.

Fixpoint mt (r : re) (prev : option char) (s : pystr) (g : caps) (k : kont)
  {struct r} : option A :=
  match r with
  | Eps => k prev s g
  | Chr c =>
      match s with
      | d :: s' => if chr_eq ci c d then k (Some d) s' g else None
      | [] => None
      end
  | Dot =>
      match s with
      | d :: s' => if d =? newline then None else k (Some d) s' g
      | [] => None
      end
  | Cls neg items =>
      match s with
      | d :: s' =>
          if xorb neg (class_has ci items d) then k (Some d) s' g else None
      | [] => None
      end
  | Cat r1 r2 => mt r1 prev s g (fun p s' g' => mt r2 p s' g' k)
  | Alt r1 r2 => orelse (mt r1 prev s g k) (mt r2 prev s g k)
  | Star r1 =>
      (fix star (fuel : nat) (prev : option char) (s : pystr) (g : caps)
         : option A :=
         match fuel with
         | O => k prev s g
         | S fuel' =>
             orelse
               (mt r1 prev s g
                   (fun p s' g' =>
                      if (length s' <? length s)%nat
                      then star fuel' p s' g' else None))
               (k prev s g)
         end) (length s) prev s g
  | Grp n r1 =>
      mt r1 prev s g
         (fun p s' g' =>
            k p s' ((n, take (length s - length s') s) :: g'))
  | WordB => if at_boundary prev s then k prev s g else None
  | Eos =>
      match s with
      | [] => k prev s g
      | [c] => if c =? newline then k prev s g else None
      | _ => None
      end
  end.
End Matcher.

(** A match: the text before it, the matched text, the groups, the text
    after it. *)
Record rmatch := {
  m_before : pystr;
  m_text : pystr;
  m_groups : caps;
  m_after : pystr
}.

(** The text of group [n] ([m.group(n)]), empty when the group did not
    take part. *)
Definition group (n : nat) (m : rmatch) : pystr :=
  match n with
  | O => m_text m
  | _ => match list_find (fun p => bool_decide (fst p = n)) (m_groups m) with
         | Some (_, (_, t)) => t
         | None => []
         end
  end.

(** [m.start()] and [m.end()] *)
Definition m_start (m : rmatch) : nat := length (m_before m).
Definition m_end (m : rmatch) : nat := (length (m_before m) + length (m_text m))%nat.

(** The match that starts exactly at the cursor. *)
Definition match_here (ci : bool) (r : re) (prev : option char) (s : pystr)
  : option (pystr * caps) :=
  mt ci r prev s [] (fun _ s' g => Some (s', g)).

(** [re.match(r, s)] *)
Definition rmatch_at_start (ci : bool) (r : re) (s : pystr) : option rmatch :=
  match match_here ci r None s with
  | Some (rest, g) =>
      Some {| m_before := []; m_text := take (length s - length rest) s;
              m_groups := g; m_after := rest |}
  | None => None
  end.

(** [re.search(r, s)]: the leftmost match. *)
Fixpoint search_aux (ci : bool) (r : re) (prev : option char) (acc s : pystr)
  : option rmatch :=
  match match_here ci r prev s with
  | Some (rest, g) =>
      Some {| m_before := rev acc; m_text := take (length s - length rest) s;
              m_groups := g; m_after := rest |}
  | None =>
      match s with
      | [] => None
      | c :: s' => search_aux ci r (Some c) (c :: acc) s'
      end
  end.

Definition search (ci : bool) (r : re) (s : pystr) : option rmatch :=
  search_aux ci r None [] s.

Definition matches (ci : bool) (r : re) (s : pystr) : bool :=
  match search ci r s with Some _ => true | None => false end.

(** [re.finditer(r, s)]: the successive non-overlapping matches, each
    with the unmatched text before it, and the unmatched tail.  After an
    empty match the scan resumes one character further. *)
Fixpoint finditer_aux (ci : bool) (r : re) (fuel : nat) (prev : option char)
  (acc s : pystr) : list (pystr * pystr * caps) * pystr :=
  match fuel with
  | O => ([], rev acc ++ s)
  | S fuel' =>
      match match_here ci r prev s with
      | Some (rest, g) =>
          let n := (length s - length rest)%nat in
          let txt := take n s in
          match n, s with
          | O, c :: s' =>
              let '(ms, tl) := finditer_aux ci r fuel' (Some c) [c] s' in
              ((rev acc, txt, g) :: ms, tl)
          | O, [] => ([(rev acc, txt, g)], [])
          | _, _ =>
              let '(ms, tl) := finditer_aux ci r fuel' (last txt) [] rest in
              ((rev acc, txt, g) :: ms, tl)
          end
      | None =>
          match s with
          | [] => ([], rev acc)
          | c :: s' => finditer_aux ci r fuel' (Some c) (c :: acc) s'
          end
      end
  end.

Definition finditer (ci : bool) (r : re) (s : pystr)
  : list (pystr * pystr * caps) * pystr :=
  finditer_aux ci r (S (length s)) None [] s.

(** [re.findall(r, s)] for a pattern without group: the matched texts. *)
Definition findall0 (ci : bool) (r : re) (s : pystr) : list pystr :=
  map (fun m => snd (fst m)) (fst (finditer ci r s)).

(** [re.findall(r, s)] for a pattern with one group: the texts of the
    group. *)
Definition findall1 (ci : bool) (r : re) (s : pystr) : list pystr :=
  map (fun m => group 1 {| m_before := []; m_text := snd (fst m);
                           m_groups := snd m; m_after := [] |})
      (fst (finditer ci r s)).

(** [re.sub(r, repl, s)] for a replacement without back-reference. *)
Definition sub (ci : bool) (r : re) (repl : pystr) (s : pystr) : pystr :=
  let '(ms, tl) := finditer ci r s in
  concat (map (fun m => fst (fst m) ++ repl) ms) ++ tl.

End Re.

Import Re.

(** ** Amounts: [float(s)] on decimal strings *)

Module PyFloat.

Local Open Scope Z_scope.

(** A digit part of a float literal: digits, single underscores allowed
    between two digits. *)
Fixpoint digitpart_ok (prev_digit : bool) (s : pystr) : bool :=
  match s with
  | [] => prev_digit
  | c :: s' =>
      if is_digit c then digitpart_ok true s'
      else if (c =? 95)%N then prev_digit && negb (bool_decide (s' = []))
                               && digitpart_ok false s'
      else false
  end.

Definition digits_only (s : pystr) : pystr := filter (fun c => is_digit c = true) s.

(** Splits at the first character that satisfies [p]. *)
Fixpoint break_at (p : char -> bool) (s : pystr) : pystr * option pystr :=
  match s with
  | [] => ([], None)
  | c :: s' =>
      if p c then ([], Some s')
      else let '(a, b) := break_at p s' in (c :: a, b)
  end.

Definition split_sign (s : pystr) : bool * pystr :=
  match s with
  | c :: s' => if (c =? 45)%N then (true, s')
               else if (c =? 43)%N then (false, s') else (false, s)
  | [] => (false, [])
  end.

Definition scale10 (m e : Z) : Q :=
  if 0 <=? e then Qred (inject_Z (m * 10 ^ e))
  else Qred (Qmake m (Z.to_pos (10 ^ (- e)))).

(** [float(s)]: [None] stands for [ValueError].  The value is exact; the
    spellings of the IEEE special values (inf, nan) have no rational
    counterpart and are treated as malformed. *)
Definition py_float (s : pystr) : option Q :=
  let '(neg, body) := split_sign (strip s) in
  let '(mant, ex) := break_at (fun c => (c =? 101)%N || (c =? 69)%N) body in
  let '(ip, fp) := break_at (fun c => (c =? 46)%N) mant in
  let fpart := match fp with Some f => f | None => [] end in
  let mant_ok :=
    match ip, fpart with
    | [], [] => false
    | [], _ => digitpart_ok false fpart
    | _, [] => digitpart_ok false ip
    | _, _ => digitpart_ok false ip && digitpart_ok false fpart
    end in
  let exp_val :=
    match ex with
    | None => Some 0
    | Some e =>
        let '(eneg, ed) := split_sign e in
        if digitpart_ok false ed
        then Some (if eneg then - int_of_digits (digits_only ed)
                   else int_of_digits (digits_only ed))
        else None
    end in
  match mant_ok, exp_val with
  | true, Some e =>
      let m := int_of_digits (digits_only ip ++ digits_only fpart) in
      let v := scale10 m (e - Z.of_nat (length (digits_only fpart))) in
      Some (if neg then Qred (- v) else v)
  | _, _ => None
  end.

Definition Qltb (a b : Q) : bool := negb (Qle_bool b a).

(** [x > 0] *)
Definition is_pos (a : Q) : bool := Qltb 0 a.

(** [not x] on a float *)
Definition is_zero (a : Q) : bool := Qeq_bool a 0.

(** [max(xs)] on a non-empty list: the first of the largest elements. *)
Definition py_max (x : Q) (xs : list Q) : Q :=
  fold_left (fun m y => if Qltb m y then y else m) xs x.

End PyFloat.

Import PyFloat.

(** ** Dates: [datetime.strptime], [strftime], [timedelta] *)

Module PyDate.

Local Open Scope Z_scope.

Record date := { year : Z; month : Z; day : Z }.

#[export] Instance date_eq_dec : EqDecision date.
Proof. solve_decision. Defined.

Definition is_leap (y : Z) : bool :=
  (y mod 4 =? 0) && (negb (y mod 100 =? 0) || (y mod 400 =? 0)).

Definition days_in_month (y m : Z) : Z :=
  if m =? 2 then (if is_leap y then 29 else 28)
  else if (m =? 4) || (m =? 6) || (m =? 9) || (m =? 11) then 30 else 31.

(** The dates that [datetime(y, m, d)] accepts. *)
Definition valid_date (d : date) : bool :=
  (1 <=? year d) && (year d <=? 9999) && (1 <=? month d) && (month d <=? 12)
  && (1 <=? day d) && (day d <=? days_in_month (year d) (month d)).

(** Comparison of two [datetime] values at midnight. *)
Definition date_ltb (a b : date) : bool :=
  (year a <? year b)
  || ((year a =? year b)
      && ((month a <? month b) || ((month a =? month b) && (day a <? day b)))).

Definition date_leb (a b : date) : bool := negb (date_ltb b a).

Definition days_before_year (y : Z) : Z :=
  let p := y - 1 in p * 365 + p / 4 - p / 100 + p / 400.

Fixpoint days_before_month_aux (y : Z) (n : nat) : Z :=
  match n with
  | O => 0
  | S n' => days_before_month_aux y n' + days_in_month y (Z.of_nat n)
  end.

Definition days_before_month (y m : Z) : Z :=
  days_before_month_aux y (Z.to_nat (m - 1)).

(** [d.toordinal()] *)
Definition toordinal (d : date) : Z :=
  days_before_year (year d) + days_before_month (year d) (month d) + day d.

(** [date.fromordinal(n)], as in the standard library's [_ord2ymd]. *)
Definition fromordinal (n0 : Z) : date :=
  let n := n0 - 1 in
  let n400 := n / 146097 in let n := n mod 146097 in
  let n100 := n / 36524 in let n := n mod 36524 in
  let n4 := n / 1461 in let n := n mod 1461 in
  let n1 := n / 365 in let n := n mod 365 in
  let y := n400 * 400 + 1 + n100 * 100 + n4 * 4 + n1 in
  if (n1 =? 4) || (n100 =? 4) then {| year := y - 1; month := 12; day := 31 |}
  else
    let leap := (n1 =? 3) && (negb (n4 =? 24) || (n100 =? 3)) in
    let m := Z.shiftr (n + 50) 5 in
    let preceding := days_before_month y m in
    if preceding >? n
    then {| year := y; month := m - 1;
            day := n - (preceding - days_in_month y (m - 1)) + 1 |}
    else {| year := y; month := m; day := n - preceding + 1 |}.

(** [d + timedelta(days=k)] *)
Definition add_days (d : date) (k : Z) : date := fromordinal (toordinal d + k).

Definition month_abbr : list pystr :=
  map py ["jan"; "feb"; "mar"; "apr"; "may"; "jun";
          "jul"; "aug"; "sep"; "oct"; "nov"; "dec"]%string.

Definition month_full : list pystr :=
  map py ["january"; "february"; "march"; "april"; "may"; "june"; "july";
          "august"; "september"; "october"; "november"; "december"]%string.

(** The alternation that [_strptime] builds for the full month names:
    longest first. *)
Definition month_full_re_order : list pystr :=
  map py ["september"; "february"; "november"; "december"; "january";
          "october"; "august"; "march"; "april"; "june"; "july"; "may"]%string.

Definition d19 : re := Cls false [CRange 49 57]%N.

(** The regular expressions of the directives, with the group numbers
    d = 1, m = 2, Y = 3, y = 4, b = 5, B = 6. *)
Definition re_d : re :=
  Grp 1 (Alts [Cat (Chr 51) (Cls false [CRange 48 49]);
               Cat (Cls false [CRange 49 50]) digit;
               Cat (Chr 48) d19; d19; Cat (Chr 32) d19])%N.
Definition re_m : re :=
  Grp 2 (Alts [Cat (Chr 49) (Cls false [CRange 48 50]);
               Cat (Chr 48) d19; d19])%N.
Definition re_Y : re := Grp 3 (Times 4 digit).
Definition re_y : re := Grp 4 (Times 2 digit).
Definition re_b : re := Grp 5 (Alts (map Lit month_abbr)).
Definition re_B : re := Grp 6 (Alts (map Lit month_full_re_order)).

(** The pattern of a format: a directive becomes its group, a run of
    white space becomes [\s+], any other character stands for itself.
    [None] when the format has a directive that the embedded code never
    uses. *)
Fixpoint format_re (after_space : bool) (fmt : pystr) : option (list re) :=
  match fmt with
  | [] => Some []
  | c :: rest =>
      if (c =? 37)%N then
        match rest with
        | x :: rest' =>
            let dir :=
              if (x =? 100)%N then Some re_d
              else if (x =? 109)%N then Some re_m
              else if (x =? 89)%N then Some re_Y
              else if (x =? 121)%N then Some re_y
              else if (x =? 98)%N then Some re_b
              else if (x =? 66)%N then Some re_B
              else None in
            match dir, format_re false rest' with
            | Some r, Some rs => Some (r :: rs)
            | _, _ => None
            end
        | [] => None
        end
      else if is_space c then
        match format_re true rest with
        | Some rs => Some (if after_space then rs else Plus space :: rs)
        | None => None
        end
      else
        match format_re false rest with
        | Some rs => Some (Chr c :: rs)
        | None => None
        end
  end.

Definition index_of (x : pystr) (l : list pystr) : option nat :=
  fst <$> list_find (fun y => y = x) l.

Definition has_group (n : nat) (m : rmatch) : bool :=
  bool_decide (is_Some (list_find (fun p => fst p = n) (m_groups m))).

(** [datetime.strptime(s, fmt)]; [None] stands for [ValueError]. *)
Definition strptime (s fmt : pystr) : option date :=
  match format_re false fmt with
  | None => None
  | Some rs =>
      match rmatch_at_start true (Seq rs) s with
      | None => None
      | Some m =>
          if negb (bool_decide (m_after m = [])) then None
          else
            let y :=
              if has_group 3 m then int_of_digits (group 3 m)
              else if has_group 4 m then
                let v := int_of_digits (group 4 m) in
                if v <=? 68 then v + 2000 else v + 1900
              else 1900 in
            let mo :=
              if has_group 2 m then Some (int_of_digits (group 2 m))
              else if has_group 5 m then
                (fun i => Z.of_nat i + 1) <$> index_of (lower (group 5 m)) month_abbr
              else if has_group 6 m then
                (fun i => Z.of_nat i + 1) <$> index_of (lower (group 6 m)) month_full
              else Some 1 in
            let d :=
              if has_group 1 m then int_of_digits (lstrip (group 1 m)) else 1 in
            match mo with
            | Some mo =>
                let r := {| year := y; month := mo; day := d |} in
                if valid_date r then Some r else None
            | None => None
            end
      end
  end.

Definition digit_chr (z : Z) : char := Z.to_N (48 + z mod 10).

Definition pad2 (z : Z) : pystr := [digit_chr (z / 10); digit_chr z].
Definition pad4 (z : Z) : pystr :=
  [digit_chr (z / 1000); digit_chr (z / 100); digit_chr (z / 10); digit_chr z].

Definition month_name (m : Z) : pystr :=
  title (nth (Z.to_nat (m - 1)) month_abbr []).

(** [d.strftime(fmt)] for the directives the embedded code uses; the year
    is written with four digits, which is the rendering of every platform
    from the year 1000 on. *)
Fixpoint strftime (fmt : pystr) (d : date) : pystr :=
  match fmt with
  | [] => []
  | c :: rest =>
      if (c =? 37)%N then
        match rest with
        | x :: rest' =>
            (if (x =? 89)%N then pad4 (year d)
             else if (x =? 109)%N then pad2 (month d)
             else if (x =? 100)%N then pad2 (day d)
             else if (x =? 98)%N then month_name (month d)
             else [c; x]) ++ strftime rest' d
        | [] => [c]
        end
      else c :: strftime rest d
  end.

End PyDate.

Import PyDate.

(** ** Exceptions and the record of strategy calls

    A computation either returns or raises (the payload is [str(e)]), and
    appends one event to a log each time it invokes an extraction
    strategy.  The log is what a test with mocked strategies observes
    through call counts. *)

Module Run.

Inductive outcome (A : Type) :=
| Ok (a : A)
| Raise (msg : pystr).
Arguments Ok {A} a.
Arguments Raise {A} msg.

Definition is_ok {A} (o : outcome A) : bool :=
  match o with Ok _ => true | Raise _ => false end.

Section Monad.
(** [S] names the strategies, [T] is the type of a transaction. *)
Context {S T : Type}.

Record event := { ev_strategy : S; ev_result : outcome (list T) }.

Definition M (A : Type) : Type := list event -> outcome A * list event.

Definition ret {A} (a : A) : M A := fun log => (Ok a, log).
Definition raise {A} (msg : pystr) : M A := fun log => (Raise msg, log).

Definition bind {A B} (m : M A) (f : A -> M B) : M B :=
  fun log =>
    match m log with
    | (Ok a, log') => f a log'
    | (Raise e, log') => (Raise e, log')
    end.

(** [try: m except Exception as e: h(e)] *)
Definition try_except {A} (m : M A) (h : pystr -> M A) : M A :=
  fun log =>
    match m log with
    | (Ok a, log') => (Ok a, log')
    | (Raise e, log') => h e log'
    end.

(** A call of strategy [s] whose body evaluates to [r]. *)
Definition invoke (s : S) (r : outcome (list T)) : M (list T) :=
  fun log => (r, log ++ [{| ev_strategy := s; ev_result := r |}]).

(** A library call, not logged. *)
Definition lift {A} (r : outcome A) : M A := fun log => (r, log).

Definition run {A} (m : M A) : outcome A * list event := m [].
Definition result {A} (m : M A) : outcome A := fst (run m).
Definition trace {A} (m : M A) : list event := snd (run m).

(** The discipline of a fallback chain on a log: whenever a strategy is
    invoked, every strategy invoked before it has returned an empty
    list. *)
Definition fallback_discipline (tr : list event) : Prop :=
  forall pre e post, tr = pre ++ e :: post ->
    Forall (fun e' => ev_result e' = Ok []) pre.

(** A log on which no strategy has extracted a transaction: a strategy
    that returned has returned the empty list. *)
Definition nothing_extracted (tr : list event) : Prop :=
  Forall (fun e => forall l, ev_result e = Ok l -> l = []) tr.

(** A computation that logs nothing. *)
Definition silent {A} (m : M A) : Prop := forall log, snd (m log) = log.

(** A computation that never raises. *)
Definition returns {A} (m : M A) : Prop :=
  forall log, is_ok (fst (m log)) = true.
End Monad.

Arguments event : clear implicits.
Arguments M : clear implicits.

Module Notations.
  Notation "x <- m ;; k" := (bind m (fun x => k))
    (at level 100, m at next level, right associativity).
End Notations.

End Run.

Import Run Run.Notations.

(** ** advanced_statement_parser.py: [AdvancedBankStatementParser] *)

Module Advanced.

(** A literal of the source. *)
Notation "$ s" := (py s%string) (at level 1, format "$ s").

(** [w1\s*w2\s*...] *)
Fixpoint spaced (ws : list pystr) : re :=
  match ws with
  | [] => Eps
  | [w] => Lit w
  | w :: ws' => Cat (Lit w) (Cat (Star space) (spaced ws'))
  end.

Definition any_of (ws : list string) : re := Alts (map (fun w => Lit (py w)) ws).

(** [self.BANK_PATTERNS]: the bank and its ['name'] pattern, in the order
    of the dictionary. *)
Definition BANK_PATTERNS : list (pystr * re) :=
  [ ($"HDFC", Alt (spaced [$"HDFC"; $"BANK"]) (spaced [$"hdfc"; $"bank"]));
    ($"ICICI", Alt (spaced [$"ICICI"; $"BANK"]) (spaced [$"icici"; $"bank"]));
    ($"SBI", Alt (spaced [$"STATE"; $"BANK"; $"OF"; $"INDIA"]) (Lit $"SBI"));
    ($"AXIS", Alt (spaced [$"AXIS"; $"BANK"]) (spaced [$"axis"; $"bank"]));
    ($"KOTAK", Alt (spaced [$"KOTAK"; $"MAHINDRA"; $"BANK"]) (Lit $"kotak")) ].

(** [self.CATEGORY_PATTERNS], in the order of the dictionary. *)
Definition CATEGORY_PATTERNS : list (pystr * re) :=
  [ ($"food_dining",
      any_of ["SWIGGY"; "ZOMATO"; "DOMINOS"; "PIZZA"; "RESTAURANT"; "CAFE";
              "HOTEL"; "FOOD"; "DINING"]);
    ($"groceries",
      any_of ["BIGBASKET"; "GROFERS"; "DMart"; "RELIANCE"; "FRESH"; "GROCERY";
              "SUPERMARKET"; "WALMART"]);
    ($"fuel",
      Alt (any_of ["PETROL"; "DIESEL"; "FUEL"; "HP"; "BPCL"; "IOCL"; "SHELL"])
          (spaced [$"BHARAT"; $"PETROLEUM"]));
    ($"utilities",
      any_of ["ELECTRICITY"; "WATER"; "GAS"; "BROADBAND"; "INTERNET"; "MOBILE";
              "TELECOM"; "AIRTEL"; "JIO"; "VI"]);
    ($"entertainment",
      Alts [Lit $"NETFLIX"; spaced [$"AMAZON"; $"PRIME"];
            any_of ["HOTSTAR"; "SPOTIFY"; "BOOKMYSHOW"; "CINEMA"; "MOVIE"]]);
    ($"transportation",
      any_of ["UBER"; "OLA"; "METRO"; "BUS"; "RAILWAY"; "IRCTC"; "AUTO"; "TAXI";
              "TRANSPORT"]);
    ($"shopping",
      any_of ["AMAZON"; "FLIPKART"; "MYNTRA"; "SHOPPING"; "MALL"; "STORE";
              "RETAIL"]);
    ($"medical",
      any_of ["HOSPITAL"; "MEDICAL"; "PHARMACY"; "APOLLO"; "DOCTOR"; "HEALTH";
              "MEDICINE"]);
    ($"education",
      any_of ["SCHOOL"; "COLLEGE"; "UNIVERSITY"; "EDUCATION"; "COURSE";
              "TRAINING"; "TUITION"]);
    ($"investment",
      Alt (spaced [$"MUTUAL"; $"FUND"])
          (any_of ["SIP"; "INSURANCE"; "INVESTMENT"; "ZERODHA"; "GROWW";
                   "UPSTOX"]));
    ($"transfer",
      any_of ["TRANSFER"; "NEFT"; "RTGS"; "IMPS"; "UPI"; "PAYTM"; "PHONEPE";
              "GPAY"; "WALLET"]);
    ($"salary",
      Alts [Lit $"SALARY"; spaced [$"SAL"; $"CREDIT"];
            any_of ["PAYROLL"; "WAGES"; "INCOME"]]);
    ($"bank_charges",
      any_of ["CHARGES"; "FEE"; "PENALTY"; "INTEREST"; "MAINTENANCE"; "SERVICE"]);
    ($"cash_withdrawal",
      Alts [spaced [$"ATM"; $"WDL"]; spaced [$"CASH"; $"WITHDRAWAL"];
            Lit $"ATM"; Lit $"WITHDRAWAL"]);
    ($"others", Star Dot) ].

(** The first pair of an ordered table whose pattern is found in the
    text. *)
Fixpoint first_match (ci : bool) (table : list (pystr * re)) (text : pystr)
  : option pystr :=
  match table with
  | [] => None
  | (name, pat) :: table' =>
      if matches ci pat text then Some name else first_match ci table' text
  end.

(** [detect_bank] *)
Definition detect_bank (text : pystr) : option pystr :=
  first_match true BANK_PATTERNS (upper text).

(** [_categorize_transaction] *)
Definition _categorize_transaction (description : pystr) : pystr :=
  match first_match false CATEGORY_PATTERNS (upper description) with
  | Some category => category
  | None => $"others"
  end.

(** [_parse_date]: the first format that parses. *)
Definition date_formats : list pystr :=
  [ $"%d/%m/%Y"; $"%d-%m-%Y"; $"%Y-%m-%d"; $"%d %b %Y"; $"%d-%b-%Y";
    $"%d/%m/%y"; $"%m/%d/%Y"; $"%Y/%m/%d" ].

Fixpoint first_format (formats : list pystr) (s : pystr) : option date :=
  match formats with
  | [] => None
  | fmt :: formats' =>
      match strptime s fmt with
      | Some d => Some d
      | None => first_format formats' s
      end
  end.

Definition _parse_date (date_str : pystr) : option date :=
  first_format date_formats (strip date_str).

(** A cell of a table or of a data frame, as the parser observes it:
    through [bool(value)], [str(value)] and [pandas.isna(value)]. *)
Record cell := { c_truthy : bool; c_str : pystr; c_isna : bool }.

Definition str_cell (s : pystr) : cell :=
  {| c_truthy := negb (bool_decide (s = [])); c_str := s; c_isna := false |}.

(** A row dictionary: keys in insertion order. *)
Definition row_dict := list (pystr * cell).

(** [d[k] = v]: an existing key keeps its place. *)
Fixpoint dict_set (d : row_dict) (k : pystr) (v : cell) : row_dict :=
  match d with
  | [] => [(k, v)]
  | (k', v') :: d' =>
      if PyStr.eqb k' k then (k, v) :: d' else (k', v') :: dict_set d' k v
  end.

(** A transaction dictionary.  The extractors fill the first six fields;
    the cleanup stage adds the category and the two date renderings.  The
    display field ['formatted_amount'], a rendering of the float, is left
    out. *)
Record txn := {
  date : option PyDate.date;
  description : pystr;
  amount : Q;
  type_ : pystr;
  bank : option pystr;
  raw_data : option row_dict;
  category : option pystr;
  month_ : option pystr;
  formatted_date : option pystr
}.

(** The first item of the dictionary whose lower-cased key contains the
    pattern and whose value is true. *)
Definition first_item (pattern : pystr) (d : row_dict) : option (pystr * cell) :=
  snd <$> list_find (fun kv => contains pattern (lower (fst kv)) && c_truthy (snd kv) = true) d.

Fixpoint find_date (patterns : list pystr) (d : row_dict) : option PyDate.date :=
  match patterns with
  | [] => None
  | p :: ps =>
      match first_item p d with
      | Some (_, v) =>
          match _parse_date (c_str v) with
          | Some dv => Some dv
          | None => find_date ps d
          end
      | None => find_date ps d
      end
  end.

Fixpoint find_description (patterns : list pystr) (d : row_dict) : pystr :=
  match patterns with
  | [] => []
  | p :: ps =>
      match first_item p d with
      | Some (_, v) =>
          match strip (c_str v) with
          | [] => find_description ps d
          | s => s
          end
      | None => find_description ps d
      end
  end.

(** The cleaned amount string of a cell. *)
Definition clean_amount_str (s : pystr) : pystr :=
  strip (replace $"-" [] (replace [rupee] [] (replace $"," [] s))).

(** The inner loop of [_extract_amount] for one pattern: a key that does
    not yield a float is passed over. *)
Fixpoint amount_in (pattern : pystr) (d : row_dict) : option Q :=
  match d with
  | [] => None
  | (key, value) :: d' =>
      if contains pattern (lower key) && c_truthy value then
        let amount_str := clean_amount_str (c_str value) in
        if negb (bool_decide (amount_str = []))
           && isdigit (replace $"." [] amount_str)
        then match py_float amount_str with
             | Some q => Some q
             | None => amount_in pattern d'
             end
        else amount_in pattern d'
      else amount_in pattern d'
  end.

(** [_extract_amount] *)
Fixpoint _extract_amount (d : row_dict) (patterns : list pystr) : option Q :=
  match patterns with
  | [] => None
  | p :: ps =>
      match amount_in p d with
      | Some q => Some q
      | None => _extract_amount d ps
      end
  end.

(** [credit and credit > 0] *)
Definition positive (o : option Q) : bool :=
  match o with
  | Some q => negb (is_zero q) && is_pos q
  | None => false
  end.

(** [_extract_transaction_from_dict] *)
Definition _extract_transaction_from_dict (d : row_dict) (bank : option pystr)
  : option txn :=
  match find_date [$"date"; $"txn date"; $"transaction date"; $"value date"] d with
  | None => None
  | Some date_value =>
      let description :=
        find_description [$"description"; $"particulars"; $"narration"; $"details"] d in
      let debit := _extract_amount d [$"debit"; $"withdrawal"; $"dr"] in
      let credit := _extract_amount d [$"credit"; $"deposit"; $"cr"] in
      let mk ty amt :=
        Some {| date := Some date_value; description := description;
                amount := amt; type_ := ty; bank := bank;
                raw_data := Some d; category := None; month_ := None;
                formatted_date := None |} in
      match credit, debit with
      | Some c, Some b =>
          if positive credit then mk $"credit" c
          else if positive debit then mk $"debit" b else None
      | Some c, None => if positive credit then mk $"credit" c else None
      | None, Some b => if positive debit then mk $"debit" b else None
      | None, None => None
      end
  end.

(** A table of pdfplumber: rows of optional strings. *)
Definition table := list (list (option pystr)).

(** [str(cell).strip() if cell else ''] *)
Definition cell_text (c : option pystr) : pystr :=
  match c with
  | Some ((_ :: _) as s) => strip s
  | _ => []
  end.

(** The row dictionary of [_extract_transaction_from_row]: one entry per
    header that has a cell in the row. *)
Fixpoint row_to_dict (acc : row_dict) (headers : list pystr)
  (row : list (option pystr)) : row_dict :=
  match headers, row with
  | h :: headers', c :: row' =>
      row_to_dict (dict_set acc h (str_cell (cell_text c))) headers' row'
  | _, _ => acc
  end.

(** [_extract_transaction_from_row] *)
Definition _extract_transaction_from_row (row : list (option pystr))
  (headers : list pystr) (bank : option pystr) : option txn :=
  _extract_transaction_from_dict (row_to_dict [] headers row) bank.

(** [_process_table_data] *)
Definition _process_table_data (t : table) (bank : option pystr) : list txn :=
  match t with
  | header_row :: ((_ :: _) as rows) =>
      let headers := map cell_text header_row in
      omap (fun row =>
              if (3 <=? length row)%nat
              then _extract_transaction_from_row row headers bank
              else None) rows
  | _ => []
  end.

(** A data frame of pandas: the column labels as [str(col)] and the rows
    of cells. *)
Record dataframe := { df_columns : list pystr; df_rows : list (list cell) }.

Definition df_empty (df : dataframe) : bool :=
  bool_decide (df_columns df = []) || bool_decide (df_rows df = []).

(** [row.to_dict()] *)
Fixpoint series_to_dict (acc : row_dict) (cols : list pystr) (row : list cell)
  : row_dict :=
  match cols, row with
  | k :: cols', c :: row' => series_to_dict (dict_set acc k c) cols' row'
  | _, _ => acc
  end.

(** [_extract_transaction_from_series] *)
Definition _extract_transaction_from_series (cols : list pystr) (row : list cell)
  (bank : option pystr) : option txn :=
  _extract_transaction_from_dict (series_to_dict [] cols row) bank.

(** [_process_dataframe]: the labels are stripped, the rows whose cells
    are all missing are dropped. *)
Definition _process_dataframe (df : dataframe) (bank : option pystr) : list txn :=
  let cols := map strip (df_columns df) in
  let rows := filter (fun row => forallb c_isna row = false) (df_rows df) in
  omap (fun row => _extract_transaction_from_series cols row bank) rows.

(** The patterns of [_parse_text_with_regex]:
    [\b\d{1,2}[/-]\d{1,2}[/-]\d{2,4}\b] and [[₹\s]*[\d,]+\.?\d*]. *)
Definition sep : re := Cls false [CChr 47; CChr 45].
Definition line_date_re : re :=
  Seq [WordB; Rep 1 2 digit; sep; Rep 1 2 digit; sep; Rep 2 4 digit; WordB].
Definition line_amount_re : re :=
  Seq [Star (Cls false [CChr rupee; CSpace]); Plus (Cls false [CDigit; CChr 44]);
       Opt (Chr 46); Star digit].

(** The floats that the amount loop collects from the matches. *)
Definition parsed_amounts (ms : list pystr) : list Q :=
  omap (fun m =>
          let clean_amount := strip (replace [rupee] [] (replace $"," [] m)) in
          if isdigit (replace $"." [] clean_amount)
          then py_float clean_amount else None) ms.

(** The body of the loop of [_parse_text_with_regex] for one line. *)
Definition regex_line (raw_line : pystr) (bank : option pystr) : option txn :=
  let line := strip raw_line in
  match line with
  | [] => None
  | _ =>
      match search false line_date_re line with
      | None => None
      | Some date_match =>
          match _parse_date (group 0 date_match) with
          | None => None
          | Some date_obj =>
              match parsed_amounts (findall0 false line_amount_re line) with
              | [] => None
              | a :: amounts =>
                  let transaction_type :=
                    if any_in [$"CREDIT"; $"DEPOSIT"; $"CR"] (upper line)
                    then $"credit" else $"debit" in
                  Some {| date := Some date_obj; description := line;
                          amount := py_max a amounts;
                          type_ := transaction_type; bank := bank;
                          raw_data := None; category := None; month_ := None;
                          formatted_date := None |}
              end
          end
      end
  end.

(** [_parse_text_with_regex] *)
Definition _parse_text_with_regex (text : pystr) (bank : option pystr) : list txn :=
  omap (fun line => regex_line line bank) (split_on newline text).

(** The key of the final sort.  Every record that reaches the sort has a
    date. *)
Definition sort_key (t : txn) : PyDate.date :=
  match date t with
  | Some d => d
  | None => {| year := 0; month := 0; day := 0 |}
  end.

(** [list.sort(key=..., reverse=True)]: descending, and stable (records
    with equal keys keep their order). *)
Fixpoint insert_desc (x : txn) (l : list txn) : list txn :=
  match l with
  | [] => [x]
  | y :: l' =>
      if date_leb (sort_key y) (sort_key x) then x :: y :: l'
      else y :: insert_desc x l'
  end.

Definition sort_desc (l : list txn) : list txn := foldr insert_desc [] l.

(** The guard of the cleanup loop:
    [transaction.get('date') and transaction.get('amount')]. *)
Definition keeps (t : txn) : bool :=
  bool_decide (is_Some (date t)) && negb (is_zero (amount t)).

(** The fields that the cleanup loop writes into a kept record. *)
Definition annotate (t : txn) : txn :=
  {| date := date t; description := description t; amount := amount t;
     type_ := type_ t; bank := bank t; raw_data := raw_data t;
     category := Some (_categorize_transaction (description t));
     month_ := Some (strftime $"%Y-%m" (sort_key t));
     formatted_date := Some (strftime $"%d/%m/%Y" (sort_key t)) |}.

(** [_clean_and_categorize_transactions] *)
Definition _clean_and_categorize_transactions (transactions : list txn) : list txn :=
  sort_desc (map annotate (filter (fun t => keeps t = true) transactions)).

(** *** The file, as the libraries show it to the parser *)

(** A page of pdfplumber: [extract_text()] and [extract_tables()]. *)
Record page := { p_text : option pystr; p_tables : list table }.

(** [pd.read_csv(path, encoding=...)] *)
Inductive csv_read :=
| CsvFrame (df : dataframe)
| CsvUnicodeDecodeError
| CsvError (msg : pystr).

Record file := {
  f_path : pystr;
  (** [pdfplumber.open(path).pages] *)
  f_plumber : outcome (list page);
  (** [camelot.read_pdf(path, flavor='lattice')] and [flavor='stream']:
      the data frames of the tables *)
  f_camelot_lattice : outcome (list dataframe);
  f_camelot_stream : outcome (list dataframe);
  (** PyMuPDF and tesseract: the recognised text of each page *)
  f_fitz_ocr : outcome (list pystr);
  (** [pd.read_csv] for an encoding *)
  f_read_csv : pystr -> csv_read;
  (** [pd.ExcelFile(path).sheet_names] with [pd.read_excel] of each sheet *)
  f_excel : outcome (list (pystr * outcome dataframe));
  (** [pytesseract.image_to_string(Image.open(path))] *)
  f_image_ocr : outcome pystr
}.

(** The values of a result dictionary. *)
Inductive value :=
| VStr (s : pystr)
| VTxns (l : list txn).

Definition error_result (msg : pystr) : gmap string value :=
  {[ "error"%string := VStr msg; "transactions"%string := VTxns [] ]}.

Definition method_result (l : list txn) (method : pystr) : gmap string value :=
  {[ "transactions"%string := VTxns l; "method"%string := VStr method ]}.

(** The transaction list of a result. *)
Definition transactions_of (d : gmap string value) : list txn :=
  match d !! "transactions"%string with
  | Some (VTxns l) => l
  | _ => []
  end.

(** The strategies of the chains. *)
Inductive strategy :=
| PageTables        (* the tables of the pdfplumber pages *)
| LinePattern       (* the regex pass over the pdfplumber text *)
| Pdfplumber        (* [_parse_pdf_with_pdfplumber] *)
| Camelot           (* [_parse_pdf_with_camelot] *)
| Ocr.              (* [_parse_pdf_with_ocr] *)

Abbreviation M := (Run.M strategy txn).

(** The loop over the pages of [_parse_pdf_with_pdfplumber]: the text so
    far, the detected bank and the transactions of the tables. *)
Fixpoint plumber_pages (pages : list page) (full_text : pystr)
  (detected_bank : option pystr) (transactions : list txn)
  : pystr * option pystr * list txn :=
  match pages with
  | [] => (full_text, detected_bank, transactions)
  | pg :: pages' =>
      match p_text pg with
      | Some ((_ :: _) as text) =>
          let bank' :=
            match detected_bank with
            | Some b => Some b
            | None => detect_bank text
            end in
          let found :=
            concat (map (fun t : table =>
                           if (1 <? length t)%nat
                           then _process_table_data t bank' else [])
                        (p_tables pg)) in
          plumber_pages pages' (full_text ++ text) bank' (transactions ++ found)
      | _ => plumber_pages pages' full_text detected_bank transactions
      end
  end.

(** [_parse_pdf_with_pdfplumber] *)
Definition _parse_pdf_with_pdfplumber (f : file) : M (list txn) :=
  pages <- lift (f_plumber f) ;;
  let '(full_text, detected_bank, found) := plumber_pages pages [] None [] in
  transactions <- invoke PageTables (Ok found) ;;
  transactions <-
    (match transactions, full_text with
     | [], _ :: _ =>
         invoke LinePattern (Ok (_parse_text_with_regex full_text detected_bank))
     | _, _ => ret transactions
     end) ;;
  ret (_clean_and_categorize_transactions transactions).

(** The loop over the tables of [_parse_pdf_with_camelot]. *)
Fixpoint camelot_tables (tables : list dataframe) (detected_bank : option pystr)
  (transactions : list txn) : list txn :=
  match tables with
  | [] => transactions
  | df :: tables' =>
      if negb (df_empty df) && (4 <=? length (df_columns df))%nat then
        let bank' :=
          match detected_bank with
          | Some b => Some b
          | None =>
              detect_bank (join $" " (map c_str (default [] (head (df_rows df)))))
          end in
        camelot_tables tables' bank' (transactions ++ _process_dataframe df bank')
      else camelot_tables tables' detected_bank transactions
  end.

(** [_parse_pdf_with_camelot]: any exception gives the empty list. *)
Definition _parse_pdf_with_camelot (f : file) : outcome (list txn) :=
  match f_camelot_lattice f with
  | Raise _ => Ok []
  | Ok ((_ :: _) as tables) =>
      Ok (_clean_and_categorize_transactions (camelot_tables tables None []))
  | Ok [] =>
      match f_camelot_stream f with
      | Raise _ => Ok []
      | Ok tables =>
          Ok (_clean_and_categorize_transactions (camelot_tables tables None []))
      end
  end.

(** [_parse_pdf_with_ocr]: any exception gives the empty list. *)
Definition _parse_pdf_with_ocr (f : file) : outcome (list txn) :=
  match f_fitz_ocr f with
  | Raise _ => Ok []
  | Ok texts =>
      let full_text := concat (map (fun text => text ++ [newline]) texts) in
      let detected_bank := detect_bank full_text in
      Ok (_clean_and_categorize_transactions
            (_parse_text_with_regex full_text detected_bank))
  end.

(** [_parse_pdf_statement] *)
Definition _parse_pdf_statement (f : file) : M (gmap string value) :=
  try_except
    (transactions <- invoke Pdfplumber (result (_parse_pdf_with_pdfplumber f)) ;;
     match transactions with
     | _ :: _ => ret (method_result transactions $"pdfplumber")
     | [] =>
         transactions <- invoke Camelot (_parse_pdf_with_camelot f) ;;
         match transactions with
         | _ :: _ => ret (method_result transactions $"camelot")
         | [] =>
             transactions <- invoke Ocr (_parse_pdf_with_ocr f) ;;
             ret (method_result transactions $"ocr")
         end
     end)
    (fun e => ret (error_result e)).

(** [_parse_csv_statement]: the encodings are tried in order; only a
    [UnicodeDecodeError] moves on to the next one. *)
Fixpoint read_csv_any (f : file) (encodings : list pystr) : outcome (option dataframe) :=
  match encodings with
  | [] => Ok None
  | enc :: encodings' =>
      match f_read_csv f enc with
      | CsvFrame df => Ok (Some df)
      | CsvUnicodeDecodeError => read_csv_any f encodings'
      | CsvError msg => Raise msg
      end
  end.

Definition _parse_csv_statement (f : file) : M (gmap string value) :=
  try_except
    (df <- lift (read_csv_any f [$"utf-8"; $"utf-8-sig"; $"latin1"; $"cp1252"]) ;;
     match df with
     | None => raise $"Could not read CSV file with any encoding"
     | Some df =>
         let detected_bank := detect_bank (join $" " (df_columns df)) in
         let transactions := _process_dataframe df detected_bank in
         ret (method_result (_clean_and_categorize_transactions transactions) $"csv")
     end)
    (fun e => ret (error_result e)).

(** The loop over the sheets of [_parse_excel_statement]. *)
Fixpoint excel_sheets (sheets : list (pystr * outcome dataframe))
  : M (gmap string value) :=
  match sheets with
  | [] => ret (error_result $"No valid transaction data found in Excel file")
  | (sheet_name, read) :: sheets' =>
      df <- lift read ;;
      if (0 <? length (df_rows df))%nat && (4 <=? length (df_columns df))%nat then
        let detected_bank := detect_bank (join $" " (df_columns df)) in
        match _process_dataframe df detected_bank with
        | (_ :: _) as transactions =>
            ret (<[ "sheet"%string := VStr sheet_name ]>
                   (method_result (_clean_and_categorize_transactions transactions)
                                  $"excel"))
        | [] => excel_sheets sheets'
        end
      else excel_sheets sheets'
  end.

Definition _parse_excel_statement (f : file) : M (gmap string value) :=
  try_except
    (sheets <- lift (f_excel f) ;; excel_sheets sheets)
    (fun e => ret (error_result e)).

(** [_parse_image_statement] *)
Definition _parse_image_statement (f : file) : M (gmap string value) :=
  try_except
    (text <- lift (f_image_ocr f) ;;
     let detected_bank := detect_bank text in
     let transactions := _parse_text_with_regex text detected_bank in
     ret (method_result (_clean_and_categorize_transactions transactions)
                        $"ocr_image"))
    (fun e => ret (error_result e)).

(** [Path(p).name]: the last component of the path. *)
Definition path_name (p : pystr) : pystr :=
  default [] (last (filter (fun c => c <> [] /\ c <> $".") (split_on 47 p))).

(** The index of the last occurrence of a character. *)
Fixpoint rfind_aux (c : char) (s : pystr) (i : nat) (found : option nat) : option nat :=
  match s with
  | [] => found
  | d :: s' => rfind_aux c s' (S i) (if d =? c then Some i else found)
  end.

(** [Path(p).suffix]: from the last dot of the name, unless that dot
    starts or ends the name. *)
Definition path_suffix (p : pystr) : pystr :=
  let name := path_name p in
  match rfind_aux 46 name 0 None with
  | Some i =>
      if (0 <? i)%nat && (i <? length name - 1)%nat then drop i name else []
  | None => []
  end.

(** [parse_statement] *)
Definition parse_statement (f : file) : M (gmap string value) :=
  try_except
    (let extension := lower (path_suffix (f_path f)) in
     if PyStr.eqb extension $".pdf" then _parse_pdf_statement f
     else if PyStr.eqb extension $".csv" then _parse_csv_statement f
     else if PyStr.eqb extension $".xlsx" || PyStr.eqb extension $".xls"
     then _parse_excel_statement f
     else if PyStr.eqb extension $".jpg" || PyStr.eqb extension $".jpeg"
             || PyStr.eqb extension $".png" || PyStr.eqb extension $".tiff"
     then _parse_image_statement f
     else raise ($"Unsupported file format: " ++ extension))
    (fun e => ret (error_result e)).

(** *** The summary of a parsed statement *)

(** The name of the type of a ['date'] value in an error message. *)
Definition type_name (v : option PyDate.date) : pystr :=
  match v with
  | Some _ => $"datetime.datetime"
  | None => $"NoneType"
  end.

Definition not_supported (op : pystr) (v w : option PyDate.date) : pystr :=
  ($"'" ++ op ++ $"' not supported between instances of '" ++ type_name v
    ++ $"' and '" ++ type_name w ++ $"'")%list.

(** [min(...)] after the first value: each further value is compared
    with the least value so far, [value < least]; a comparison with
    [None] raises [TypeError]. *)
Fixpoint min_from (least : option PyDate.date) (values : list (option PyDate.date))
  : outcome (option PyDate.date) :=
  match values with
  | [] => Ok least
  | v :: values' =>
      match v, least with
      | Some d, Some m => min_from (if date_ltb d m then v else least) values'
      | _, _ => Raise (not_supported $"<" v least)
      end
  end.

(** [max(...)] after the first value, with [value > greatest]. *)
Fixpoint max_from (greatest : option PyDate.date) (values : list (option PyDate.date))
  : outcome (option PyDate.date) :=
  match values with
  | [] => Ok greatest
  | v :: values' =>
      match v, greatest with
      | Some d, Some m => max_from (if date_ltb m d then v else greatest) values'
      | _, _ => Raise (not_supported $">" v greatest)
      end
  end.

(** [value.strftime('%d/%m/%Y')]; [None] has no such method. *)
Definition render (v : option PyDate.date) : outcome pystr :=
  match v with
  | Some d => Ok (strftime $"%d/%m/%Y" d)
  | None => Raise $"'NoneType' object has no attribute 'strftime'"
  end.

(** One step of the loop over the categories: the entry of the category
    is created when it is missing, and its count goes up by one.  The
    keys keep the order of their first occurrence. *)
Fixpoint count_category (breakdown : list (pystr * nat)) (c : pystr)
  : list (pystr * nat) :=
  match breakdown with
  | [] => [(c, 1%nat)]
  | (k, n) :: breakdown' =>
      if PyStr.eqb k c then (k, S n) :: breakdown'
      else (k, n) :: count_category breakdown' c
  end.

(** The summary dictionary.  The float totals (['total_credits'],
    ['total_debits'], ['net_amount'] and the amount of each category) are
    left out; ['banks'] is the list of a set, whose order is not
    determined. *)
Record summary := {
  total_transactions : nat;
  date_range : pystr * pystr;               (* 'start', 'end' *)
  category_breakdown : list (pystr * nat);  (* the 'count' of each category *)
  banks : gset (option pystr)
}.

Inductive summary_result :=
| NoTransactions             (* [{'error': 'No transactions found'}] *)
| Summary (s : summary).

(** [get_statement_summary] *)
Definition get_statement_summary (transactions : list txn) : outcome summary_result :=
  match transactions with
  | [] => Ok NoTransactions
  | t :: ts =>
      let breakdown :=
        fold_left (fun b x => count_category b (default $"others" (category x)))
                  transactions [] in
      match min_from (date t) (map date ts) with
      | Raise e => Raise e
      | Ok least =>
          match render least with
          | Raise e => Raise e
          | Ok start =>
              match max_from (date t) (map date ts) with
              | Raise e => Raise e
              | Ok greatest =>
                  match render greatest with
                  | Raise e => Raise e
                  | Ok end_ =>
                      Ok (Summary
                            {| total_transactions := length transactions;
                               date_range := (start, end_);
                               category_breakdown := breakdown;
                               banks := list_to_set (map bank transactions) |})
                  end
              end
          end
      end
  end.

End Advanced.

(** ** The transaction dictionaries of the PDF parsers

    [EnhancedPDFParser], [IndianBankParser], [GeminiPDFParser] and
    [FreePDFParser] return dictionaries of one shape, with the date
    rendered as [YYYY-MM-DD]. *)

Module Statement.

Notation "$ s" := (py s%string) (at level 1, format "$ s").

(** A decoded JSON value, as far as the code looks at it: a number comes
    with its [str()], a list or an object is seen through its [str()]
    only. *)
Inductive pyval :=
| PNone
| PBool (b : bool)
| PNum (q : Q) (repr : pystr)
| PStr (s : pystr)
| PContainer (repr : pystr).

(** [str(v)] *)
Definition py_str (v : pyval) : pystr :=
  match v with
  | PNone => $"None"
  | PBool true => $"True"
  | PBool false => $"False"
  | PNum _ repr => repr
  | PStr s => s
  | PContainer repr => repr
  end.

(** The display field ['formatted_amount'], a rendering of the float, is
    left out.  ['bank'] is absent from the sample transactions. *)
Record txn := {
  date : pystr;
  formatted_date : pystr;
  description : pystr;
  amount : Q;
  type_ : pystr;
  category : pyval;
  bank : option pystr
}.

(** The month-name part of the textual date patterns. *)
Definition MONTHS : re :=
  Alts (map (fun w => Lit (py w))
            ["Jan"; "Feb"; "Mar"; "Apr"; "May"; "Jun";
             "Jul"; "Aug"; "Sep"; "Oct"; "Nov"; "Dec"]%string).

(** [(\d{1,2}\s+(?:Jan|...|Dec)\s+\d{4})] *)
Definition mon_pattern : re :=
  Grp 1 (Seq [Rep 1 2 digit; Plus space; MONTHS; Plus space; Times 4 digit]).

(** [[\d,]+\.?\d*] *)
Definition loose_number : re :=
  Seq [Plus (Cls false [CDigit; CChr 44]); Opt (Chr 46); Star digit].

(** [INR\s+(N)] where [N] is the pattern above *)
Definition inr_pattern : re :=
  Seq [Lit $"INR"; Plus space; Grp 1 loose_number].

(** The amounts of a list of matched texts:
    [float(m.replace(',', ''))] when it is positive. *)
Definition positive_amounts (ms : list pystr) : list Q :=
  omap (fun m =>
          match py_float (replace $"," [] m) with
          | Some a => if is_pos a then Some a else None
          | None => None
          end) ms.

End Statement.

(** ** indian_bank_parser.py: [IndianBankParser] *)

Module IndianBank.
Import Statement.

(** [_categorize] *)
Definition _categorize (description : pystr) : pystr :=
  let desc_lower := lower description in
  if contains $"upi" desc_lower then
    if any_in [$"swiggy"; $"zomato"; $"food"] desc_lower then $"food_dining"
    else if any_in [$"amazon"; $"flipkart"; $"shopping"] desc_lower then $"shopping"
    else $"transfer"
  else if any_in [$"salary"; $"pay"; $"income"] desc_lower then $"salary"
  else if any_in [$"atm"; $"cash"; $"withdrawal"] desc_lower then $"cash_withdrawal"
  else if any_in [$"grocery"; $"supermarket"] desc_lower then $"groceries"
  else if any_in [$"fuel"; $"petrol"; $"gas"] desc_lower then $"fuel"
  else if any_in [$"electricity"; $"water"; $"utility"; $"bill"; $"rent"] desc_lower
  then $"utilities"
  else if any_in [$"medical"; $"hospital"; $"pharmacy"] desc_lower then $"medical"
  else if any_in [$"transfer"; $"neft"; $"imps"; $"rtgs"] desc_lower then $"transfer"
  else $"others".

(** [line[a:b]] for [0 <= a]; [b] may be [-1] *)
Definition slice (a : nat) (b : option nat) (s : pystr) : pystr :=
  match b with
  | Some b => drop a (take b s)
  | None => drop a (take (length s - 1) s)
  end.

(** [line.find('INR', start)] *)
Definition find_from (p : pystr) (start : nat) (s : pystr) : option nat :=
  (fun i => (i + start)%nat) <$> PyStr.find p (drop start s).

(** The type and amount of a line with the given positive INR amounts;
    [None] when the line is passed over. *)
Definition type_and_amount (line : pystr) (amounts : list Q) : option (bool * Q) :=
  match amounts with
  | [] => None
  | [_] => None
  | [a; _] =>
      let before_inr := slice 0 (PyStr.find $"INR" line) line in
      if contains $"-" before_inr then Some (false, a)
      else if contains $"+" before_inr then Some (true, a)
      else if any_in [$"upi"; $"payment"; $"debit"; $"withdrawal"] (lower line)
      then Some (false, a) else Some (true, a)
  | [debit_amount; credit_amount; _] =>
      if is_pos debit_amount && is_zero credit_amount
      then Some (false, debit_amount)
      else if is_pos credit_amount && is_zero debit_amount
      then Some (true, credit_amount)
      else Some (is_pos credit_amount,
                 if is_pos debit_amount then debit_amount else credit_amount)
  | a :: _ => Some (false, a)
  end.

(** [_parse_transaction_line] *)
Definition _parse_transaction_line (line : pystr) : option txn :=
  match search false mon_pattern line with
  | None => None
  | Some date_match =>
      match strptime (group 1 date_match) $"%d %b %Y" with
      | None => None
      | Some date_obj =>
          let amounts := positive_amounts (findall1 false inr_pattern line) in
          match type_and_amount line amounts with
          | None => None
          | Some (is_credit, transaction_amount) =>
              let desc_start := m_end date_match in
              let description :=
                match find_from $"INR" desc_start line with
                | Some first_inr_pos =>
                    if (desc_start <? first_inr_pos)%nat
                    then strip (slice desc_start (Some first_inr_pos) line)
                    else $"Transaction"
                | None => $"Transaction"
                end in
              let description :=
                strip (sub false
                           (Cat (Plus (Cls false [CChr 45; CChr 43; CSpace])) Eos)
                           [] description) in
              let description :=
                if (length description <? 3)%nat then $"Bank Transaction"
                else description in
              Some {| date := strftime $"%Y-%m-%d" date_obj;
                      formatted_date := strftime $"%d %b %Y" date_obj;
                      description := take 200 description;
                      amount := transaction_amount;
                      type_ := if is_credit then $"credit" else $"debit";
                      category := PStr (_categorize description);
                      bank := Some $"Indian Bank" |}
          end
      end
  end.

(** The loop of [parse_text]: nothing is parsed before the line that
    holds ACCOUNT ACTIVITY. *)
Fixpoint parse_lines (in_transactions : bool) (lines : list pystr) : list txn :=
  match lines with
  | [] => []
  | raw :: lines' =>
      let line := strip raw in
      if contains $"ACCOUNT ACTIVITY" (upper line) then parse_lines true lines'
      else if negb in_transactions || bool_decide (line = []) then
        parse_lines in_transactions lines'
      else if contains $"Date" line && contains $"Transaction Details" line then
        parse_lines in_transactions lines'
      else
        match _parse_transaction_line line with
        | Some t => t :: parse_lines in_transactions lines'
        | None => parse_lines in_transactions lines'
        end
  end.

(** [parse_text] *)
Definition parse_text (text : pystr) : list txn :=
  parse_lines false (split_on newline text).

End IndianBank.

(** ** The text layer of a PDF: PyPDF2 *)

Module PdfText.

(** [PyPDF2.PdfReader(file).pages] with [extract_text()] of each page;
    opening the file or extracting a page may raise. *)
Definition pdf := outcome (list (outcome pystr)).

Fixpoint collect (pages : list (outcome pystr)) (text : pystr) : pystr :=
  match pages with
  | [] => text
  | Ok t :: pages' => collect pages' (text ++ t ++ [newline])
  | Raise _ :: _ => text
  end.

(** [_extract_text_from_pdf]: an exception ends the extraction with the
    text read so far. *)
Definition _extract_text_from_pdf (f : pdf) : pystr :=
  match f with
  | Ok pages => collect pages []
  | Raise _ => []
  end.

End PdfText.

(** ** gemini_pdf_parser.py: [GeminiPDFParser] *)

Module Gemini.
Import Statement PdfText.

(** An element of the decoded response: an object with its items, or
    anything else. *)
Inductive entry :=
| EObject (items : list (pystr * pyval))
| EOther.

(** The decoded response: an array, or anything else. *)
Inductive decoded :=
| DArray (entries : list entry)
| DOther.

(** The parser object during one run: [self.model] when the service is
    configured, as what the service answers during the run to the
    statement text (which the prompt embeds), and [json.loads].  The
    service may answer another run differently: two runs are two such
    objects. *)
Record parser := {
  model : option (pystr -> outcome pystr);
  json_loads : pystr -> outcome decoded;
  PDF_AVAILABLE : bool
}.

(** [is_available] *)
Definition is_available (p : parser) : bool :=
  match model p with Some _ => true | None => false end.

Definition lookup (k : pystr) (items : list (pystr * pyval)) : option pyval :=
  (fun kv => snd (snd kv)) <$> list_find (fun kv => fst kv = k) items.

(** [float(v)] on a number that is finite; [None] stands for an
    exception.  A NaN or an infinity of the response has no counterpart
    here, and no property of the amount of an entry is stated. *)
Definition float_of (v : pyval) : option Q :=
  match v with
  | PNum q _ => Some q
  | PStr s => py_float s
  | PBool b => Some (if b then 1 else 0)%Q
  | _ => None
  end.

(** The body of the validation loop of [_extract_with_gemini]. *)
Definition validate (e : entry) : option txn :=
  match e with
  | EOther => None
  | EObject items =>
      match lookup $"date" items, lookup $"description" items,
            lookup $"amount" items, lookup $"type" items with
      | Some (PStr d), Some desc, Some a, Some (PStr ty) =>
          match strptime d $"%Y-%m-%d" with
          | None => None
          | Some date_obj =>
              match float_of a with
              | None => None
              | Some amount =>
                  if Qle_bool amount 0 then None
                  else if negb (PyStr.eqb ty $"credit" || PyStr.eqb ty $"debit")
                  then None
                  else
                    Some {| date := strftime $"%Y-%m-%d" date_obj;
                            formatted_date := strftime $"%d %b %Y" date_obj;
                            description := take 200 (py_str desc);
                            amount := amount;
                            type_ := ty;
                            category :=
                              default (PStr $"others") (lookup $"category" items);
                            bank := Some $"Extracted by AI" |}
              end
          end
      | _, _, _, _ => None
      end
  end.

(** [s.endswith(p)] *)
Definition endswith (p s : pystr) : bool := startswith (rev p) (rev s).

(** The removal of a Markdown fence around the response. *)
Definition strip_fence (response : pystr) : pystr :=
  let response_text := strip response in
  let response_text :=
    if startswith $"```" response_text then
      let body :=
        match break_at (fun c => c =? newline) response_text with
        | (_, Some rest) => rest
        | (_, None) => drop 3 response_text
        end in
      if endswith $"```" body then take (length body - 3) body else body
    else response_text in
  strip response_text.

(** [_extract_with_gemini] *)
Definition _extract_with_gemini (p : parser) (text : pystr) : list txn :=
  match model p with
  | None => []
  | Some generate_content =>
      match generate_content text with
      | Raise _ => []
      | Ok response =>
          match json_loads p (strip_fence response) with
          | Ok (DArray entries) => omap validate entries
          | _ => []
          end
      end
  end.

(** [parse_pdf] *)
Definition parse_pdf (p : parser) (f : pdf) : list txn :=
  if negb (is_available p) then []
  else
    let text := if PDF_AVAILABLE p then _extract_text_from_pdf f else [] in
    if (length (strip text) <? 50)%nat then []
    else _extract_with_gemini p text.

(** [v in ['credit', 'debit']], with the string when it holds. *)
Definition credit_or_debit_value (v : pyval) : option pystr :=
  match v with
  | PStr s => if PyStr.eqb s $"credit" || PyStr.eqb s $"debit" then Some s else None
  | _ => None
  end.

(** The body of the loop of [parse_with_image]: the presence of the four
    keys is tested, the date and the amount are converted inside the
    [try] of the entry, and the amount and the type are tested
    together. *)
Definition validate_vision (e : entry) : option txn :=
  match e with
  | EOther => None
  | EObject items =>
      match lookup $"date" items, lookup $"description" items,
            lookup $"amount" items, lookup $"type" items with
      | Some d, Some desc, Some a, Some ty =>
          let date_obj :=
            match d with
            | PStr s => strptime s $"%Y-%m-%d"
            | _ => None
            end in
          match date_obj, float_of a with
          | Some date_obj, Some amount =>
              match Qle_bool amount 0, credit_or_debit_value ty with
              | false, Some ty =>
                  Some {| date := strftime $"%Y-%m-%d" date_obj;
                          formatted_date := strftime $"%d %b %Y" date_obj;
                          description := take 200 (py_str desc);
                          amount := amount;
                          type_ := ty;
                          category :=
                            default (PStr $"others") (lookup $"category" items);
                          bank := Some $"Extracted by AI Vision" |}
              | _, _ => None
              end
          | _, _ => None
          end
      | _, _, _, _ => None
      end
  end.

(** [parse_with_image]; [vision] is what [genai.upload_file] and
    [generate_content] on the uploaded file give for the PDF: the text of
    the response, or an exception.  A failure of [genai.delete_file] is
    passed over by the source. *)
Definition parse_with_image (p : parser) (vision : outcome pystr) : list txn :=
  if negb (is_available p) then []
  else
    match vision with
    | Raise _ => []
    | Ok response =>
        match json_loads p (strip_fence response) with
        | Ok (DArray entries) => omap validate_vision entries
        | _ => []
        end
    end.

(** [parse_with_gemini], for the parser that [GeminiPDFParser(api_key)]
    builds. *)
Definition parse_with_gemini (p : parser) (f : pdf) (vision : outcome pystr)
  (use_vision : bool) : list txn :=
  if use_vision then parse_with_image p vision else parse_pdf p f.

End Gemini.

(** ** enhanced_pdf_parser.py: [EnhancedPDFParser] *)

Module Enhanced.
Import Statement PdfText.

(** [self.date_patterns] *)
Definition dsep : re := Cls false [CChr 47; CChr 45].
Definition date_patterns : list re :=
  [ Grp 1 (Seq [Times 2 digit; dsep; Times 2 digit; dsep; Times 4 digit]);
    Grp 1 (Seq [Times 2 digit; dsep; Times 2 digit; dsep; Times 2 digit]);
    Grp 1 (Seq [Times 4 digit; dsep; Times 2 digit; dsep; Times 2 digit]) ].

(** [[\d,]+\.\d{2}] *)
Definition money : re :=
  Seq [Plus (Cls false [CDigit; CChr 44]); Chr 46; Times 2 digit].

(** [self.amount_patterns] *)
Definition amount_patterns : list re :=
  [ Seq [Opt (Chr rupee); Star space; Grp 1 money];
    Seq [Lit $"Rs"; Opt (Chr 46); Star space; Grp 1 money];
    Seq [Lit $"INR"; Star space; Grp 1 money] ].

Definition credit_keywords : list pystr :=
  [ $"credit"; $"deposit"; $"salary"; $"transfer credit"; $"neft cr";
    $"imps cr"; $"rtgs cr"; $"upi cr"; $"refund"; $"interest credited" ].

Definition debit_keywords : list pystr :=
  [ $"debit"; $"withdrawal"; $"payment"; $"transfer debit"; $"neft dr";
    $"imps dr"; $"rtgs dr"; $"upi"; $"atm"; $"pos"; $"emi"; $"charges" ].

(** [_parse_date]: [None] stands for the [ValueError]. *)
Definition _parse_date (date_str : pystr) : option PyDate.date :=
  Advanced.first_format
    [ $"%d/%m/%Y"; $"%d-%m-%Y"; $"%d/%m/%y"; $"%d-%m-%y"; $"%Y/%m/%d";
      $"%Y-%m-%d"; $"%Y/%m/%d"; $"%Y-%m-%d"; $"%d %b %Y"; $"%d %B %Y" ]
    date_str.

(** [_categorize_transaction] *)
Definition _categorize_transaction (description : pystr) : pystr :=
  let desc_lower := lower description in
  if any_in [$"salary"; $"pay"; $"income"] desc_lower then $"salary"
  else if any_in [$"atm"; $"cash"; $"withdrawal"] desc_lower then $"cash_withdrawal"
  else if any_in [$"grocery"; $"supermarket"; $"food"; $"swiggy"; $"zomato"] desc_lower
  then $"groceries"
  else if any_in [$"fuel"; $"petrol"; $"gas"; $"diesel"] desc_lower then $"fuel"
  else if any_in [$"restaurant"; $"dining"; $"cafe"; $"hotel"] desc_lower
  then $"food_dining"
  else if any_in [$"electricity"; $"water"; $"utility"; $"bill"; $"rent"] desc_lower
  then $"utilities"
  else if any_in [$"medical"; $"hospital"; $"pharmacy"; $"doctor"] desc_lower
  then $"medical"
  else if any_in [$"shopping"; $"mall"; $"store"; $"amazon"; $"flipkart"] desc_lower
  then $"shopping"
  else if any_in [$"transfer"; $"neft"; $"imps"; $"rtgs"; $"upi"] desc_lower
  then $"transfer"
  else if any_in [$"emi"; $"loan"; $"interest"] desc_lower then $"loan"
  else $"others".

(** The first pattern of the list that is found, with its group 1. *)
Fixpoint first_group (patterns : list re) (line : pystr) : option pystr :=
  match patterns with
  | [] => None
  | p :: ps =>
      match search false p line with
      | Some m => Some (group 1 m)
      | None => first_group ps line
      end
  end.

(** The amounts of the line: the INR amounts, and the amounts of the
    other patterns only when there is no INR amount. *)
Definition line_amounts (line : pystr) : list Q :=
  match positive_amounts (findall1 true inr_pattern line) with
  | [] =>
      concat (map (fun p => positive_amounts (findall1 false p line))
                  amount_patterns)
  | amounts => amounts
  end.

(** The type of the line. *)
Definition line_type (line : pystr) : pystr :=
  let line_lower := lower line in
  let is_credit := any_in credit_keywords line_lower in
  let is_debit := any_in debit_keywords line_lower in
  let is_credit :=
    if negb is_credit && negb is_debit then
      if matches false (Seq [Chr 45; Star space; Lit $"INR"]) line then false
      else matches false (Seq [Chr 43; Star space; Lit $"INR"]) line
    else is_credit in
  if is_credit then $"credit" else $"debit".

(** The description of the line: the dates and the amounts are removed,
    the white space is collapsed. *)
Definition line_description (line : pystr) : pystr :=
  let description := fold_left (fun d p => sub false p [] d) date_patterns line in
  let description := sub true mon_pattern [] description in
  let description := fold_left (fun d p => sub false p [] d) amount_patterns description in
  let description :=
    sub true (Seq [Lit $"INR"; Plus space; loose_number]) [] description in
  let description := sub false (Cls false [CChr 45; CChr 43]) [] description in
  strip (join $" " (words description)).

(** [_extract_transaction_from_line].  The local variable [mon_pattern]
    of the source is assigned only when none of [self.date_patterns] is
    found; the later [re.sub(mon_pattern, ...)] raises [UnboundLocalError]
    otherwise. *)
Definition _extract_transaction_from_line (line : pystr) : outcome (option txn) :=
  let numeric := first_group date_patterns line in
  let date_str :=
    match numeric with
    | Some s => Some s
    | None => (group 1) <$> search true mon_pattern line
    end in
  match date_str with
  | None => Ok None
  | Some date_str =>
      match _parse_date date_str with
      | None => Ok None
      | Some date_obj =>
          match line_amounts line with
          | [] => Ok None
          | amount :: _ =>
              match numeric with
              | Some _ =>
                  Raise $"cannot access local variable 'mon_pattern' where it is not associated with a value"
              | None =>
                  let txn_type := line_type line in
                  let description := line_description line in
                  let description :=
                    if (length description <? 3)%nat
                    then title txn_type ++ $" Transaction"
                    else description in
                  Ok (Some {| date := strftime $"%Y-%m-%d" date_obj;
                              formatted_date := strftime $"%d %b %Y" date_obj;
                              description := take 200 description;
                              amount := amount;
                              type_ := txn_type;
                              category := PStr (_categorize_transaction description);
                              bank := Some $"Indian Bank" |})
              end
          end
      end
  end.

(** [_parse_transactions_from_text]: an exception of a line ends the
    loop. *)
Fixpoint parse_lines (lines : list pystr) : outcome (list txn) :=
  match lines with
  | [] => Ok []
  | raw :: lines' =>
      let line := strip raw in
      if (length line <? 20)%nat then parse_lines lines'
      else
        match _extract_transaction_from_line line with
        | Raise e => Raise e
        | Ok o =>
            match parse_lines lines' with
            | Raise e => Raise e
            | Ok rest => Ok (match o with Some t => t :: rest | None => rest end)
            end
        end
  end.

Definition _parse_transactions_from_text (text : pystr) : outcome (list txn) :=
  parse_lines (split_on newline text).

(** [_get_sample_transactions]; [now] is the date of [datetime.now()]. *)
Definition sample (base_date : PyDate.date) (days : Z) (description : pystr)
  (amount : Q) (type_ category : pystr) : txn :=
  {| date := strftime $"%Y-%m-%d" (add_days base_date days);
     formatted_date := strftime $"%d %b %Y" (add_days base_date days);
     description := description; amount := amount; type_ := type_;
     category := PStr category; bank := None |}.

Definition _get_sample_transactions (now : PyDate.date) : list txn :=
  let base_date := add_days now (-30) in
  [ sample base_date 1 $"SALARY CREDIT - COMPANY NAME" 75000 $"credit" $"salary";
    sample base_date 2 $"UPI-SWIGGY-FOOD ORDER" 450 $"debit" $"food_dining";
    sample base_date 3 $"ATM CASH WITHDRAWAL" 10000 $"debit" $"cash_withdrawal";
    sample base_date 5 $"NEFT-RENT PAYMENT" 25000 $"debit" $"utilities";
    sample base_date 7 $"ELECTRICITY BILL PAYMENT" 1800 $"debit" $"utilities" ].

(** The import flags of the module. *)
Record flags := {
  PDF_AVAILABLE : bool;
  INDIAN_BANK_PARSER_AVAILABLE : bool;
  GEMINI_PARSER_AVAILABLE : bool
}.

(** The parser object: [self.gemini_parser]. *)
Record parser := { gemini_parser : option Gemini.parser }.

(** [__init__] *)
Definition init (fl : flags) (use_gemini_fallback : bool) (g : Gemini.parser)
  : parser :=
  {| gemini_parser :=
       if use_gemini_fallback && GEMINI_PARSER_AVAILABLE fl && Gemini.is_available g
       then Some g else None |}.

(** The strategies of the chain of [parse_pdf]. *)
Inductive strategy :=
| IndianBankFormat   (* [IndianBankParser.parse_text] *)
| GenericLines       (* [_parse_transactions_from_text] *)
| GeminiAI.          (* [self.gemini_parser.parse_pdf] *)

Abbreviation M := (Run.M strategy txn).

(** [parse_pdf]; [now] is the date of the clock when the call is made. *)
Definition parse_pdf (fl : flags) (self : parser) (now : PyDate.date) (f : pdf)
  : M (list txn) :=
  if negb (PDF_AVAILABLE fl) then ret (_get_sample_transactions now)
  else
    try_except
      (let text := _extract_text_from_pdf f in
       if (length (strip text) <? 100)%nat then ret (_get_sample_transactions now)
       else
         transactions <-
           (if (contains $"Indian Bank" text || contains $"ACCOUNT ACTIVITY" text)
               && INDIAN_BANK_PARSER_AVAILABLE fl
            then invoke IndianBankFormat (Ok (IndianBank.parse_text text))
            else ret []) ;;
         match transactions with
         | _ :: _ => ret transactions
         | [] =>
             transactions <-
               invoke GenericLines (_parse_transactions_from_text text) ;;
             match transactions, gemini_parser self with
             | [], Some g =>
                 transactions <- invoke GeminiAI (Ok (Gemini.parse_pdf g f)) ;;
                 match transactions with
                 | _ :: _ => ret transactions
                 | [] => ret (_get_sample_transactions now)
                 end
             | [], None => ret (_get_sample_transactions now)
             | _ :: _, _ => ret transactions
             end
         end)
      (fun _ => ret (_get_sample_transactions now)).

(** What a run [m] of [parse_pdf] at the clock [now] does after the
    strategies that read the text themselves have logged [tr] and
    extracted nothing: it stops there with the sample transactions, or it
    invokes the AI strategy and returns its list when that is not empty,
    and the sample transactions when it is. *)
Definition after_local (tr : list (event strategy txn)) (m : M (list txn))
  (now : PyDate.date) : Prop :=
  (trace m = tr /\ result m = Ok (_get_sample_transactions now))
  \/ (exists l,
         trace m = tr ++ [{| ev_strategy := GeminiAI; ev_result := Ok l |}]
         /\ ((l <> [] /\ result m = Ok l)
             \/ (l = [] /\ result m = Ok (_get_sample_transactions now)))).

End Enhanced.

(** ** free_pdf_parser.py: [FreePDFParser] *)

Module Free.
Import Statement.

(** [self.date_patterns] *)
Definition fsep : re := Cls false [CChr 45; CChr 47].
Definition date_patterns : list re :=
  [ Seq [Grp 1 (Rep 1 2 digit); fsep; Grp 2 (Rep 1 2 digit); fsep;
         Grp 3 (Rep 2 4 digit)];
    Seq [Grp 1 (Rep 1 2 digit); Cls false [CChr 45; CChr 32]; Grp 2 MONTHS;
         Star (Cls false [CRange 97 122]); Cls false [CChr 45; CChr 32];
         Grp 3 (Times 4 digit)];
    Seq [Grp 1 (Times 4 digit); fsep; Grp 2 (Rep 1 2 digit); fsep;
         Grp 3 (Rep 1 2 digit)] ].

Definition bank_keywords : list pystr :=
  [ $"UPI"; $"NEFT"; $"IMPS"; $"RTGS"; $"ATM"; $"CASH"; $"TRF"; $"TRANSFER";
    $"CREDIT"; $"DEBIT"; $"BAL"; $"B/F"; $"BALANCE"; $"WITHDRAWAL"; $"DEPOSIT" ].

(** [self.amount_pattern]: an optional currency sign, white space, then
    the group: one to three digits, groups of a comma and three digits,
    an optional fraction of two digits. *)
Definition amount_pattern : re :=
  Seq [Opt (Cls false [CChr rupee; CChr 36]); Star space;
       Grp 1 (Seq [Rep 1 3 digit; Star (Cat (Chr 44) (Times 3 digit));
                   Opt (Cat (Chr 46) (Times 2 digit))])].

(** [_parse_date]: the date as [YYYY-MM-DD]. *)
Definition _parse_date (date_str : pystr) : option pystr :=
  match strip date_str with
  | [] => None
  | s =>
      strftime $"%Y-%m-%d" <$>
        Advanced.first_format
          [ $"%d/%m/%Y"; $"%d-%m-%Y"; $"%d.%m.%Y"; $"%d/%m/%y"; $"%d-%m-%y";
            $"%d.%m.%y"; $"%Y/%m/%d"; $"%Y-%m-%d"; $"%d %b %Y"; $"%d-%b-%Y";
            $"%b %d, %Y"; $"%B %d, %Y" ] s
  end.

(** [_clean_text] *)
Definition _clean_text (text : pystr) : pystr :=
  let text := sub false (Plus space) $" " text in
  let text :=
    sub false (Cls true [CWord; CSpace; CChr 46; CChr 44; CChr rupee; CChr 36;
                         CChr 47; CChr 45]) $" " text in
  strip text.

(** [_categorize_transaction] *)
Definition _categorize_transaction (description : pystr) : pystr :=
  let desc_upper := upper description in
  if any_in [$"SALARY"; $"PAYMENT RECEIVED"; $"CREDIT"] desc_upper then $"salary"
  else if contains $"UPI" desc_upper then
    if any_in [$"FOOD"; $"SWIGGY"; $"ZOMATO"; $"EAT"] desc_upper then $"food_dining"
    else $"transfer"
  else if any_in [$"NEFT"; $"IMPS"; $"RTGS"] desc_upper then $"transfer"
  else if contains $"ATM" desc_upper || contains $"CASH" desc_upper
  then $"cash_withdrawal"
  else if any_in [$"GROCERY"; $"SUPERMARKET"; $"BIGBAZAAR"] desc_upper then $"groceries"
  else if any_in [$"FUEL"; $"PETROL"; $"DIESEL"; $"BPCL"; $"HPCL"; $"IOCL"] desc_upper
  then $"fuel"
  else if any_in [$"ELECTRICITY"; $"WATER"; $"GAS"; $"BILL"; $"RENT"] desc_upper
  then $"utilities"
  else if any_in [$"MEDICAL"; $"HOSPITAL"; $"PHARMACY"] desc_upper then $"medical"
  else if any_in [$"SHOPPING"; $"AMAZON"; $"FLIPKART"; $"MYNTRA"] desc_upper
  then $"shopping"
  else $"others".

(** The first pattern of the list that is found, with the whole match. *)
Fixpoint first_date (patterns : list re) (line : pystr) : option pystr :=
  match patterns with
  | [] => None
  | p :: ps =>
      match search false p line with
      | Some m => Some (group 0 m)
      | None => first_date ps line
      end
  end.

(** [_extract_transaction_line] *)
Definition _extract_transaction_line (line0 : pystr) : option txn :=
  if (length (strip line0) <? 10)%nat then None
  else
    let line := _clean_text line0 in
    if negb (any_in bank_keywords (upper line)) then None
    else
      match first_date date_patterns line with
      | None => None
      | Some date_match =>
          let line := strip (replace date_match [] line) in
          match _parse_date date_match with
          | None => None
          | Some date_str =>
              let amounts := findall1 false amount_pattern line in
              match last amounts with
              | None => None
              | Some last_amount =>
                  match py_float (replace $"," [] last_amount) with
                  | None => None
                  | Some amount =>
                      let line_upper := upper line in
                      let txn_type :=
                        if any_in [$"CREDIT"; $"CR"; $"DEPOSIT"; $"CREDITED"] line_upper
                        then $"credit" else $"debit" in
                      let line :=
                        fold_left (fun l amt => strip (replace amt [] l)) amounts line in
                      let description :=
                        match strip line with
                        | [] => $"Bank Transaction"
                        | d => d
                        end in
                      let formatted_date :=
                        match strptime date_str $"%Y-%m-%d" with
                        | Some date_obj => strftime $"%d %b %Y" date_obj
                        | None => date_str
                        end in
                      Some {| date := date_str;
                              formatted_date := formatted_date;
                              description := take 200 description;
                              amount := amount;
                              type_ := txn_type;
                              category := PStr (_categorize_transaction description);
                              bank := Some $"Extracted by OCR" |}
                  end
              end
          end
      end.

(** The OCR libraries, as the parser sees them for a PDF:
    [pytesseract.get_tesseract_version()], and the pages that
    [convert_from_path] gives with the outcome of the grey-scale
    conversion and [image_to_string] of each. *)
Record ocr := {
  TESSERACT_AVAILABLE : bool;
  tesseract_version : outcome unit;
  page_texts : outcome (list (outcome pystr))
}.

(** [_check_tesseract], whose result [__init__] keeps in
    [self.tesseract_installed]. *)
Definition _check_tesseract (o : ocr) : bool :=
  TESSERACT_AVAILABLE o && is_ok (tesseract_version o).

(** The texts of the pages, unless one of them raises. *)
Fixpoint all_texts (pages : list (outcome pystr)) : option (list pystr) :=
  match pages with
  | [] => Some []
  | Ok t :: pages' => (fun ts => t :: ts) <$> all_texts pages'
  | Raise _ :: _ => None
  end.

(** [_extract_text_from_pdf]: any exception gives the empty text. *)
Definition _extract_text_from_pdf (o : ocr) : pystr :=
  if negb (_check_tesseract o) then []
  else
    match page_texts o with
    | Raise _ => []
    | Ok pages =>
        match all_texts pages with
        | Some full_text => join [newline] full_text
        | None => []
        end
    end.

(** [parse_pdf] *)
Definition parse_pdf (o : ocr) : list txn :=
  if negb (_check_tesseract o) then []
  else
    let text := _extract_text_from_pdf o in
    if (length (strip text) <? 100)%nat then []
    else omap _extract_transaction_line (split_on newline text).

(** [parse_with_free_ocr] *)
Definition parse_with_free_ocr (o : ocr) : list txn :=
  if negb (TESSERACT_AVAILABLE o) then [] else parse_pdf o.

End Free.

(** ** statement_parser.py: [BankStatementParser] *)

Module BankStatement.
Import Statement.

(** [self.bank_patterns], in the order of the dictionary. *)
Definition bank_patterns : list (pystr * re) :=
  [ ($"HDFC", Advanced.any_of ["HDFC"; "HDFC BANK"; "HDFC Bank"]);
    ($"ICICI", Advanced.any_of ["ICICI"; "ICICI BANK"; "ICICI Bank"]);
    ($"SBI", Advanced.any_of ["STATE BANK"; "SBI"; "State Bank"]);
    ($"AXIS", Advanced.any_of ["AXIS"; "AXIS BANK"; "Axis Bank"]);
    ($"KOTAK", Advanced.any_of ["KOTAK"; "KOTAK MAHINDRA"; "Kotak Bank"]) ].

(** [self.categories], in the order of the dictionary. *)
Definition categories : list (pystr * re) :=
  [ ($"food_dining",
      Advanced.any_of ["SWIGGY"; "ZOMATO"; "FOOD"; "RESTAURANT"; "EATERY"; "CAFE";
                       "MCDONALDS"; "PIZZA"; "BURGER"]);
    ($"groceries",
      Advanced.any_of ["BIG BAZAAR"; "MORE"; "DMART"; "RELIANCE FRESH"; "GROCERY";
                       "SUPERMARKET"]);
    ($"shopping",
      Advanced.any_of ["AMAZON"; "FLIPKART"; "MYNTRA"; "AJIO"; "SHOPPING";
                       "PURCHASE"; "BILLDESK"]);
    ($"transport",
      Advanced.any_of ["UBER"; "OLA"; "RAPIDO"; "METRO"; "BUS"; "TRAIN"; "IRCTC";
                       "FUEL"; "PETROL"; "DIESEL"; "BPCL"; "HPCL"]);
    ($"bills",
      Advanced.any_of ["ELECTRICITY"; "WATER"; "GAS"; "PHONE"; "MOBILE"; "RECHARGE";
                       "POSTPAID"; "PREPAID"]);
    ($"entertainment",
      Advanced.any_of ["NETFLIX"; "PRIME"; "HOTSTAR"; "ZEE5"; "MOVIE"; "CINEMA";
                       "THEATRE"]);
    ($"salary",
      Advanced.any_of ["SALARY"; "CREDIT INTEREST"; "INTEREST CREDITED"; "DIVIDEND"]);
    ($"transfer",
      Advanced.any_of ["IMPS"; "NEFT"; "RTGS"; "UPI"; "TRANSFER"; "TO SELF"]);
    ($"emi", Advanced.any_of ["EMI"; "LOAN"; "REPAYMENT"]);
    ($"investment",
      Advanced.any_of ["MUTUAL FUND"; "STOCK"; "EQUITY"; "INVEST"; "ICICIDIRECT";
                       "ZERODHA"]);
    ($"others", Star Dot) ].

(** [detect_bank] *)
Definition detect_bank (text : pystr) : pystr :=
  default $"UNKNOWN" (Advanced.first_match false bank_patterns (upper text)).

(** [_categorize_transaction] *)
Definition _categorize_transaction (description : pystr) : pystr :=
  match description with
  | [] => $"others"
  | _ =>
      default $"others"
              (Advanced.first_match false categories (upper description))
  end.

Definition date_formats : list pystr :=
  [ $"%d-%m-%Y"; $"%d/%m/%Y"; $"%Y-%m-%d"; $"%d-%b-%Y"; $"%d-%b-%y";
    $"%d %b %Y"; $"%d %B %Y"; $"%Y%m%d"; $"%d%m%Y"; $"%d/%m/%y"; $"%d-%m-%y" ].

(** [_parse_date] *)
Definition _parse_date (date_str : pystr) : option PyDate.date :=
  if bool_decide (date_str = [])
     || bool_decide (lower date_str ∈ [$"nan"; $"nat"; $"none"])
  then None
  else Advanced.first_format date_formats (strip date_str).

(** A transaction dictionary of this parser: the fields that the PDF
    parsers also have (with ['formatted_date'] as [DD/MM/YYYY]), and
    ['month']. *)
Record txn := { fields : Statement.txn; month_ : pystr }.

Definition transaction (date : PyDate.date) (description : pystr) (amount : Q)
  (txn_type bank : pystr) : txn :=
  {| fields :=
       {| date := strftime $"%Y-%m-%d" date;
          formatted_date := strftime $"%d/%m/%Y" date;
          description := description;
          amount := Qabs amount;
          type_ := txn_type;
          category := PStr (_categorize_transaction description);
          Statement.bank := Some bank |};
     month_ := strftime $"%Y-%m" date |}.

(** [row[col]], for a row whose labels are distinct; [None] when the
    label is not in the row. *)
Definition row_get (columns : list pystr) (row : list Advanced.cell) (col : pystr)
  : option Advanced.cell :=
  (fun kv => snd (snd kv)) <$> list_find (fun kv => fst kv = col) (zip columns row).

(** The state of the loop over the cells of a row in
    [_guess_and_parse]. *)
Record guess := {
  g_date : option PyDate.date;
  g_description : pystr;
  g_amount : Q;
  g_type : pystr
}.

(** The body of that loop for one cell. *)
Definition guess_cell (st : guess) (col : pystr) (value : Advanced.cell) : guess :=
  if Advanced.c_isna value then st
  else
    let value_str := strip (Advanced.c_str value) in
    let found_date :=
      match g_date st with
      | None => _parse_date value_str
      | Some _ => None
      end in
    match found_date with
    | Some d =>
        {| g_date := Some d; g_description := g_description st;
           g_amount := g_amount st; g_type := g_type st |}
    | None =>
        match search false loose_number (replace $"," [] value_str),
              g_description st with
        | Some amount_match, [] =>
            match py_float (group 0 amount_match) with
            | Some amount =>
                {| g_date := g_date st; g_description := g_description st;
                   g_amount := amount;
                   g_type :=
                     if contains $"-" value_str || contains $"dr" (lower col)
                     then $"debit"
                     else if contains $"credit" (lower col) then $"credit"
                          else $"debit" |}
            | None => st
            end
        | _, _ =>
            match g_description st, value_str with
            | [], _ :: _ =>
                if negb (isdigit (replace $"." [] value_str))
                then {| g_date := g_date st; g_description := value_str;
                        g_amount := g_amount st; g_type := g_type st |}
                else st
            | _, _ => st
            end
        end
    end.

(** The body of the loop of [_guess_and_parse] for one row. *)
Definition guess_row (columns : list pystr) (bank : pystr) (row : list Advanced.cell)
  : option txn :=
  if forallb Advanced.c_isna row then None
  else
    let st :=
      fold_left (fun st kv => guess_cell st (fst kv) (snd kv)) (zip columns row)
                {| g_date := None; g_description := []; g_amount := 0;
                   g_type := $"debit" |} in
    match g_date st with
    | Some date =>
        if is_zero (g_amount st) then None
        else Some (transaction date (g_description st) (g_amount st) (g_type st) bank)
    | None => None
    end.

(** [_guess_and_parse], on the frame with the cleaned labels. *)
Definition _guess_and_parse (columns : list pystr) (rows : list (list Advanced.cell))
  (bank : pystr) : list txn :=
  omap (guess_row columns bank) rows.

(** [next((col for col in df.columns if p(col)), None)] *)
Definition first_column (p : pystr -> bool) (columns : list pystr) : option pystr :=
  snd <$> list_find (fun col => p col = true) columns.

(** The cell of an amount column, when it is filled: the column was
    found, the cell is not missing and is none of the spellings of
    nothing. *)
Definition filled (columns : list pystr) (row : list Advanced.cell)
  (col : option pystr) : option pystr :=
  match col ≫= row_get columns row with
  | Some v =>
      if negb (Advanced.c_isna v)
         && negb (bool_decide (strip (Advanced.c_str v)
                               ∈ [ []; $"0"; $"0.0"; $"0.00" ]))
      then Some (Advanced.c_str v)
      else None
  | None => None
  end.

(** The body of the loop of [parse_csv] for one row; an exception of the
    row passes it over. *)
Definition csv_row (columns : list pystr) (bank : pystr) (date_col desc_col : pystr)
  (debit_col credit_col : option pystr) (row : list Advanced.cell) : option txn :=
  if forallb Advanced.c_isna row then None
  else
    match row_get columns row date_col with
    | None => None
    | Some date_cell =>
        match _parse_date (Advanced.c_str date_cell) with
        | None => None
        | Some date =>
            let description :=
              match row_get columns row desc_col with
              | Some v => Advanced.c_str v
              | None => []
              end in
            let found :=
              match filled columns row debit_col with
              | Some s => Some (s, $"debit")
              | None =>
                  match filled columns row credit_col with
                  | Some s => Some (s, $"credit")
                  | None => None
                  end
              end in
            match found with
            | None => None
            | Some (s, txn_type) =>
                match py_float (replace $"," [] s) with
                | None => None
                | Some amount =>
                    Some (transaction date description amount txn_type bank)
                end
            end
        end
    end.

(** The loop over the encodings: only a [UnicodeDecodeError] moves on to
    the next one. *)
Fixpoint read_csv_any (read_csv : pystr -> Advanced.csv_read) (encodings : list pystr)
  : outcome (option Advanced.dataframe) :=
  match encodings with
  | [] => Ok None
  | enc :: encodings' =>
      match read_csv enc with
      | Advanced.CsvFrame df => Ok (Some df)
      | Advanced.CsvUnicodeDecodeError => read_csv_any read_csv encodings'
      | Advanced.CsvError msg => Raise msg
      end
  end.

(** [parse_csv]; [read_csv] is [pd.read_csv] on the file for an encoding.
    Any exception gives the empty list. *)
Definition parse_csv (read_csv : pystr -> Advanced.csv_read) : list txn :=
  match read_csv_any read_csv [$"utf-8"; $"utf-8-sig"; $"latin1"; $"cp1252"] with
  | Ok (Some df) =>
      let columns := map (fun col => lower (strip col)) (Advanced.df_columns df) in
      let bank := detect_bank (join $" " columns) in
      let date_col := first_column (contains $"date") columns in
      let desc_col :=
        first_column (fun col => contains $"desc" col || contains $"narration" col
                                 || contains $"particular" col) columns in
      let debit_col :=
        first_column (fun col => contains $"debit" col || contains $"withdrawal" col
                                 || PyStr.eqb $"dr" (lower col)) columns in
      let credit_col :=
        first_column (fun col => contains $"credit" col || contains $"deposit" col
                                 || PyStr.eqb $"cr" (lower col)) columns in
      match date_col, desc_col, debit_col, credit_col with
      | Some date_col, Some desc_col, Some _, _
      | Some date_col, Some desc_col, _, Some _ =>
          omap (csv_row columns bank date_col desc_col debit_col credit_col)
               (Advanced.df_rows df)
      | _, _, _, _ => _guess_and_parse columns (Advanced.df_rows df) bank
      end
  | _ => []
  end.

End BankStatement.

(** ** statement_api.py: the upload route *)

Module Api.
Import Statement.

Definition ALLOWED_EXTENSIONS : gset pystr :=
  {[ $"pdf"; $"csv"; $"xlsx"; $"xls"; $"jpg"; $"jpeg"; $"png" ]}.

(** [s.rsplit('.', 1)[1]]: the text after the last dot; [None] stands for
    the [IndexError] of a name without dot. *)
Definition after_last_dot (s : pystr) : option pystr :=
  (fun i => drop (S i) s) <$> Advanced.rfind_aux 46 s 0 None.

(** [allowed_file] *)
Definition allowed_file (filename : pystr) : bool :=
  contains $"." filename
  && match after_last_dot filename with
     | Some e => bool_decide (lower e ∈ ALLOWED_EXTENSIONS)
     | None => false
     end.

(** [categorize_transaction] *)
Definition categorize_transaction (description : pystr) : pystr :=
  let desc_lower := lower description in
  if any_in [$"salary"; $"pay"; $"income"] desc_lower then $"salary"
  else if any_in [$"atm"; $"cash"; $"withdrawal"] desc_lower then $"cash_withdrawal"
  else if any_in [$"grocery"; $"supermarket"; $"food"] desc_lower then $"groceries"
  else if any_in [$"fuel"; $"petrol"; $"gas"] desc_lower then $"fuel"
  else if any_in [$"restaurant"; $"dining"; $"cafe"] desc_lower then $"food_dining"
  else if any_in [$"electricity"; $"water"; $"utility"] desc_lower then $"utilities"
  else if any_in [$"medical"; $"hospital"; $"pharmacy"] desc_lower then $"medical"
  else if any_in [$"shopping"; $"mall"; $"store"] desc_lower then $"shopping"
  else if any_in [$"transfer"; $"neft"; $"imps"] desc_lower then $"transfer"
  else $"others".

(** [get_indian_sample_transactions]; [now] is the date of
    [datetime.now()]. *)
Definition sample (base_date : PyDate.date) (days : Z) (description : pystr)
  (amount : Q) (type_ category : pystr) : txn :=
  {| date := strftime $"%Y-%m-%d" (add_days base_date days);
     formatted_date := strftime $"%d %b %Y" (add_days base_date days);
     description := description; amount := amount; Statement.type_ := type_;
     Statement.category := PStr category; bank := None |}.

Definition get_indian_sample_transactions (now : PyDate.date) : list txn :=
  let base_date := add_days now (-30) in
  [ sample base_date 1 $"SALARY CREDIT - COMPANY NAME" 75000 $"credit" $"salary";
    sample base_date 2 $"UPI-SWIGGY-FOOD ORDER" 450 $"debit" $"food_dining";
    sample base_date 3 $"ATM CASH WITHDRAWAL" 10000 $"debit" $"cash_withdrawal";
    sample base_date 5 $"NEFT-RENT PAYMENT" 25000 $"debit" $"utilities";
    sample base_date 7 $"ELECTRICITY BILL PAYMENT" 1800 $"debit" $"utilities" ].

(** The state of the module: the import flags of enhanced_pdf_parser and
    the parser that [GeminiPDFParser()] builds there. *)
Record server := {
  flags : Enhanced.flags;
  gemini : Gemini.parser
}.

(** [pdf_parser = EnhancedPDFParser()] *)
Definition pdf_parser (sv : server) : Enhanced.parser :=
  Enhanced.init (flags sv) true (gemini sv).

(** An upload request, with what the file system and the libraries do
    for it. *)
Record request := {
  (** [request.files['file'].filename]; [None] when the request has no
      part ['file'] *)
  filename : option pystr;
  (** [secure_filename(file.filename)] *)
  secure_name : pystr;
  (** [file.save(filepath)] *)
  save : outcome unit;
  (** [pd.read_csv] on the saved file, for an encoding *)
  csv : pystr -> Advanced.csv_read;
  (** [pd.read_excel] on the saved file and [df.to_csv], then
      [pd.read_csv] on the converted file *)
  excel_as_csv : outcome (pystr -> Advanced.csv_read);
  (** [os.remove(csv_path)] *)
  remove_csv : outcome unit;
  (** the text layer of the saved file *)
  pdf : PdfText.pdf;
  (** [os.remove(filepath)] *)
  remove : outcome unit
}.

(** A transaction of the response: the dictionaries of the CSV parser
    have the key ['month'], those of the PDF parser have not. *)
Record record := { fields : txn; month : option pystr }.

Definition of_csv (t : BankStatement.txn) : record :=
  {| fields := BankStatement.fields t; month := Some (BankStatement.month_ t) |}.

Definition of_pdf (t : txn) : record := {| fields := t; month := None |}.

Definition and_then {A B} (r : outcome A) (k : A -> outcome B) : outcome B :=
  match r with
  | Ok a => k a
  | Raise e => Raise e
  end.

(** The part of the [try] block of [upload_statement] that saves, parses
    and removes the file. *)
Definition parse_upload (sv : server) (now : PyDate.date) (rq : request)
  : outcome (list record) :=
  and_then (save rq) (fun _ =>
  and_then (match after_last_dot (secure_name rq) with
            | Some e => Ok (lower e)
            | None => Raise $"list index out of range"
            end) (fun ext =>
  and_then
    (if PyStr.eqb ext $"csv" then
       Ok (map of_csv (BankStatement.parse_csv (csv rq)))
     else if PyStr.eqb ext $"xlsx" || PyStr.eqb ext $"xls" then
       and_then (excel_as_csv rq) (fun read_csv =>
       let transactions := BankStatement.parse_csv read_csv in
       and_then (remove_csv rq) (fun _ => Ok (map of_csv transactions)))
     else if PyStr.eqb ext $"jpg" || PyStr.eqb ext $"jpeg" || PyStr.eqb ext $"png"
     then Ok (map of_pdf (get_indian_sample_transactions now))
     else if PyStr.eqb ext $"pdf" then
       and_then (result (Enhanced.parse_pdf (flags sv) (pdf_parser sv) now (pdf rq)))
                (fun transactions => Ok (map of_pdf transactions))
     else Ok [])
    (fun transactions =>
  and_then (remove rq) (fun _ => Ok transactions)))).

(** [[datetime.strptime(t['date'], '%Y-%m-%d') for t in transactions]];
    [None] stands for the [ValueError]. *)
Fixpoint parse_dates (transactions : list record) : option (list PyDate.date) :=
  match transactions with
  | [] => Some []
  | t :: transactions' =>
      match strptime (date (fields t)) $"%Y-%m-%d" with
      | Some d => (fun ds => d :: ds) <$> parse_dates transactions'
      | None => None
      end
  end.

(** [min(dates)] and [max(dates)] *)
Definition min_date (d : PyDate.date) (ds : list PyDate.date) : PyDate.date :=
  fold_left (fun m x => if date_ltb x m then x else m) ds d.

Definition max_date (d : PyDate.date) (ds : list PyDate.date) : PyDate.date :=
  fold_left (fun m x => if date_ltb m x then x else m) ds d.

(** The ['date_range'] of the summary. *)
Definition range (dates : list PyDate.date) : option (pystr * pystr) :=
  match dates with
  | [] => None
  | d :: ds =>
      Some (strftime $"%Y-%m-%d" (min_date d ds), strftime $"%Y-%m-%d" (max_date d ds))
  end.

(** The answers of the route that are not a success, and their status
    codes. *)
Inductive refusal :=
| NoFileProvided
| NoFileSelected
| InvalidFileType
| NoTransactionsFound
| ProcessingError.

Definition status (r : refusal) : nat :=
  match r with
  | ProcessingError => 500
  | _ => 400
  end.

(** The response.  Of the success response, the message and the float
    totals of the summary are left out. *)
Inductive response :=
| Refused (r : refusal)
| Extracted (transactions : list record) (total_transactions : nat)
            (date_range : option (pystr * pystr)).

(** [upload_statement] *)
Definition upload_statement (sv : server) (now : PyDate.date) (rq : request)
  : response :=
  match filename rq with
  | None => Refused NoFileProvided
  | Some name =>
      if bool_decide (name = []) then Refused NoFileSelected
      else if negb (allowed_file name) then Refused InvalidFileType
      else
        match parse_upload sv now rq with
        | Raise _ => Refused ProcessingError
        | Ok [] => Refused NoTransactionsFound
        | Ok transactions =>
            match parse_dates transactions with
            | None => Refused ProcessingError
            | Some dates =>
                Extracted transactions (length transactions) (range dates)
            end
        end
  end.

End Api.

(** * The vocabulary of the properties *)

Module Invariant.

(** The type is one of the two strings. *)
Definition credit_or_debit (ty : pystr) : Prop := ty = py "credit" \/ ty = py "debit".

(** What an extractor of the advanced parser hands to the cleanup: a
    calendar date, an amount that is not negative, a type. *)
Definition extracted (t : Advanced.txn) : Prop :=
  (exists d, Advanced.date t = Some d /\ valid_date d = true)
  /\ (0 <= Advanced.amount t)%Q
  /\ credit_or_debit (Advanced.type_ t).

(** The invariant of a transaction of the advanced parser. *)
Definition valid (t : Advanced.txn) : Prop :=
  (exists d, Advanced.date t = Some d /\ valid_date d = true)
  /\ (0 < Advanced.amount t)%Q
  /\ credit_or_debit (Advanced.type_ t).

(** The invariant of a transaction of the PDF parsers, whose date is a
    string: it is parsed as a calendar date, of which it is the
    rendering. *)
Definition valid_rendered (t : Statement.txn) : Prop :=
  (exists d, strptime (Statement.date t) (py "%Y-%m-%d") = Some d
             /\ valid_date d = true
             /\ Statement.date t = strftime (py "%Y-%m-%d") d)
  /\ (0 < Statement.amount t)%Q
  /\ credit_or_debit (Statement.type_ t).

(** The ['date'] of a transaction of the PDF parsers is the rendering of
    a calendar date, and it is parsed back as that date when the year is
    written with four digits, from the year 1000 on. *)
Definition dated (t : Statement.txn) : Prop :=
  exists d, valid_date d = true
            /\ Statement.date t = strftime (py "%Y-%m-%d") d
            /\ ((1000 <= year d)%Z ->
                strptime (Statement.date t) (py "%Y-%m-%d") = Some d).

(** A dated transaction with the type credit or debit. *)
Definition dated_typed (t : Statement.txn) : Prop :=
  dated t /\ credit_or_debit (Statement.type_ t).

(** A dated transaction with an amount above zero and the type credit or
    debit. *)
Definition valid_dated (t : Statement.txn) : Prop :=
  dated t /\ (0 < Statement.amount t)%Q /\ credit_or_debit (Statement.type_ t).

(** The months and the days of the month, for the case analysis of the
    two-digit fields of a rendered date. *)
Definition two_digit_fields : list (Z * Z) :=
  m ← Z.of_nat <$> seq 1 12; d ← Z.of_nat <$> seq 1 31; [(m, d)].

(** The transactions of the final result of [parse_statement]. *)
Definition final_transactions (f : Advanced.file) : list Advanced.txn :=
  match result (Advanced.parse_statement f) with
  | Ok d => Advanced.transactions_of d
  | Raise _ => []
  end.

End Invariant.

Import Invariant.

Module Categories.
Import Statement.

(** The category enumeration of the specification. *)
Definition specified : list pystr :=
  [ $"food_dining"; $"groceries"; $"fuel"; $"utilities"; $"entertainment";
    $"transportation"; $"shopping"; $"medical"; $"education"; $"investment";
    $"transfer"; $"salary"; $"bank_charges"; $"cash_withdrawal"; $"other" ].

(** The names of [CATEGORY_PATTERNS]. *)
Definition advanced : list pystr :=
  [ $"food_dining"; $"groceries"; $"fuel"; $"utilities"; $"entertainment";
    $"transportation"; $"shopping"; $"medical"; $"education"; $"investment";
    $"transfer"; $"salary"; $"bank_charges"; $"cash_withdrawal"; $"others" ].

(** The values of [EnhancedPDFParser._categorize_transaction]. *)
Definition enhanced : list pystr :=
  [ $"salary"; $"cash_withdrawal"; $"groceries"; $"fuel"; $"food_dining";
    $"utilities"; $"medical"; $"shopping"; $"transfer"; $"loan"; $"others" ].

End Categories.

Module Failure.
Import Advanced.

(** The lower-cased suffix of the path of the file. *)
Definition extension (f : file) : pystr := lower (path_suffix (f_path f)).

Definition is_pdf (e : pystr) : bool := PyStr.eqb e $".pdf".
Definition is_csv (e : pystr) : bool := PyStr.eqb e $".csv".
Definition is_excel (e : pystr) : bool :=
  PyStr.eqb e $".xlsx" || PyStr.eqb e $".xls".
Definition is_image (e : pystr) : bool :=
  PyStr.eqb e $".jpg" || PyStr.eqb e $".jpeg" || PyStr.eqb e $".png"
  || PyStr.eqb e $".tiff".

Definition encodings : list pystr :=
  [$"utf-8"; $"utf-8-sig"; $"latin1"; $"cp1252"].





End Failure.

(** [newest_first a b]: record [a] may stand before record [b]. *)
Definition newest_first (a b : Advanced.txn) : Prop :=
  date_leb (Advanced.sort_key b) (Advanced.sort_key a) = true.


(** ** The vocabulary of the further properties *)

(** The calendar of a year, by the table of the standard library. *)
Module Calendar.
Local Open Scope Z_scope.

(** The days of a month, by the leap status of the year. *)
Definition dim (leap : bool) (m : Z) : Z :=
  if m =? 2 then (if leap then 29 else 28)
  else if (m =? 4) || (m =? 6) || (m =? 9) || (m =? 11) then 30 else 31.

Fixpoint before_aux (leap : bool) (n : nat) : Z :=
  match n with
  | O => 0
  | S n' => before_aux leap n' + dim leap (Z.of_nat n)
  end.

(** The days of the year before a month. *)
Definition before (leap : bool) (m : Z) : Z := before_aux leap (Z.to_nat (m - 1)).

(** The month and the day of the day of index [n] of a year, as
    [fromordinal] finds them. *)
Definition month_day (leap : bool) (n : Z) : Z * Z :=
  let m := Z.shiftr (n + 50) 5 in
  let preceding := before leap m in
  if preceding >? n
  then (m - 1, n - (preceding - dim leap (m - 1)) + 1)
  else (m, n - preceding + 1).

Definition month_day_ok (leap : bool) (n : Z) : bool :=
  let '(m, d) := month_day leap n in
  (1 <=? m) && (m <=? 12) && (1 <=? d) && (d <=? dim leap m)
  && (before leap m + d =? n + 1).

(** The first and the last ordinal of the calendar. *)
Definition max_ordinal : Z := 3652059.

End Calendar.

Module Chars.

(** The characters that a pattern consumes, under case-sensitive
    matching, satisfy [P]: everywhere when [inside] holds, and inside the
    groups of the pattern otherwise. *)
Fixpoint within (inside : bool) (P : char -> bool) (r : re) : Prop :=
  match r with
  | Eps | WordB | Eos => True
  | Chr c => inside = true -> P c = true
  | Dot => inside = true -> forall d, P d = true
  | Cls neg items =>
      inside = true ->
      forall d, xorb neg (class_has false items d) = true -> P d = true
  | Cat r1 r2 | Alt r1 r2 => within inside P r1 /\ within inside P r2
  | Star r1 => within inside P r1
  | Grp _ r1 => within true P r1
  end.

(** The texts of the groups satisfy [P]. *)
Definition caps_within (P : char -> bool) (g : caps) : Prop :=
  Forall (fun nt => Forall (fun c => P c = true) (snd nt)) g.

Definition not_minus (c : char) : bool := negb (c =? 45).

(** A text of ASCII characters, on which the case mapping and the
    character classes of the model are those of Python. *)
Definition ascii (s : pystr) : Prop := Forall (fun c => (c < 128)%N) s.

(** A line of ASCII characters that is short enough for [float] to give
    zero only for a text that spells zero: a decimal text of fewer than
    300 characters is zero or above the smallest positive float. *)
Definition plain (line : pystr) : Prop := ascii line /\ (length line < 300)%nat.

End Chars.

Module Rendering.

(** The ['date'] of a transaction of [FreePDFParser] is the rendering of
    the calendar date [d]; from the year 1000 on, whose rendering has
    four digits, it is parsed back as [d], and ['formatted_date'] is the
    rendering of [d] with the name of the month. *)
Definition dated (d : PyDate.date) (t : Statement.txn) : Prop :=
  valid_date d = true
  /\ Statement.date t = strftime (py "%Y-%m-%d") d
  /\ ((1000 <= year d)%Z ->
      strptime (Statement.date t) (py "%Y-%m-%d") = Some d
      /\ Statement.formatted_date t = strftime (py "%d %b %Y") d).

(** The transaction with another ['bank']. *)
Definition with_bank (b : pystr) (t : Statement.txn) : Statement.txn :=
  {| Statement.date := Statement.date t;
     Statement.formatted_date := Statement.formatted_date t;
     Statement.description := Statement.description t;
     Statement.amount := Statement.amount t;
     Statement.type_ := Statement.type_ t;
     Statement.category := Statement.category t;
     Statement.bank := Some b |}.

(** A response wrapped in a Markdown fence with a tag. *)
Definition fenced (tag body : pystr) : pystr :=
  (py "```" ++ tag ++ [newline] ++ body ++ [newline] ++ py "```")%list.

End Rendering.

Module Breakdown.

(** The category that the summary counts a transaction under. *)
Definition category_of (t : Advanced.txn) : pystr :=
  default (py "others") (Advanced.category t).

(** The count that a breakdown holds for a category: that of the first
    entry of the category, or nothing. *)
Fixpoint count_of (c : pystr) (breakdown : list (pystr * nat)) : nat :=
  match breakdown with
  | [] => 0
  | (k, n) :: breakdown' => if PyStr.eqb k c then n else count_of c breakdown'
  end.

(** The transactions of a category. *)
Definition occurrences (c : pystr) (l : list Advanced.txn) : nat :=
  length (filter (fun t => category_of t = c) l).

End Breakdown.

Module Lines.

(** A line of the text holds the marker of the transaction table. *)
Definition has_marker (raw : pystr) : bool :=
  contains (py "ACCOUNT ACTIVITY") (upper (strip raw)).

(** The generic line pass of [EnhancedPDFParser] raises on the line: the
    stripped line has twenty characters or more and an amount, and the
    text that the date patterns find on it (the first match of the first
    of the three numeric patterns that matches) is a calendar date. *)
Definition breaks (raw : pystr) : Prop :=
  (20 <= length (strip raw))%nat
  /\ exists date_str d,
      Enhanced.first_group Enhanced.date_patterns (strip raw) = Some date_str
      /\ Enhanced._parse_date date_str = Some d
      /\ Enhanced.line_amounts (strip raw) <> [].

End Lines.

Module Statements.

(** What [BankStatementParser] states in a transaction of the date [d]
    for the bank [b]: the three renderings of the date, of which
    ['date'] is parsed back as [d] from the year 1000 on; the type credit
    or debit; the bank. *)
Definition stated (d : PyDate.date) (b : pystr) (t : BankStatement.txn) : Prop :=
  valid_date d = true
  /\ Statement.date (BankStatement.fields t) = strftime (py "%Y-%m-%d") d
  /\ ((1000 <= year d)%Z ->
      strptime (Statement.date (BankStatement.fields t)) (py "%Y-%m-%d") = Some d)
  /\ Statement.formatted_date (BankStatement.fields t) = strftime (py "%d/%m/%Y") d
  /\ BankStatement.month_ t = strftime (py "%Y-%m") d
  /\ credit_or_debit (Statement.type_ (BankStatement.fields t))
  /\ Statement.bank (BankStatement.fields t) = Some b.

(** The state of the loop of [_guess_and_parse] over the cells of a row:
    a date that was found is a calendar date, the description holds no
    digit, the type is credit or debit. *)
Definition guessed (st : BankStatement.guess) : Prop :=
  (forall d, BankStatement.g_date st = Some d -> valid_date d = true)
  /\ Forall (fun c => is_digit c = false) (BankStatement.g_description st)
  /\ credit_or_debit (BankStatement.g_type st).

(** The names that [detect_bank] returns. *)
Definition bank_names : list pystr :=
  [ py "HDFC"; py "ICICI"; py "SBI"; py "AXIS"; py "KOTAK"; py "UNKNOWN" ].

End Statements.

Module Frames.

(** The labels of a frame after [str(col).strip().lower()]. *)
Definition labels (df : Advanced.dataframe) : list pystr :=
  map (fun col => lower (strip col)) (Advanced.df_columns df).

(** The frames on which [row[col]] is a cell: the cleaned labels are
    distinct, and every row has a cell for every label. *)
Definition regular (df : Advanced.dataframe) : Prop :=
  NoDup (labels df)
  /\ Forall (fun row => length row = length (labels df)) (Advanced.df_rows df).

(** Every frame that [pd.read_csv] gives for the file is regular. *)
Definition reads_regular (read_csv : pystr -> Advanced.csv_read) : Prop :=
  forall enc df, read_csv enc = Advanced.CsvFrame df -> regular df.

End Frames.

(** ** Example inputs *)

Module Examples.
Import Statement.

Definition all_flags : Enhanced.flags :=
  {| Enhanced.PDF_AVAILABLE := true;
     Enhanced.INDIAN_BANK_PARSER_AVAILABLE := true;
     Enhanced.GEMINI_PARSER_AVAILABLE := true |}.

(** A parser without AI fallback. *)
Definition no_ai : Enhanced.parser := {| Enhanced.gemini_parser := None |}.

(** A one-page PDF whose text has no transaction line. *)
Definition cover_page : PdfText.pdf :=
  Ok [Ok $"Dear customer, this page is the cover letter of your account statement. The transactions of the period are listed in the annexure."].

Definition day1 : PyDate.date := {| year := 2026; month := 11; day := 3 |}.
Definition day2 : PyDate.date := {| year := 2026; month := 11; day := 4 |}.

(** The line of the specification's scenario. *)
Definition swiggy_line : pystr :=
  ($"UPI-SWIGGY-FOOD ORDER " ++ [rupee] ++ $"450.00 10/02/2024")%list.

(** A text in which the same line occurs twice. *)
Definition swiggy_twice : pystr := (swiggy_line ++ [newline] ++ swiggy_line)%list.

(** A line with a textual date and two amounts, the payment and the
    balance. *)
Definition shop_line : pystr := $"10 Oct 2025 UPI payment to shop 100.00 5000.00".

(** A line for the OCR parser, with two amounts. *)
Definition neft_line : pystr := $"10/10/2025 NEFT CR rent 5,000.00 100.00".

(** The amount of the transaction that an extractor emits. *)
Definition emitted_amount (r : outcome (option txn)) : option Q :=
  match r with
  | Ok (Some t) => Some (amount t)
  | _ => None
  end.

(** A statement line of 242 characters. *)
Definition long_line : pystr :=
  $"01/03/2024 NEFT TRANSFER TO ACME INDUSTRIAL SUPPLIES PRIVATE LIMITED MUMBAI BRANCH REFERENCE N123456789012345 BEING PAYMENT OF INVOICES 1001 1002 1003 1004 1005 AND 1006 FOR THE QUARTER ENDED DECEMBER 2023 AS PER PURCHASE ORDER 7788 12,500.00".

(** A table without a description column. *)
Definition bare_table : Advanced.table :=
  [ [Some $"Date"; Some $"Credit"; Some $"Balance"];
    [Some $"01/03/2024"; Some $"100.00"; Some $"100.00"] ].

(** A line from which nothing but the date and the amount remains. *)
Definition bare_line : pystr := $"10 Oct 2025          1,500.00".

(** The table of the specification's scenario. *)
Definition salary_table : Advanced.table :=
  [ [Some $"Date"; Some $"Description"; Some $"Debit"; Some $"Credit";
     Some $"Balance"];
    [Some $"01/03/2024"; Some $"Salary Credit"; Some $""; Some $"75000.00";
     Some $"75000.00"] ].

(** A line with a numeric date, and a page that holds it. *)
Definition numeric_line : pystr := $"10/02/2024 UPI-SWIGGY-FOOD ORDER 450.00".
Definition numeric_page : PdfText.pdf :=
  Ok [Ok ($"STATEMENT OF ACCOUNT FOR THE PERIOD FROM 01 FEBRUARY TO 29 FEBRUARY OF THE CURRENT FINANCIAL YEAR"
          ++ [newline] ++ numeric_line)%list].

(** A statement of the Indian Bank layout: a title, the marker line and
    a transaction line with two amounts. *)
Definition indian_text : pystr :=
  ($"Indian Bank" ++ [newline] ++ $"ACCOUNT ACTIVITY" ++ [newline]
   ++ $"10 Oct 2025 UPI-SWIGGY - INR 450.00 INR 9,550.00")%list.

(** A line with the debit, the credit and the balance. *)
Definition three_amounts_line : pystr :=
  $"10 Oct 2025 NEFT SALARY INR 500.00 INR 200.00 INR 1,000.00".

(** A frame with the usual labels. *)
Definition cell (s : string) : Advanced.cell := Advanced.str_cell (py s).

Definition missing : Advanced.cell :=
  {| Advanced.c_truthy := true; Advanced.c_str := $"nan"; Advanced.c_isna := true |}.

Definition ledger : Advanced.dataframe :=
  {| Advanced.df_columns := [$" Date "; $"Narration"; $"Debit"; $"Credit"; $"Balance"];
     Advanced.df_rows :=
       [ [cell "01/03/2024"; cell "UPI-SWIGGY"; cell "450.00"; missing; cell "1000"];
         [cell "02/03/2024"; cell "SALARY"; missing; cell "75,000.00"; cell "76000"] ] |}.

Definition read_ledger (encoding : pystr) : Advanced.csv_read :=
  Advanced.CsvFrame ledger.

(** The module of the route, without AI service. *)
Definition no_service : Gemini.parser :=
  {| Gemini.model := None;
     Gemini.json_loads := fun _ => Raise $"Expecting value";
     Gemini.PDF_AVAILABLE := true |}.

Definition server : Api.server :=
  {| Api.flags := all_flags; Api.gemini := no_service |}.

(** An upload of the cover page as a PDF, and of a picture. *)
Definition upload (name : pystr) : Api.request :=
  {| Api.filename := Some name;
     Api.secure_name := name;
     Api.save := Ok tt;
     Api.csv := fun _ => Advanced.CsvError $"not a CSV file";
     Api.excel_as_csv := Raise $"not a workbook";
     Api.remove_csv := Ok tt;
     Api.pdf := cover_page;
     Api.remove := Ok tt |}.

Definition pdf_upload : Api.request := upload $"statement.PDF".
Definition image_upload : Api.request := upload $"scan.jpeg".

End Examples.

(** * Properties *)

(** ** The embedding on the scenarios of the specification *)

(** The line scenario: the advanced line pass emits one debit of
    10 February 2024 in the category food_dining.  Its amount is the
    largest number parsed on the line, which is the year of the date. *)
Example scenario_line :
  (fun t => (Advanced.date t, Advanced.amount t, Advanced.type_ t,
             Advanced.category t))
    <$> Advanced._clean_and_categorize_transactions
          (Advanced._parse_text_with_regex Examples.swiggy_line None)
  = [ (Some {| year := 2024; month := 2; day := 10 |}, 2024%Q, py "debit",
       Some (py "food_dining")) ].
Proof. vm_compute. reflexivity. Qed.

(** The table scenario: one credit of 75000. *)
Example scenario_table :
  (fun t => (Advanced.date t, Advanced.description t, Advanced.amount t,
             Advanced.type_ t))
    <$> Advanced._process_table_data Examples.salary_table None
  = [ (Some {| year := 2024; month := 3; day := 1 |}, py "Salary Credit",
       75000%Q, py "credit") ].
Proof. vm_compute. reflexivity. Qed.

(** A line with a numeric date and an amount makes the line pass of the
    enhanced parser raise, and [parse_pdf] answer with the samples. *)
Example numeric_date_line_raises :
  let m := Enhanced.parse_pdf Examples.all_flags Examples.no_ai Examples.day1
                              Examples.numeric_page in
  is_ok (Enhanced._extract_transaction_from_line Examples.numeric_line) = false
  /\ map (fun e => (ev_strategy e, is_ok (ev_result e))) (trace m)
     = [(Enhanced.GenericLines, false)]
  /\ result m = Ok (Enhanced._get_sample_transactions Examples.day1).
Proof. repeat split; vm_compute; reflexivity. Qed.

(** The date formats. *)
Example strptime_formats :
  strptime (py "10/02/2024") (py "%d/%m/%Y")
  = Some {| year := 2024; month := 2; day := 10 |}
  /\ strptime (py "10 Oct 2025") (py "%d %b %Y")
     = Some {| year := 2025; month := 10; day := 10 |}
  /\ strptime (py "31/02/2024") (py "%d/%m/%Y") = None
  /\ strptime (py "01/02/69") (py "%d/%m/%y")
     = Some {| year := 1969; month := 2; day := 1 |}
  /\ strftime (py "%d %b %Y") {| year := 2024; month := 4; day := 24 |}
     = py "24 Apr 2024".
Proof. repeat split; vm_compute; reflexivity. Qed.

(** The sample transactions of 3 November 2026 start on 5 October. *)
Example sample_dates :
  Statement.date <$> Enhanced._get_sample_transactions Examples.day1
  = [ py "2026-10-05"; py "2026-10-06"; py "2026-10-07"; py "2026-10-09";
      py "2026-10-11" ].
Proof. vm_compute. reflexivity. Qed.

(** ** The fallback chains *)

Section Discipline.
Context {S T : Type}.
Implicit Types (e : event S T) (tr : list (event S T)).

Lemma fallback_discipline_nil : fallback_discipline (@nil (event S T)).
Proof. intros pre e post H. destruct pre; discriminate. Qed.

Lemma fallback_discipline_cons e tr :
  (tr = [] \/ ev_result e = Ok []) ->
  fallback_discipline tr ->
  fallback_discipline (e :: tr).
Proof.
  intros Hhd Htl pre e' post Heq.
  destruct pre as [|e0 pre]; simpl in Heq.
  - constructor.
  - injection Heq as -> ->.
    constructor.
    + destruct Hhd as [Hnil|Hres]; [|exact Hres].
      destruct pre; discriminate.
    + eapply Htl. reflexivity.
Qed.

Lemma fallback_discipline_one e : fallback_discipline [e].
Proof.
  apply fallback_discipline_cons; [now left | apply fallback_discipline_nil].
Qed.
End Discipline.

Create HintDb chain.
#[local] Hint Resolve fallback_discipline_nil fallback_discipline_one : chain.

(** Solves the discipline goal on an explicit log. *)
Ltac chain_solve :=
  repeat first
    [ apply fallback_discipline_nil
    | apply fallback_discipline_cons; [first [now left | now right] |] ].

Ltac run_unfold :=
  unfold trace, result, run, try_except, bind, invoke, lift, ret, raise in *;
  simpl in *.

Lemma advanced_pdfplumber_chain (f : Advanced.file) :
  let tr := trace (Advanced._parse_pdf_with_pdfplumber f) in
  fallback_discipline tr /\
  sublist (map ev_strategy tr) [Advanced.PageTables; Advanced.LinePattern].
Proof.
  unfold Advanced._parse_pdf_with_pdfplumber.
  run_unfold.
  destruct (Advanced.f_plumber f) as [pages|msg]; simpl;
    [|split; [chain_solve | repeat constructor]].
  destruct (Advanced.plumber_pages pages [] None []) as [[full_text bank] found].
  simpl.
  destruct found as [|t found]; simpl.
  - destruct full_text; simpl; (split; [chain_solve | repeat constructor]).
  - split; [chain_solve | repeat constructor].
Qed.

Lemma advanced_pdf_chain (f : Advanced.file) :
  let tr := trace (Advanced._parse_pdf_statement f) in
  fallback_discipline tr /\
  sublist (map ev_strategy tr)
          [Advanced.Pdfplumber; Advanced.Camelot; Advanced.Ocr].
Proof.
  unfold Advanced._parse_pdf_statement.
  run_unfold.
  destruct (Advanced._parse_pdf_with_pdfplumber f []) as [[l1|msg] log1]; simpl;
    [|split; [chain_solve | repeat constructor]].
  destruct l1 as [|t1 l1]; simpl; [|split; [chain_solve | repeat constructor]].
  destruct (Advanced._parse_pdf_with_camelot f) as [l2|msg] eqn:Hc; simpl;
    [|split; [chain_solve | repeat constructor]].
  destruct l2 as [|t2 l2]; simpl; [|split; [chain_solve | repeat constructor]].
  destruct (Advanced._parse_pdf_with_ocr f) as [l3|msg]; simpl;
    (split; [chain_solve | repeat constructor]).
Qed.

Section Laws.
Context {S T : Type}.
Implicit Types (log : list (event S T)).

Lemma silent_ret {A} (a : A) : silent (S:=S) (T:=T) (ret a).
Proof. intros log. reflexivity. Qed.

Lemma silent_raise {A} e : silent (S:=S) (T:=T) (A:=A) (raise e).
Proof. intros log. reflexivity. Qed.

Lemma silent_lift {A} (r : outcome A) : silent (S:=S) (T:=T) (lift r).
Proof. intros log. reflexivity. Qed.

Lemma silent_bind {A B} (m : M S T A) (f : A -> M S T B) :
  silent m -> (forall a, silent (f a)) -> silent (bind m f).
Proof.
  intros Hm Hf log. unfold bind. specialize (Hm log).
  destruct (m log) as [[a|e] log']; simpl in *; subst.
  - apply Hf.
  - reflexivity.
Qed.

Lemma silent_try {A} (m : M S T A) h :
  silent m -> (forall e, silent (h e)) -> silent (try_except m h).
Proof.
  intros Hm Hh log. unfold try_except. specialize (Hm log).
  destruct (m log) as [[a|e] log']; simpl in *; subst.
  - reflexivity.
  - apply Hh.
Qed.

Lemma returns_ret {A} (a : A) : returns (S:=S) (T:=T) (ret a).
Proof. intros log. reflexivity. Qed.

Lemma returns_try {A} (m : M S T A) h :
  (forall e, returns (h e)) -> returns (try_except m h).
Proof.
  intros Hh log. unfold try_except.
  destruct (m log) as [[a|e] log']; simpl.
  - reflexivity.
  - apply Hh.
Qed.

(** A handler around a computation that never raises is not used. *)
Lemma try_returns {A} (m : M S T A) h log :
  returns m -> try_except m h log = m log.
Proof.
  intros Hm. unfold try_except. specialize (Hm log).
  destruct (m log) as [[a|e] log']; simpl in *; [reflexivity | discriminate].
Qed.

Lemma silent_trace {A} (m : M S T A) : silent m -> trace m = [].
Proof. intros Hm. apply Hm. Qed.
End Laws.

#[local] Hint Resolve silent_ret silent_raise silent_lift returns_ret : chain.

Lemma advanced_pdf_returns (f : Advanced.file) :
  returns (Advanced._parse_pdf_statement f).
Proof. apply returns_try. intros e. apply returns_ret. Qed.

Lemma advanced_excel_sheets_silent sheets : silent (Advanced.excel_sheets sheets).
Proof.
  induction sheets as [|[name read] sheets IH]; simpl.
  - apply silent_ret.
  - apply silent_bind; [apply silent_lift|].
    intros df. destruct (_ && _); [|exact IH].
    destruct (Advanced._process_dataframe _ _); [exact IH | apply silent_ret].
Qed.

Lemma advanced_statement_trace (f : Advanced.file) :
  trace (Advanced.parse_statement f) = []
  \/ trace (Advanced.parse_statement f) = trace (Advanced._parse_pdf_statement f).
Proof.
  unfold Advanced.parse_statement.
  repeat match goal with
         | |- context [if ?b then _ else _] => destruct b
         end.
  - right. unfold trace, run.
    rewrite try_returns by apply advanced_pdf_returns. reflexivity.
  - left. apply silent_trace, silent_try; [|auto with chain].
    apply silent_try; [|auto with chain].
    apply silent_bind; [auto with chain|]. intros [df|]; auto with chain.
  - left. apply silent_trace, silent_try; [|auto with chain].
    apply silent_try; [|auto with chain].
    apply silent_bind; [auto with chain|]. apply advanced_excel_sheets_silent.
  - left. apply silent_trace, silent_try; [|auto with chain].
    apply silent_try; [|auto with chain].
    apply silent_bind; [auto with chain|]. intros text. auto with chain.
  - left. apply silent_trace, silent_try; auto with chain.
Qed.

Ltac chain_done := solve [split; [chain_solve | repeat constructor]].

Lemma enhanced_pdf_chain fl self now (f : PdfText.pdf) :
  let tr := trace (Enhanced.parse_pdf fl self now f) in
  fallback_discipline tr /\
  sublist (map ev_strategy tr)
          [Enhanced.IndianBankFormat; Enhanced.GenericLines; Enhanced.GeminiAI].
Proof.
  unfold Enhanced.parse_pdf.
  destruct (negb _); [chain_done|].
  run_unfold.
  destruct (_ <? _)%nat; simpl; [chain_done|].
  destruct (_ && _); simpl.
  - destruct (IndianBank.parse_text _) as [|t l]; simpl; [|chain_done].
    destruct (Enhanced._parse_transactions_from_text _) as [[|t l]|msg]; simpl;
      try chain_done.
    destruct (Enhanced.gemini_parser self) as [g|]; simpl; [|chain_done].
    destruct (Gemini.parse_pdf g f); simpl; chain_done.
  - destruct (Enhanced._parse_transactions_from_text _) as [[|t l]|msg]; simpl;
      try chain_done.
    destruct (Enhanced.gemini_parser self) as [g|]; simpl; [|chain_done].
    destruct (Gemini.parse_pdf g f); simpl; chain_done.
Qed.

(** C2.  In every chain of the parsers a strategy is invoked only when
    every strategy invoked before it has returned an empty list, and the
    strategies are invoked in the order of the chain: for
    [AdvancedBankStatementParser.parse_statement] the chain
    pdfplumber, camelot, OCR; inside the pdfplumber strategy the page
    tables, then the line patterns; for [EnhancedPDFParser.parse_pdf]
    the Indian Bank format, the generic line patterns, the AI
    extractor. *)
Theorem fallback_chain_invocations :
  (forall f : Advanced.file,
      let tr := trace (Advanced.parse_statement f) in
      fallback_discipline tr /\
      sublist (map ev_strategy tr)
              [Advanced.Pdfplumber; Advanced.Camelot; Advanced.Ocr])
  /\ (forall f : Advanced.file,
      let tr := trace (Advanced._parse_pdf_with_pdfplumber f) in
      fallback_discipline tr /\
      sublist (map ev_strategy tr) [Advanced.PageTables; Advanced.LinePattern])
  /\ (forall fl self now (f : PdfText.pdf),
      let tr := trace (Enhanced.parse_pdf fl self now f) in
      fallback_discipline tr /\
      sublist (map ev_strategy tr)
              [Enhanced.IndianBankFormat; Enhanced.GenericLines;
               Enhanced.GeminiAI]).
Proof.
  split; [|split].
  - intros f. simpl.
    destruct (advanced_statement_trace f) as [-> | ->].
    + split; [apply fallback_discipline_nil | repeat constructor].
    + apply advanced_pdf_chain.
  - apply advanced_pdfplumber_chain.
  - apply enhanced_pdf_chain.
Qed.

(** ** The sample fallback of [EnhancedPDFParser.parse_pdf] *)

(** A log on which no strategy has extracted a transaction. *)
Lemma nothing_extracted_nil {S T} : @nothing_extracted S T [].
Proof. constructor. Qed.


Ltac nothing_extracted :=
  repeat first
    [ apply nothing_extracted_nil
    | apply Forall_nil_2
    | apply Forall_cons_2;
      [cbn [ev_result]; intros ? Hl; first [discriminate Hl | now injection Hl]|] ].

Ltac all_empty :=
  repeat first [apply Forall_nil_2 | apply Forall_cons_2; [reflexivity|]].

Ltac local_log :=
  repeat first [apply Forall_nil_2 | apply Forall_cons_2; [discriminate|]].

(** The cases of the chain of [parse_pdf] after its local strategies:
    the equations of the run are solved first, since they give the
    log. *)
Ltac local_samples :=
  (exists [] + idtac);
  refine (conj _ (or_intror (conj _ _)));
  [ | | intros ? ?; left; split; reflexivity ];
  [ local_log | nothing_extracted ].

Ltac local_extracted pre :=
  refine (conj _ (or_introl _));
  [ | pre; eexists; eexists;
      refine (conj _ (conj _ (conj _ (conj _ _))));
      [ | | | | intros ? ?; split; reflexivity ];
      [ reflexivity | all_empty | reflexivity | discriminate ] ];
  local_log.

Ltac local_ai :=
  refine (conj _ (or_intror (conj _ _)));
  [ | | intros self ?;
        destruct (Enhanced.gemini_parser self) as [?|]; simpl;
        [ match goal with
          | |- context [Gemini.parse_pdf ?g ?f] =>
              destruct (Gemini.parse_pdf g f) as [|? ?]
          end;
          unfold trace, result, run; simpl;
          right; eexists; (split; [reflexivity|]);
          [ right; split; reflexivity
          | left; split; [discriminate | reflexivity] ]
        | left; split; reflexivity ] ];
  [ local_log | nothing_extracted ].

(** The log ends with the strategy that extracted [l]. *)
Ltac extracted_last :=
  (exists [] + eexists [_] + eexists [_; _]);
  eexists; eexists;
  split; [reflexivity|];
  split; [all_empty|];
  split; [reflexivity|];
  split; [discriminate|].

Ltac sample_case :=
  unfold trace, result, run, ret; simpl;
  eexists; split;
  [ reflexivity
  | left; split; [reflexivity | nothing_extracted] ].

Ltac strategy_case :=
  unfold trace, result, run, ret; simpl;
  eexists; split;
  [ reflexivity
  | right; extracted_last; reflexivity ].

(** The log of [parse_pdf] does not depend on the clock.  Either no
    logged strategy has extracted a transaction and the result is the
    sample list of the clock, or the log ends with the first strategy
    that has extracted a transaction and the result is its list, whatever
    the clock. *)
Lemma enhanced_parse_pdf_cases fl self (f : PdfText.pdf) :
  exists tr,
    (forall now, trace (Enhanced.parse_pdf fl self now f) = tr)
    /\ (((forall now, result (Enhanced.parse_pdf fl self now f)
                      = Ok (Enhanced._get_sample_transactions now))
         /\ nothing_extracted tr)
        \/ (exists pre e l,
               tr = pre ++ [e]
               /\ Forall (fun e' => ev_result e' = Ok []) pre
               /\ ev_result e = Ok l /\ l <> []
               /\ forall now, result (Enhanced.parse_pdf fl self now f) = Ok l)).
Proof.
  unfold Enhanced.parse_pdf.
  destruct (negb _); [sample_case|].
  run_unfold.
  destruct (_ <? _)%nat; simpl; [sample_case|].
  destruct (_ && _); simpl.
  - destruct (IndianBank.parse_text _) as [|t l]; simpl; [|strategy_case].
    destruct (Enhanced._parse_transactions_from_text _) as [[|t l]|msg]; simpl;
      [|strategy_case|sample_case].
    destruct (Enhanced.gemini_parser self) as [g|]; simpl; [|sample_case].
    destruct (Gemini.parse_pdf g f) as [|t l]; simpl; [sample_case|strategy_case].
  - destruct (Enhanced._parse_transactions_from_text _) as [[|t l]|msg]; simpl;
      [|strategy_case|sample_case].
    destruct (Enhanced.gemini_parser self) as [g|]; simpl; [|sample_case].
    destruct (Gemini.parse_pdf g f) as [|t l]; simpl; [sample_case|strategy_case].
Qed.

(** The result of the PDF chain of the advanced parser is a dictionary
    whose transaction list is empty when no logged strategy has extracted
    a transaction, and is otherwise the list of the last logged strategy,
    the first that has extracted one. *)
Lemma advanced_pdf_cases (f : Advanced.file) :
  exists d,
    result (Advanced._parse_pdf_statement f) = Ok d
    /\ ((nothing_extracted (trace (Advanced._parse_pdf_statement f))
         /\ Advanced.transactions_of d = [])
        \/ (exists pre e,
               trace (Advanced._parse_pdf_statement f) = pre ++ [e]
               /\ Forall (fun e' => ev_result e' = Ok []) pre
               /\ ev_result e = Ok (Advanced.transactions_of d)
               /\ Advanced.transactions_of d <> [])).
Proof.
  unfold Advanced._parse_pdf_statement.
  run_unfold.
  destruct (Advanced._parse_pdf_with_pdfplumber f []) as [[l1|msg] log1]; simpl.
  2:{ eexists; split; [reflexivity|]. left. split; [nothing_extracted | reflexivity]. }
  destruct l1 as [|t1 l1]; simpl.
  2:{ eexists; split; [reflexivity|]. right. exists []. eexists.
      split; [reflexivity|]. split; [all_empty|].
      split; [reflexivity | discriminate]. }
  destruct (Advanced._parse_pdf_with_camelot f) as [l2|msg]; simpl.
  2:{ eexists; split; [reflexivity|]. left. split; [nothing_extracted | reflexivity]. }
  destruct l2 as [|t2 l2]; simpl.
  2:{ eexists; split; [reflexivity|]. right. eexists [_]. eexists.
      split; [reflexivity|]. split; [all_empty|].
      split; [reflexivity | discriminate]. }
  destruct (Advanced._parse_pdf_with_ocr f) as [l3|msg]; simpl.
  2:{ eexists; split; [reflexivity|]. left. split; [nothing_extracted | reflexivity]. }
  destruct l3 as [|t3 l3].
  - eexists; split; [reflexivity|]. left. split; [nothing_extracted | reflexivity].
  - eexists; split; [reflexivity|]. right. eexists [_; _]. eexists.
    split; [reflexivity|]. split; [all_empty|].
    split; [reflexivity | discriminate].
Qed.


(** C1, as stated, fails: on a PDF from which the only strategy invoked
    extracts nothing, [EnhancedPDFParser.parse_pdf] returns the five
    sample transactions, none of which comes from the file. *)
Lemma sample_transactions_fabricated :
  let m := Enhanced.parse_pdf Examples.all_flags Examples.no_ai Examples.day1
                              Examples.cover_page in
  Forall (fun e => ev_result e = Ok []) (trace m)
  /\ result m = Ok (Enhanced._get_sample_transactions Examples.day1)
  /\ length (Enhanced._get_sample_transactions Examples.day1) = 5%nat
  /\ result m <> Ok [].
Proof.
  vm_compute. repeat split.
  - repeat constructor.
  - discriminate.
Qed.

(** C1, amended.  The PDF chain of [AdvancedBankStatementParser] returns
    an empty transaction list exactly when no strategy that it invoked
    has extracted a transaction, and otherwise the non-empty list of the
    last strategy invoked, before which every strategy returned the empty
    list.  [EnhancedPDFParser.parse_pdf] returns the five sample
    transactions of [_get_sample_transactions] exactly when no strategy
    that it invoked has extracted a transaction, and otherwise the
    non-empty list of the last strategy invoked, before which every
    strategy returned the empty list. *)
Theorem results_come_from_strategies_or_samples :
  (forall f : Advanced.file,
      exists d,
        result (Advanced._parse_pdf_statement f) = Ok d
        /\ ((nothing_extracted (trace (Advanced._parse_pdf_statement f))
             /\ Advanced.transactions_of d = [])
            \/ (exists pre e,
                   trace (Advanced._parse_pdf_statement f) = pre ++ [e]
                   /\ Forall (fun e' => ev_result e' = Ok []) pre
                   /\ ev_result e = Ok (Advanced.transactions_of d)
                   /\ Advanced.transactions_of d <> [])))
  /\ (forall fl self now (f : PdfText.pdf),
         let m := Enhanced.parse_pdf fl self now f in
         (nothing_extracted (trace m)
          /\ result m = Ok (Enhanced._get_sample_transactions now)
          /\ length (Enhanced._get_sample_transactions now) = 5%nat)
         \/ (exists pre e l,
                trace m = pre ++ [e]
                /\ Forall (fun e' => ev_result e' = Ok []) pre
                /\ ev_result e = Ok l /\ l <> []
                /\ result m = Ok l)).
Proof.
  split.
  - apply advanced_pdf_cases.
  - intros fl self now f. simpl.
    destruct (enhanced_parse_pdf_cases fl self f)
      as [tr [Htr [[H Hn]|(pre & e & l & Hpre & Hall & He & Hl & H)]]].
    + left. rewrite Htr. split; [exact Hn|]. split; [apply H | reflexivity].
    + right. exists pre, e, l. rewrite Htr, H. auto.
Qed.

(** C5, as stated, fails: the same file parsed on two consecutive days
    gives two different transaction lists. *)
Lemma sample_dates_follow_the_clock :
  result (Enhanced.parse_pdf Examples.all_flags Examples.no_ai Examples.day1
                             Examples.cover_page)
  <> result (Enhanced.parse_pdf Examples.all_flags Examples.no_ai Examples.day2
                                Examples.cover_page).
Proof.
  vm_compute. intros H. discriminate H.
Qed.

(** The strategies of [parse_pdf] that read the text of the file
    themselves come first in the chain: their part of the log and what
    the chain does after it, by cases. *)
Lemma enhanced_local_cases fl (f : PdfText.pdf) :
  exists tr,
    Forall (fun e => ev_strategy e <> Enhanced.GeminiAI) tr
    /\ ((exists pre e l,
            tr = pre ++ [e]
            /\ Forall (fun e' => ev_result e' = Ok []) pre
            /\ ev_result e = Ok l /\ l <> []
            /\ forall self now,
                trace (Enhanced.parse_pdf fl self now f) = tr
                /\ result (Enhanced.parse_pdf fl self now f) = Ok l)
        \/ (nothing_extracted tr
            /\ forall self now,
                Enhanced.after_local tr (Enhanced.parse_pdf fl self now f) now)).
Proof.
  unfold Enhanced.parse_pdf.
  destruct (negb _); [local_samples|].
  run_unfold.
  destruct (_ <? _)%nat; simpl; [local_samples|].
  destruct (_ && _); simpl.
  - destruct (IndianBank.parse_text _) as [|t l]; simpl;
      [|eexists [_]; local_extracted ltac:(exists [])].
    destruct (Enhanced._parse_transactions_from_text _) as [[|t l]|msg]; simpl.
    + eexists [_; _]. local_ai.
    + eexists [_; _]. local_extracted ltac:(eexists [_]).
    + eexists [_; _]. local_samples.
  - destruct (Enhanced._parse_transactions_from_text _) as [[|t l]|msg]; simpl.
    + eexists [_]. local_ai.
    + eexists [_]. local_extracted ltac:(exists []).
    + eexists [_]. local_samples.
Qed.

(** C5, amended.  Two runs of [EnhancedPDFParser.parse_pdf] on the same
    file, each with its own clock and its own answers of the AI service,
    invoke the strategies that read the text themselves with the same
    results, and return identical lists when one of these has extracted a
    transaction.  When none has, each run returns the list that the AI
    strategy extracts during that run when it is invoked and extracts
    one, and else the sample transactions dated from its own clock. *)
Theorem parse_pdf_depends_on_file_or_clock fl (f : PdfText.pdf)
  self1 self2 now1 now2 :
  let m1 := Enhanced.parse_pdf fl self1 now1 f in
  let m2 := Enhanced.parse_pdf fl self2 now2 f in
  exists tr,
    Forall (fun e => ev_strategy e <> Enhanced.GeminiAI) tr
    /\ ((exists pre e l,
            tr = pre ++ [e]
            /\ Forall (fun e' => ev_result e' = Ok []) pre
            /\ ev_result e = Ok l /\ l <> []
            /\ trace m1 = tr /\ trace m2 = tr
            /\ result m1 = Ok l /\ result m2 = Ok l)
        \/ (nothing_extracted tr
            /\ Enhanced.after_local tr m1 now1
            /\ Enhanced.after_local tr m2 now2)).
Proof.
  simpl.
  destruct (enhanced_local_cases fl f)
    as (tr & Hloc & [(pre & e & l & Hpre & Hall & He & Hl & H)|[Hn H]]);
    exists tr; (split; [exact Hloc|]).
  - left. exists pre, e, l.
    destruct (H self1 now1) as [Ht1 Hr1]. destruct (H self2 now2) as [Ht2 Hr2].
    auto 10.
  - right. auto.
Qed.

(** ** The categorizers *)

(** A pattern whose continuation always succeeds succeeds under a
    star. *)
Lemma match_here_star ci r prev s :
  is_Some (match_here ci (Star r) prev s).
Proof.
  unfold match_here. simpl.
  destruct (length s); simpl.
  - eauto.
  - unfold orelse at 1.
    match goal with |- is_Some (match ?x with _ => _ end) => destruct x end; eauto.
Qed.

Lemma search_star ci r s : matches ci (Star r) s = true.
Proof.
  unfold matches, search. destruct s as [|c s]; cbn -[match_here].
  - destruct (match_here_star ci r None []) as [[? ?] ->]. reflexivity.
  - destruct (match_here_star ci r None (c :: s)) as [[? ?] ->]. reflexivity.
Qed.

(** [first_match] returns the name of the first pair whose pattern is
    found. *)
Lemma first_match_Some ci table text c :
  Advanced.first_match ci table text = Some c ->
  exists pre p post,
    table = pre ++ (c, p) :: post
    /\ Forall (fun cp => matches ci (snd cp) text = false) pre
    /\ matches ci p text = true.
Proof.
  induction table as [|[n p] table IH]; simpl; [discriminate|].
  destruct (matches ci p text) eqn:Hm.
  - intros [= ->]. exists [], p, table. auto.
  - intros H. destruct (IH H) as (pre & p' & post & -> & Hpre & Hp).
    exists ((n, p) :: pre), p', post. split; [reflexivity|].
    split; [constructor; assumption | assumption].
Qed.

Lemma first_match_In ci table text c :
  Advanced.first_match ci table text = Some c -> In c (map fst table).
Proof.
  intros H. destruct (first_match_Some _ _ _ _ H) as (pre & p & post & -> & _).
  rewrite map_app. apply in_or_app. right. now left.
Qed.

Lemma first_match_total ci table text n p :
  In (n, p) table -> matches ci p text = true ->
  is_Some (Advanced.first_match ci table text).
Proof.
  induction table as [|[n' p'] table IH]; simpl; [tauto|].
  intros [[= -> ->]|Hin] Hm.
  - rewrite Hm. eauto.
  - destruct (matches ci p' text); eauto.
Qed.

Lemma advanced_categorize_first_match d :
  Advanced.first_match false Advanced.CATEGORY_PATTERNS (upper d)
  = Some (Advanced._categorize_transaction d).
Proof.
  unfold Advanced._categorize_transaction.
  destruct (first_match_total false Advanced.CATEGORY_PATTERNS (upper d)
              (py "others") (Star Dot)) as [c ->].
  - unfold Advanced.CATEGORY_PATTERNS. do 14 right. left. reflexivity.
  - apply search_star.
  - reflexivity.
Qed.


(** C6, as stated, fails: a description that no specific pattern matches
    is categorized [others], which is not in the enumeration of the
    specification; the enhanced parser also returns [loan]. *)
Lemma others_not_in_specified_set :
  Advanced._categorize_transaction (py "XYZ") = py "others"
  /\ ~ In (Advanced._categorize_transaction (py "XYZ")) Categories.specified
  /\ ~ In (Enhanced._categorize_transaction (py "car loan")) Categories.specified.
Proof.
  split; [vm_compute; reflexivity|].
  split; vm_compute; intros H;
    repeat (destruct H as [H|H]; [discriminate H|]); exact H.
Qed.

(** C6, amended.  [AdvancedBankStatementParser._categorize_transaction]
    returns the category of the first pair of [CATEGORY_PATTERNS] whose
    pattern is found in the upper-cased description; the result is
    [others] unless one of the other patterns is found; every result is
    in the set with [others] in the place of [other].
    [EnhancedPDFParser._categorize_transaction] returns a member of its
    own set, which has [loan] and [others]. *)
Theorem categorizer_first_match_closed_set (d : pystr) :
  (exists pre p post,
      Advanced.CATEGORY_PATTERNS
      = pre ++ (Advanced._categorize_transaction d, p) :: post
      /\ Forall (fun cp => matches false (snd cp) (upper d) = false) pre
      /\ matches false p (upper d) = true)
  /\ (Advanced._categorize_transaction d = py "others"
      \/ exists p, In (Advanced._categorize_transaction d, p)
                      (removelast Advanced.CATEGORY_PATTERNS)
                   /\ matches false p (upper d) = true)
  /\ In (Advanced._categorize_transaction d) Categories.advanced
  /\ In (Enhanced._categorize_transaction d) Categories.enhanced.
Proof.
  pose proof (advanced_categorize_first_match d) as Hfm.
  split; [apply first_match_Some; exact Hfm|].
  split.
  - destruct (first_match_Some _ _ _ _ Hfm) as (pre & p & post & Heq & _ & Hp).
    destruct post as [|x post].
    + left.
      assert (Hl : last Advanced.CATEGORY_PATTERNS
                   = Some (Advanced._categorize_transaction d, p))
        by (rewrite Heq; apply last_snoc).
      change (last Advanced.CATEGORY_PATTERNS)
        with (Some (py "others", Star Dot)) in Hl.
      injection Hl as Hc _. symmetry. exact Hc.
    + right. exists p. split; [|exact Hp].
      rewrite Heq.
      change (pre ++ (Advanced._categorize_transaction d, p) :: x :: post)
        with (pre ++ [(Advanced._categorize_transaction d, p)] ++ x :: post).
      rewrite app_assoc, removelast_app by discriminate.
      apply in_or_app. left. apply in_or_app. right. now left.
  - split.
    + apply (first_match_In _ _ _ _ Hfm).
    + unfold Enhanced._categorize_transaction, Categories.enhanced.
      repeat match goal with
             | |- context [if ?b then _ else _] => destruct b
             end; simpl; tauto.
Qed.

(** ** The cleanup stage of the advanced parser *)

Section DateOrder.
Local Open Scope Z_scope.

Lemma date_ltb_lt a b :
  date_ltb a b = true <->
  year a < year b
  \/ (year a = year b
      /\ (month a < month b \/ (month a = month b /\ day a < day b))).
Proof.
  unfold date_ltb.
  rewrite orb_true_iff, andb_true_iff, orb_true_iff, andb_true_iff,
    !Z.ltb_lt, !Z.eqb_eq.
  reflexivity.
Qed.

Lemma date_leb_le a b :
  date_leb a b = true <->
  year a < year b
  \/ (year a = year b
      /\ (month a < month b \/ (month a = month b /\ day a <= day b))).
Proof.
  unfold date_leb. rewrite negb_true_iff, <- not_true_iff_false, date_ltb_lt. lia.
Qed.

Lemma date_leb_refl a : date_leb a a = true.
Proof. apply date_leb_le. lia. Qed.

Lemma date_leb_total a b : date_leb a b = false -> date_leb b a = true.
Proof.
  rewrite <- not_true_iff_false. rewrite !date_leb_le. lia.
Qed.

Lemma date_leb_trans a b c :
  date_leb a b = true -> date_leb b c = true -> date_leb a c = true.
Proof. rewrite !date_leb_le. lia. Qed.
End DateOrder.


#[local] Instance newest_first_trans : Transitive newest_first.
Proof. intros a b c Hab Hbc. unfold newest_first in *. eapply date_leb_trans; eauto. Qed.

Lemma insert_desc_hd x y l :
  newest_first y x -> HdRel newest_first y l ->
  HdRel newest_first y (Advanced.insert_desc x l).
Proof.
  intros Hyx Hl. destruct l as [|z l]; simpl.
  - constructor. exact Hyx.
  - destruct (date_leb _ _); constructor; [exact Hyx|].
    inversion Hl; assumption.
Qed.

Lemma insert_desc_sorted x l :
  Sorted newest_first l -> Sorted newest_first (Advanced.insert_desc x l).
Proof.
  induction 1 as [|y l Hs IH Hhd]; simpl.
  - repeat constructor.
  - destruct (date_leb (Advanced.sort_key y) (Advanced.sort_key x)) eqn:E.
    + constructor; [constructor; assumption|]. constructor. exact E.
    + constructor; [exact IH|].
      apply insert_desc_hd; [|exact Hhd].
      apply date_leb_total. exact E.
Qed.

Lemma sort_desc_sorted l : Sorted newest_first (Advanced.sort_desc l).
Proof.
  induction l as [|x l IH]; simpl; [constructor|].
  apply insert_desc_sorted. exact IH.
Qed.

Lemma insert_desc_perm x l : Advanced.insert_desc x l ≡ₚ x :: l.
Proof.
  induction l as [|y l IH]; simpl; [reflexivity|].
  destruct (date_leb _ _); [reflexivity|].
  rewrite IH. apply Permutation_swap.
Qed.

Lemma sort_desc_perm l : Advanced.sort_desc l ≡ₚ l.
Proof.
  induction l as [|x l IH]; simpl; [reflexivity|].
  rewrite insert_desc_perm, IH. reflexivity.
Qed.

(** The sort is stable: a list in order is left as it is. *)
Lemma sort_desc_fixed l : Sorted newest_first l -> Advanced.sort_desc l = l.
Proof.
  induction 1 as [|x l Hs IH Hhd]; simpl; [reflexivity|].
  rewrite IH. destruct Hhd as [|y l' Hxy]; simpl; [reflexivity|].
  unfold newest_first in Hxy. rewrite Hxy. reflexivity.
Qed.

Lemma annotate_keeps t : Advanced.keeps (Advanced.annotate t) = Advanced.keeps t.
Proof. reflexivity. Qed.

Lemma annotate_idem t : Advanced.annotate (Advanced.annotate t) = Advanced.annotate t.
Proof. reflexivity. Qed.

Lemma clean_elements l t :
  t ∈ Advanced._clean_and_categorize_transactions l ->
  exists t0, t0 ∈ l /\ Advanced.keeps t0 = true /\ t = Advanced.annotate t0.
Proof.
  unfold Advanced._clean_and_categorize_transactions.
  rewrite sort_desc_perm. intros H.
  apply list_elem_of_fmap in H as (t0 & -> & H).
  apply list_elem_of_filter in H as [Hk Hin]. eauto.
Qed.

Lemma filter_all {A} (P : A -> Prop) `{forall x, Decision (P x)} (l : list A) :
  Forall P l -> filter P l = l.
Proof.
  induction 1 as [|x l Hx _ IH]; [reflexivity|].
  rewrite filter_cons_True by assumption. now rewrite IH.
Qed.

Lemma map_fixed {A} (f : A -> A) (l : list A) :
  Forall (fun x => f x = x) l -> map f l = l.
Proof. induction 1 as [|x l Hx _ IH]; simpl; congruence. Qed.

Lemma clean_idempotent l :
  Advanced._clean_and_categorize_transactions
    (Advanced._clean_and_categorize_transactions l)
  = Advanced._clean_and_categorize_transactions l.
Proof.
  set (L := Advanced._clean_and_categorize_transactions l).
  assert (Hel : forall t, t ∈ L ->
                  Advanced.keeps t = true /\ Advanced.annotate t = t).
  { intros t Ht. apply clean_elements in Ht as (t0 & _ & Hk & ->).
    rewrite annotate_keeps, annotate_idem. auto. }
  unfold Advanced._clean_and_categorize_transactions at 1.
  rewrite filter_all.
  2:{ apply Forall_forall. intros t Ht. apply Hel. exact Ht. }
  rewrite map_fixed.
  2:{ apply Forall_forall. intros t Ht. apply Hel. exact Ht. }
  apply sort_desc_fixed. apply sort_desc_sorted.
Qed.

(** C9.  Every list returned by [_clean_and_categorize_transactions] is
    the list of the records that it keeps of its input (those with a date
    and an amount that is not zero, each with its category and its
    renderings), rearranged in descending order of date, whatever the
    order of the input: every record has a date, and the date of a
    record is not earlier than the date of any record after it. *)
Theorem cleanup_sorted_newest_first (l : list Advanced.txn) :
  let out := Advanced._clean_and_categorize_transactions l in
  out ≡ₚ map Advanced.annotate (filter (fun t => Advanced.keeps t = true) l)
  /\ Forall (fun t => Advanced.date t = Some (Advanced.sort_key t)) out
  /\ StronglySorted
       (fun a b => date_leb (Advanced.sort_key b) (Advanced.sort_key a) = true)
       out.
Proof.
  simpl. split; [|split].
  - unfold Advanced._clean_and_categorize_transactions. apply sort_desc_perm.
  - apply Forall_forall. intros t Ht.
    apply clean_elements in Ht as (t0 & _ & Hk & ->).
    unfold Advanced.keeps in Hk. apply andb_prop in Hk as [Hd _].
    apply bool_decide_eq_true in Hd. destruct Hd as [d Hd].
    unfold Advanced.sort_key. simpl. rewrite Hd. reflexivity.
  - apply Sorted_StronglySorted; [exact newest_first_trans|].
    apply sort_desc_sorted.
Qed.


(** C4, as stated, fails: the cleanup of the records of a text that holds
    the same line twice returns two identical records. *)
Lemma cleanup_keeps_duplicates :
  let out := Advanced._clean_and_categorize_transactions
               (Advanced._parse_text_with_regex Examples.swiggy_twice None) in
  length out = 2%nat /\ ~ NoDup out.
Proof.
  vm_compute. split; [reflexivity|].
  intros H. apply NoDup_cons in H as [Hn _]. apply Hn. left.
Qed.

(** C4, amended.  The cleanup does not remove duplicates: its result is a
    rearrangement of all the records that have a date and a non-zero
    amount, each with its category and date renderings.  The cleanup is
    idempotent: cleaning a cleaned list returns the same list. *)
Theorem cleanup_idempotent_without_dedup (l : list Advanced.txn) :
  Advanced._clean_and_categorize_transactions
    (Advanced._clean_and_categorize_transactions l)
  = Advanced._clean_and_categorize_transactions l
  /\ Advanced._clean_and_categorize_transactions l
     ≡ₚ map Advanced.annotate (filter (fun t => Advanced.keeps t = true) l).
Proof.
  split; [apply clean_idempotent|].
  unfold Advanced._clean_and_categorize_transactions. apply sort_desc_perm.
Qed.

(** ** The amount of a line *)

Lemma Qltb_false a b : Qltb a b = false -> (b <= a)%Q.
Proof.
  unfold Qltb. intros H. apply negb_false_iff in H. now apply Qle_bool_iff.
Qed.

Lemma Qltb_true a b : Qltb a b = true -> (a < b)%Q.
Proof.
  unfold Qltb. intros H. apply negb_true_iff in H.
  apply Qnot_le_lt. intros Hle. apply Qle_bool_iff in Hle. congruence.
Qed.

(** [max] returns an element of the list that no element exceeds. *)
Lemma py_max_spec l : forall m,
  In (py_max m l) (m :: l)
  /\ (m <= py_max m l)%Q
  /\ Forall (fun x => (x <= py_max m l)%Q) l.
Proof.
  unfold py_max.
  induction l as [|y l IH]; intros m; simpl.
  - split; [now left|]. split; [apply Qle_refl | constructor].
  - destruct (Qltb m y) eqn:E.
    + destruct (IH y) as (Hin & Hle & Hall).
      split; [now right|].
      split; [|constructor; assumption].
      eapply Qle_trans; [|exact Hle]. apply Qlt_le_weak, Qltb_true, E.
    + destruct (IH m) as (Hin & Hle & Hall).
      split; [destruct Hin as [Hin|Hin]; [now left | now right; right]|].
      split; [exact Hle|].
      constructor; [|exact Hall].
      eapply Qle_trans; [|exact Hle]. apply Qltb_false, E.
Qed.

Lemma advanced_line_amount line bank t :
  Advanced.regex_line line bank = Some t ->
  exists a rest,
    Advanced.parsed_amounts
      (findall0 false Advanced.line_amount_re (strip line)) = a :: rest
    /\ Advanced.amount t = py_max a rest
    /\ In (Advanced.amount t) (a :: rest)
    /\ Forall (fun x => (x <= Advanced.amount t)%Q) (a :: rest).
Proof.
  unfold Advanced.regex_line. intros H.
  repeat case_match; simplify_eq; simpl.
  all: match goal with
       | H : Advanced.parsed_amounts _ = ?a :: ?l |- _ =>
           exists a, l; destruct (py_max_spec l a) as (Hin & Hle & Hall)
       end.
  all: repeat split; try assumption.
  all: constructor; assumption.
Qed.

Lemma enhanced_line_amount line t :
  Enhanced._extract_transaction_from_line line = Ok (Some t) ->
  exists a rest,
    Enhanced.line_amounts line = a :: rest /\ Statement.amount t = a.
Proof.
  unfold Enhanced._extract_transaction_from_line. intros H.
  repeat case_match; simplify_eq; simpl; eauto.
Qed.

Lemma free_line_amount line t :
  Free._extract_transaction_line line = Some t ->
  exists date_match tokens token,
    Free.first_date Free.date_patterns (Free._clean_text line) = Some date_match
    /\ tokens = findall1 false Free.amount_pattern
                  (strip (replace date_match [] (Free._clean_text line)))
    /\ last tokens = Some token
    /\ py_float (replace (py ",") [] token) = Some (Statement.amount t).
Proof.
  unfold Free._extract_transaction_line. intros H.
  repeat case_match; simplify_eq; simpl; eauto 10.
Qed.


(** C7, as stated, fails: [EnhancedPDFParser] emits the first amount of
    the line, here 100, although 5000 is parsed on the same line. *)
Lemma enhanced_emits_first_amount :
  Enhanced.line_amounts Examples.shop_line = [100; 5000]%Q
  /\ Examples.emitted_amount
       (Enhanced._extract_transaction_from_line Examples.shop_line)
     = Some 100%Q
  /\ ~ (5000 <= 100)%Q.
Proof.
  split; [vm_compute; reflexivity|].
  split; [vm_compute; reflexivity|].
  intros H. vm_compute in H. apply H. reflexivity.
Qed.

(** C7, amended.  A transaction that
    [AdvancedBankStatementParser._parse_text_with_regex] emits for a line
    carries the largest of the amounts parsed on that line.
    [EnhancedPDFParser._extract_transaction_from_line] emits the first of
    the parsed amounts, and [FreePDFParser._extract_transaction_line] the
    last amount matched after the date is removed. *)
Theorem line_amount_choice :
  (forall line bank t,
      Advanced.regex_line line bank = Some t ->
      exists a rest,
        Advanced.parsed_amounts
          (findall0 false Advanced.line_amount_re (strip line)) = a :: rest
        /\ Advanced.amount t = py_max a rest
        /\ In (Advanced.amount t) (a :: rest)
        /\ Forall (fun x => (x <= Advanced.amount t)%Q) (a :: rest))
  /\ (forall line t,
         Enhanced._extract_transaction_from_line line = Ok (Some t) ->
         exists a rest,
           Enhanced.line_amounts line = a :: rest /\ Statement.amount t = a)
  /\ (forall line t,
         Free._extract_transaction_line line = Some t ->
         exists date_match tokens token,
           Free.first_date Free.date_patterns (Free._clean_text line)
           = Some date_match
           /\ tokens = findall1 false Free.amount_pattern
                         (strip (replace date_match [] (Free._clean_text line)))
           /\ last tokens = Some token
           /\ py_float (replace (py ",") [] token) = Some (Statement.amount t)).
Proof.
  split; [exact advanced_line_amount|].
  split; [exact enhanced_line_amount | exact free_line_amount].
Qed.

(** The three extractors emit a transaction on the example lines. *)
Lemma line_amount_choice_witness :
  (exists t, Advanced.regex_line Examples.swiggy_line None = Some t
             /\ In (Advanced.amount t)
                   (Advanced.parsed_amounts
                      (findall0 false Advanced.line_amount_re
                                (strip Examples.swiggy_line))))
  /\ (exists t, Enhanced._extract_transaction_from_line Examples.shop_line
                = Ok (Some t)
                /\ exists rest, Enhanced.line_amounts Examples.shop_line
                                = Statement.amount t :: rest)
  /\ (exists t, Free._extract_transaction_line Examples.neft_line = Some t
                /\ exists token,
                    py_float (replace (py ",") [] token) = Some (Statement.amount t)).
Proof.
  destruct line_amount_choice as (Ha & He & Hf).
  split; [|split].
  - eexists. split; [vm_compute; reflexivity|].
    edestruct (Ha Examples.swiggy_line None) as (a & rest & -> & _ & Hin & _);
      [vm_compute; reflexivity|].
    exact Hin.
  - eexists. split; [vm_compute; reflexivity|].
    edestruct (He Examples.shop_line) as (a & rest & -> & <-);
      [vm_compute; reflexivity|].
    eexists. vm_compute. reflexivity.
  - eexists. split; [vm_compute; reflexivity|].
    edestruct (Hf Examples.neft_line) as (dm & tokens & token & _ & _ & _ & Hfl);
      [vm_compute; reflexivity|].
    exists token. exact Hfl.
Defined.

(** ** The description of a transaction *)

Lemma take_200_bounds (s : pystr) :
  (3 <= length s)%nat ->
  (1 <= length (take 200 s) <= 200)%nat.
Proof. intros H. rewrite length_take. lia. Qed.

Lemma enhanced_description line t :
  Enhanced._extract_transaction_from_line line = Ok (Some t) ->
  (1 <= length (Statement.description t) <= 200)%nat
  /\ ((length (Enhanced.line_description line) < 3)%nat ->
      Statement.description t
      = (title (Statement.type_ t) ++ py " Transaction")%list).
Proof.
  unfold Enhanced._extract_transaction_from_line. intros H.
  repeat case_match; simplify_eq; simpl.
  all: match goal with
       | H : (_ <? 3)%nat = _ |- _ =>
           first [apply Nat.ltb_lt in H | apply Nat.ltb_ge in H]
       end.
  all: split; [apply take_200_bounds; rewrite ?length_app; simpl; lia|].
  all: intros Hlt; try lia.
  all: rewrite take_ge by (rewrite length_app; unfold Enhanced.line_type;
                           repeat case_match; simpl; lia).
  all: reflexivity.
Qed.

Lemma indian_description line t :
  IndianBank._parse_transaction_line line = Some t ->
  (1 <= length (Statement.description t) <= 200)%nat.
Proof.
  unfold IndianBank._parse_transaction_line. intros H.
  repeat case_match; simplify_eq; cbn [Statement.description].
  all: repeat match goal with
         | H : (_ <? 3)%nat = _ |- _ =>
             first [apply Nat.ltb_lt in H | apply Nat.ltb_ge in H]
         end.
  all: apply take_200_bounds; first [assumption | simpl; lia].
Qed.

Lemma free_description line t :
  Free._extract_transaction_line line = Some t ->
  (1 <= length (Statement.description t) <= 200)%nat.
Proof.
  unfold Free._extract_transaction_line. intros H.
  repeat case_match; simplify_eq; cbn [Statement.description].
  all: rewrite length_take; cbn [length py]; lia.
Qed.

Lemma gemini_description e t :
  Gemini.validate e = Some t -> (length (Statement.description t) <= 200)%nat.
Proof.
  unfold Gemini.validate. intros H.
  repeat case_match; simplify_eq; cbn [Statement.description].
  all: rewrite length_take; lia.
Qed.

Lemma advanced_line_description line bank t :
  Advanced.regex_line line bank = Some t ->
  Advanced.description t = strip line.
Proof.
  unfold Advanced.regex_line. intros H.
  repeat case_match; simplify_eq; simpl; congruence.
Qed.


(** C8, as stated, fails: the advanced parser takes the whole line as the
    description, here 242 characters, and leaves the description of a
    table row empty when the table has no description column. *)
Lemma advanced_description_unbounded_or_empty :
  (length <$> (Advanced.description
                 <$> Advanced.regex_line Examples.long_line None)) = Some 242%nat
  /\ Advanced.description
       <$> Advanced._clean_and_categorize_transactions
             (Advanced._process_table_data Examples.bare_table None)
     = [ [] ].
Proof. split; vm_compute; reflexivity. Qed.

(** C8, amended.  In every transaction of
    [EnhancedPDFParser._extract_transaction_from_line] the description
    has between 1 and 200 characters, and is the label made of the
    capitalised type and the word Transaction when fewer than three
    characters remain of the line.  [IndianBankParser] and
    [FreePDFParser] also keep the description between 1 and 200
    characters, [GeminiPDFParser] keeps it within 200.  The line pass of
    [AdvancedBankStatementParser] takes the stripped line as it is. *)
Theorem description_bounds :
  (forall line t,
      Enhanced._extract_transaction_from_line line = Ok (Some t) ->
      (1 <= length (Statement.description t) <= 200)%nat
      /\ ((length (Enhanced.line_description line) < 3)%nat ->
          Statement.description t
          = (title (Statement.type_ t) ++ py " Transaction")%list))
  /\ (forall line t,
         IndianBank._parse_transaction_line line = Some t ->
         (1 <= length (Statement.description t) <= 200)%nat)
  /\ (forall line t,
         Free._extract_transaction_line line = Some t ->
         (1 <= length (Statement.description t) <= 200)%nat)
  /\ (forall e t,
         Gemini.validate e = Some t ->
         (length (Statement.description t) <= 200)%nat)
  /\ (forall line bank t,
         Advanced.regex_line line bank = Some t ->
         Advanced.description t = strip line).
Proof.
  split; [exact enhanced_description|].
  split; [exact indian_description|].
  split; [exact free_description|].
  split; [exact gemini_description | exact advanced_line_description].
Qed.

(** The enhanced parser emits a transaction with a synthesized label on
    the example line. *)
Lemma description_bounds_witness :
  exists t,
    Enhanced._extract_transaction_from_line Examples.bare_line = Ok (Some t)
    /\ (1 <= length (Statement.description t) <= 200)%nat
    /\ Statement.description t = py "Debit Transaction".
Proof.
  destruct description_bounds as (He & _).
  eexists. split; [vm_compute; reflexivity|].
  edestruct (He Examples.bare_line) as [Hb Hl]; [vm_compute; reflexivity|].
  split; [exact Hb|].
  rewrite Hl; [vm_compute; reflexivity | vm_compute; lia].
Defined.

(** ** [parse_statement] never raises *)


Lemma has_transactions_error msg :
  is_Some (Advanced.error_result msg !! "transactions"%string).
Proof. eexists. reflexivity. Qed.


Lemma excel_sheets_result sheets :
  match result (Advanced.excel_sheets sheets) with
  | Ok d => is_Some (d !! "transactions"%string)
  | Raise _ => True
  end.
Proof.
  induction sheets as [|[name [df|msg]] sheets IH]; simpl.
  - apply has_transactions_error.
  - unfold result, run, bind, lift in *. simpl.
    destruct (_ && _); [|exact IH].
    destruct (Advanced._process_dataframe _ _); [exact IH|].
    simpl. eexists. reflexivity.
  - exact I.
Qed.






(** The pdfplumber strategy raises exactly when the library does. *)
Lemma plumber_cases (f : Advanced.file) :
  (exists pages l log,
      Advanced.f_plumber f = Ok pages
      /\ Advanced._parse_pdf_with_pdfplumber f [] = (Ok l, log))
  \/ (exists m,
         Advanced.f_plumber f = Raise m
         /\ Advanced._parse_pdf_with_pdfplumber f [] = (Raise m, [])).
Proof.
  unfold Advanced._parse_pdf_with_pdfplumber. run_unfold.
  destruct (Advanced.f_plumber f) as [pages|m]; simpl.
  - left. exists pages.
    destruct (Advanced.plumber_pages pages [] None []) as [[full_text bank] found].
    simpl. destruct found, full_text; simpl; eauto.
  - right. eauto.
Qed.

Lemma camelot_returns (f : Advanced.file) :
  exists l, Advanced._parse_pdf_with_camelot f = Ok l.
Proof.
  unfold Advanced._parse_pdf_with_camelot. repeat case_match; eauto.
Qed.

Lemma ocr_returns (f : Advanced.file) :
  exists l, Advanced._parse_pdf_with_ocr f = Ok l.
Proof.
  unfold Advanced._parse_pdf_with_ocr. repeat case_match; eauto.
Qed.

Lemma parse_statement_dispatch (f : Advanced.file) :
  let e := Failure.extension f in
  result (Advanced.parse_statement f)
  = if Failure.is_pdf e then result (Advanced._parse_pdf_statement f)
    else if Failure.is_csv e then result (Advanced._parse_csv_statement f)
    else if Failure.is_excel e then result (Advanced._parse_excel_statement f)
    else if Failure.is_image e then result (Advanced._parse_image_statement f)
    else Ok (Advanced.error_result
               (py "Unsupported file format: " ++ e)%list).
Proof.
  unfold Advanced.parse_statement, Failure.is_pdf, Failure.is_csv,
    Failure.is_excel, Failure.is_image, Failure.extension. simpl.
  unfold result, run, try_except.
  repeat match goal with
         | |- context [if ?b then _ else _] => destruct b
         end; try reflexivity.
  - pose proof (advanced_pdf_returns f []) as H.
    destruct (Advanced._parse_pdf_statement f []) as [[d|e] log];
      [reflexivity | discriminate].
  - unfold Advanced._parse_csv_statement, try_except.
    destruct (bind _ _ []) as [[d|e] log]; reflexivity.
  - unfold Advanced._parse_excel_statement, try_except.
    destruct (bind _ _ []) as [[d|e] log]; reflexivity.
  - unfold Advanced._parse_image_statement, try_except.
    destruct (bind _ _ []) as [[d|e] log]; reflexivity.
Qed.








(** ** The invariant of a transaction *)

Lemma strptime_valid s fmt d : strptime s fmt = Some d -> valid_date d = true.
Proof.
  unfold strptime. intros H. repeat case_match; simplify_eq; assumption.
Qed.

Lemma first_format_valid formats s d :
  Advanced.first_format formats s = Some d -> valid_date d = true.
Proof.
  induction formats as [|fmt formats IH]; simpl; [discriminate|].
  destruct (strptime s fmt) eqn:E.
  - intros [= <-]. eapply strptime_valid, E.
  - exact IH.
Qed.

Lemma find_date_valid patterns row d :
  Advanced.find_date patterns row = Some d -> valid_date d = true.
Proof.
  induction patterns as [|p ps IH]; simpl; [discriminate|].
  intros H. repeat case_match; simplify_eq; eauto.
  eapply first_format_valid. eassumption.
Qed.

(** The characters of a stripped string are characters of the string. *)
Lemma lstrip_subset s c : c ∈ lstrip s -> c ∈ s.
Proof.
  induction s as [|d s IH]; simpl; [auto|].
  destruct (is_space d); [|auto].
  intros H. right. auto.
Qed.

Lemma strip_subset s c : c ∈ strip s -> c ∈ s.
Proof.
  unfold strip, rstrip. intros H.
  apply list_elem_of_In in H. rewrite <- in_rev in H.
  apply list_elem_of_In, lstrip_subset, list_elem_of_In in H.
  rewrite <- in_rev in H.
  apply list_elem_of_In, lstrip_subset in H. exact H.
Qed.

(** The removal of a character. *)
Lemma replace_aux_char c0 s : forall fuel,
  (length s < fuel)%nat ->
  replace_aux fuel [c0] [] s = filter (fun c => c <> c0) s.
Proof.
  induction s as [|c s IH]; intros [|fuel] Hf; simpl in *; try lia; try reflexivity.
  rewrite andb_true_r.
  destruct (N.eqb_spec c0 c) as [->|Hne].
  - rewrite filter_cons_False by auto. simpl. apply IH. lia.
  - rewrite filter_cons_True by auto. f_equal. apply IH. lia.
Qed.

Lemma replace_char c0 s : replace [c0] [] s = filter (fun c => c <> c0) s.
Proof. unfold replace. apply replace_aux_char. lia. Qed.

Lemma isdigit_forall s : isdigit s = true -> Forall (fun c => is_digit c = true) s.
Proof.
  unfold isdigit. destruct s as [|c0 s0]; [discriminate|].
  intros H. apply Forall_forall. intros c Hc.
  rewrite forallb_forall in H. apply H. apply list_elem_of_In. exact Hc.
Qed.

Lemma int_of_digits_nonneg s : (0 <= int_of_digits s)%Z.
Proof.
  unfold int_of_digits.
  assert (H : forall acc, (0 <= acc)%Z ->
                (0 <= fold_left (fun a c => 10 * a + digit_val c) s acc)%Z).
  { induction s as [|c s IH]; intros acc Hacc; simpl; [exact Hacc|].
    apply IH. unfold digit_val. lia. }
  apply H. lia.
Qed.

Lemma scale10_nonneg m e : (0 <= m)%Z -> (0 <= scale10 m e)%Q.
Proof.
  intros Hm. unfold scale10. destruct (0 <=? e)%Z eqn:E.
  - rewrite Qred_correct. unfold Qle. simpl.
    apply Z.leb_le in E.
    assert (0 <= 10 ^ e)%Z by (apply Z.pow_nonneg; lia). nia.
  - rewrite Qred_correct. unfold Qle. simpl. lia.
Qed.

(** A string of digits and dots is read as a non-negative number. *)
Lemma py_float_nonneg s q :
  isdigit (replace (py ".") [] s) = true ->
  py_float s = Some q -> (0 <= q)%Q.
Proof.
  intros Hd Hf.
  assert (Hneg : fst (split_sign (strip s)) = false).
  { destruct (strip s) as [|c r] eqn:Es; [reflexivity|]. simpl.
    destruct (N.eqb_spec c 45) as [->|Hne]; [|destruct (c =? 43); reflexivity].
    exfalso.
    assert (Hin : 45 ∈ s) by (apply strip_subset; rewrite Es; left).
    apply isdigit_forall in Hd. change (py ".") with [46] in Hd.
    rewrite replace_char in Hd. rewrite Forall_forall in Hd.
    specialize (Hd 45). rewrite list_elem_of_filter in Hd.
    assert (is_digit 45 = true) by (apply Hd; split; [discriminate | exact Hin]).
    discriminate. }
  unfold py_float in Hf.
  destruct (split_sign (strip s)) as [neg body]. simpl in Hneg. subst neg.
  repeat case_match; simplify_eq.
  all: apply scale10_nonneg, int_of_digits_nonneg.
Qed.

Lemma parsed_amounts_nonneg ms :
  Forall (fun q => (0 <= q)%Q) (Advanced.parsed_amounts ms).
Proof.
  unfold Advanced.parsed_amounts. apply Forall_forall. intros q Hq.
  apply list_elem_of_omap in Hq as (m & _ & Hm).
  case_match; [|discriminate].
  eapply py_float_nonneg; eassumption.
Qed.


Lemma is_pos_lt q : is_pos q = true -> (0 < q)%Q.
Proof. apply Qltb_true. Qed.

Lemma positive_lt q : Advanced.positive (Some q) = true -> (0 < q)%Q.
Proof.
  unfold Advanced.positive. intros H. apply andb_prop in H as [_ H].
  apply is_pos_lt. exact H.
Qed.

Lemma dict_extracted row bank t :
  Advanced._extract_transaction_from_dict row bank = Some t -> valid t.
Proof.
  unfold Advanced._extract_transaction_from_dict. intros H.
  repeat case_match; simplify_eq; unfold valid, credit_or_debit; simpl.
  all: split; [eexists; split; [reflexivity | eapply find_date_valid; eassumption]|].
  all: split; [apply positive_lt; assumption | auto].
Qed.

Lemma valid_extracted t : valid t -> extracted t.
Proof.
  intros (Hd & Ha & Ht). split; [exact Hd|]. split; [|exact Ht].
  apply Qlt_le_weak. exact Ha.
Qed.

Lemma line_extracted line bank t :
  Advanced.regex_line line bank = Some t -> extracted t.
Proof.
  intros H.
  destruct (advanced_line_amount _ _ _ H) as (a & rest & Hp & _ & Hin & _).
  pose proof (parsed_amounts_nonneg
                (findall0 false Advanced.line_amount_re (strip line))) as Hnn.
  rewrite Hp in Hnn. rewrite Forall_forall in Hnn.
  revert H. unfold Advanced.regex_line. intros H.
  repeat case_match; simplify_eq; unfold extracted, credit_or_debit; simpl in *.
  all: split; [eexists; split; [reflexivity | eapply first_format_valid; eassumption]|].
  all: split; [apply Hnn, list_elem_of_In; exact Hin | auto].
Qed.

Lemma table_extracted t bank : Forall extracted (Advanced._process_table_data t bank).
Proof.
  unfold Advanced._process_table_data.
  destruct t as [|header [|row rows]]; try constructor.
  apply Forall_forall. intros x Hx.
  apply list_elem_of_omap in Hx as (r & _ & Hr).
  case_match; [|discriminate].
  apply valid_extracted. eapply dict_extracted. exact Hr.
Qed.

Lemma dataframe_extracted df bank :
  Forall extracted (Advanced._process_dataframe df bank).
Proof.
  unfold Advanced._process_dataframe.
  apply Forall_forall. intros x Hx.
  apply list_elem_of_omap in Hx as (r & _ & Hr).
  apply valid_extracted. eapply dict_extracted. exact Hr.
Qed.

Lemma text_extracted text bank :
  Forall extracted (Advanced._parse_text_with_regex text bank).
Proof.
  unfold Advanced._parse_text_with_regex.
  apply Forall_forall. intros x Hx.
  apply list_elem_of_omap in Hx as (r & _ & Hr).
  eapply line_extracted. exact Hr.
Qed.

(** The cleanup turns extracted records into valid transactions: a
    record whose amount is zero is dropped. *)
Lemma clean_valid l :
  Forall extracted l ->
  Forall valid (Advanced._clean_and_categorize_transactions l).
Proof.
  intros Hl. apply Forall_forall. intros t Ht.
  apply clean_elements in Ht as (t0 & Hin & Hk & ->).
  rewrite Forall_forall in Hl. destruct (Hl _ Hin) as (Hd & Ha & Hty).
  split; [exact Hd|]. split; [|exact Hty].
  simpl. unfold Advanced.keeps in Hk. apply andb_prop in Hk as [_ Hz].
  apply negb_true_iff in Hz. unfold is_zero in Hz.
  apply Qle_lt_or_eq in Ha as [Ha|Ha]; [exact Ha|].
  exfalso. symmetry in Ha. apply Qeq_bool_iff in Ha. congruence.
Qed.

Lemma plumber_pages_extracted pages : forall text bank acc,
  Forall extracted acc ->
  Forall extracted (snd (Advanced.plumber_pages pages text bank acc)).
Proof.
  induction pages as [|pg pages IH]; intros text bank acc Hacc; simpl;
    [exact Hacc|].
  destruct (Advanced.p_text pg) as [[|c s]|]; try (apply IH; exact Hacc).
  apply IH. apply Forall_app. split; [exact Hacc|].
  apply Forall_concat. apply Forall_forall. intros l Hl.
  apply list_elem_of_fmap in Hl as (t & -> & _).
  destruct (_ <? _)%nat; [apply table_extracted | constructor].
Qed.

Lemma camelot_tables_extracted tables : forall bank acc,
  Forall extracted acc ->
  Forall extracted (Advanced.camelot_tables tables bank acc).
Proof.
  induction tables as [|df tables IH]; intros bank acc Hacc; simpl;
    [exact Hacc|].
  destruct (_ && _); [|apply IH; exact Hacc].
  apply IH. apply Forall_app. split; [exact Hacc | apply dataframe_extracted].
Qed.

Lemma plumber_valid (f : Advanced.file) l log :
  Advanced._parse_pdf_with_pdfplumber f [] = (Ok l, log) -> Forall valid l.
Proof.
  unfold Advanced._parse_pdf_with_pdfplumber. run_unfold.
  destruct (Advanced.f_plumber f) as [pages|m]; simpl; [|discriminate].
  pose proof (plumber_pages_extracted pages [] None [] (Forall_nil_2 _)) as Hp.
  destruct (Advanced.plumber_pages pages [] None []) as [[full_text bank] found].
  simpl in *.
  destruct found as [|t found]; [destruct full_text|]; simpl;
    intros [= <- _]; apply clean_valid;
    first [exact Hp | apply text_extracted].
Qed.

Lemma camelot_clean_valid tables :
  Forall valid (Advanced._clean_and_categorize_transactions
                  (Advanced.camelot_tables tables None [])).
Proof. apply clean_valid, camelot_tables_extracted. constructor. Qed.

Lemma camelot_valid (f : Advanced.file) l :
  Advanced._parse_pdf_with_camelot f = Ok l -> Forall valid l.
Proof.
  unfold Advanced._parse_pdf_with_camelot.
  destruct (Advanced.f_camelot_lattice f) as [[|d l0]|m];
    [destruct (Advanced.f_camelot_stream f) as [tables|m]|..];
    intros H; injection H as <-; try constructor.
  - apply camelot_clean_valid.
  - apply (camelot_clean_valid (d :: l0)).
Qed.

Lemma ocr_valid (f : Advanced.file) l :
  Advanced._parse_pdf_with_ocr f = Ok l -> Forall valid l.
Proof.
  unfold Advanced._parse_pdf_with_ocr.
  destruct (Advanced.f_fitz_ocr f) as [texts|m]; intros [= <-];
    [|constructor].
  apply clean_valid, text_extracted.
Qed.

Lemma transactions_of_error msg :
  Advanced.transactions_of (Advanced.error_result msg) = [].
Proof. reflexivity. Qed.

Lemma transactions_of_method l m :
  Advanced.transactions_of (Advanced.method_result l m) = l.
Proof. reflexivity. Qed.

Lemma excel_sheets_valid sheets :
  match result (Advanced.excel_sheets sheets) with
  | Ok d => Forall valid (Advanced.transactions_of d)
  | Raise _ => True
  end.
Proof.
  induction sheets as [|[name [df|msg]] sheets IH]; simpl.
  - constructor.
  - unfold result, run, bind, lift in *. simpl.
    destruct (_ && _); [|exact IH].
    destruct (Advanced._process_dataframe _ _) eqn:E; [exact IH|].
    simpl.
    change (Forall valid (Advanced._clean_and_categorize_transactions (t :: l))).
    apply clean_valid. rewrite <- E. apply dataframe_extracted.
  - exact I.
Qed.

Lemma final_transactions_valid (f : Advanced.file) :
  Forall valid (final_transactions f).
Proof.
  unfold final_transactions.
  rewrite parse_statement_dispatch. simpl.
  destruct (Failure.is_pdf _).
  { unfold Advanced._parse_pdf_statement. run_unfold.
    destruct (plumber_cases f) as [(pages & l1 & log1 & Hp & E1)|(m & Hp & ->)];
      simpl; [|constructor].
    rewrite E1. simpl. apply plumber_valid in E1.
    destruct l1 as [|t1 l1]; simpl; [|exact E1].
    destruct (camelot_returns f) as [l2 E2]. rewrite E2. simpl.
    apply camelot_valid in E2.
    destruct l2 as [|t2 l2]; simpl; [|exact E2].
    destruct (ocr_returns f) as [l3 E3]. rewrite E3. simpl.
    apply ocr_valid in E3. exact E3. }
  destruct (Failure.is_csv _).
  { unfold Advanced._parse_csv_statement.
    unfold result, run, try_except, bind, lift, ret, raise.
    destruct (Advanced.read_csv_any f _) as [[df|]|m]; cbn [fst].
    - rewrite transactions_of_method. apply clean_valid, dataframe_extracted.
    - constructor.
    - constructor. }
  destruct (Failure.is_excel _).
  { unfold Advanced._parse_excel_statement. run_unfold.
    destruct (Advanced.f_excel f) as [sheets|m]; simpl; [|constructor].
    pose proof (excel_sheets_valid sheets) as Hs.
    unfold result, run in Hs.
    destruct (Advanced.excel_sheets sheets []) as [[d|m] log]; simpl in *.
    - exact Hs.
    - constructor. }
  destruct (Failure.is_image _).
  { unfold Advanced._parse_image_statement. run_unfold.
    destruct (Advanced.f_image_ocr f) as [text|m]; simpl; [|constructor].
    apply clean_valid, text_extracted. }
  constructor.
Qed.

(** ** The rendering of a date is parsed back *)

Lemma digit_chr_range z : (48 <= digit_chr z <= 57)%N.
Proof.
  unfold digit_chr.
  assert (0 <= z mod 10 < 10)%Z by (apply Z.mod_pos_bound; lia). lia.
Qed.

Lemma digit_chr_is_digit z : is_digit (digit_chr z) = true.
Proof.
  pose proof (digit_chr_range z) as [H1 H2].
  unfold is_digit, in_range. apply andb_true_intro.
  split; apply N.leb_le; assumption.
Qed.

Lemma digit_chr_val z : digit_val (digit_chr z) = (z mod 10)%Z.
Proof.
  unfold digit_val, digit_chr.
  assert (0 <= z mod 10 < 10)%Z by (apply Z.mod_pos_bound; lia). lia.
Qed.

Lemma int_of_pad4 y : (0 <= y <= 9999)%Z -> int_of_digits (pad4 y) = y.
Proof.
  intros Hy. unfold int_of_digits, pad4. simpl. rewrite !digit_chr_val.
  Z.div_mod_to_equations. lia.
Qed.

Lemma int_of_pad2 z : (0 <= z <= 99)%Z -> int_of_digits (pad2 z) = z.
Proof.
  intros Hz. unfold int_of_digits, pad2. simpl. rewrite !digit_chr_val.
  Z.div_mod_to_equations. lia.
Qed.

Lemma class_has_digit ci c : is_digit c = true -> class_has ci [CDigit] c = true.
Proof. intros H. unfold class_has. simpl. rewrite H. reflexivity. Qed.

(** The year group takes four digits. *)
Lemma mt_year {A} ci prev c1 c2 c3 c4 rest g (k : @kont A) :
  is_digit c1 = true -> is_digit c2 = true ->
  is_digit c3 = true -> is_digit c4 = true ->
  mt ci re_Y prev (c1 :: c2 :: c3 :: c4 :: rest) g k
  = k (Some c4) rest ((3%nat, [c1; c2; c3; c4]) :: g).
Proof.
  intros H1 H2 H3 H4. unfold re_Y, Times, digit. cbn [mt xorb].
  rewrite !class_has_digit by assumption. cbn [xorb].
  replace (length (c1 :: c2 :: c3 :: c4 :: rest) - length rest)%nat with 4%nat
    by (simpl; lia).
  reflexivity.
Qed.

Lemma month_day_match :
  Forall (fun md =>
            forall prev g,
              mt true (Seq [Chr 45; re_m; Chr 45; re_d]) prev
                 (45 :: pad2 (fst md) ++ 45 :: pad2 (snd md)) g
                 (fun _ s' g' => Some (s', g'))
              = Some ([], (1%nat, pad2 (snd md)) :: (2%nat, pad2 (fst md)) :: g))
         two_digit_fields.
Proof.
  cbv [two_digit_fields mbind list_bind fmap list_fmap seq Z.of_nat
       Pos.of_succ_nat Pos.succ mret list_ret app fst snd].
  repeat constructor; intros; vm_compute; reflexivity.
Qed.

Lemma two_digit_fields_elem m d :
  (1 <= m <= 12)%Z -> (1 <= d <= 31)%Z -> (m, d) ∈ two_digit_fields.
Proof.
  intros Hm Hd. unfold two_digit_fields.
  apply list_elem_of_bind. exists m. split.
  - apply list_elem_of_bind. exists d. split; [left|].
    apply list_elem_of_fmap. exists (Z.to_nat d). split; [lia|].
    apply elem_of_seq. lia.
  - apply list_elem_of_fmap. exists (Z.to_nat m). split; [lia|].
    apply elem_of_seq. lia.
Qed.

Lemma days_in_month_le y m : (days_in_month y m <= 31)%Z.
Proof. unfold days_in_month. repeat case_match; lia. Qed.

Lemma valid_date_bounds d :
  valid_date d = true ->
  (1 <= year d <= 9999)%Z /\ (1 <= month d <= 12)%Z /\ (1 <= day d <= 31)%Z.
Proof.
  unfold valid_date. intros H.
  repeat (apply andb_prop in H as [H ?]).
  pose proof (days_in_month_le (year d) (month d)).
  repeat match goal with
         | H : (_ <=? _)%Z = true |- _ => apply Z.leb_le in H
         end.
  lia.
Qed.

Lemma in_range_out lo hi c : (c < lo \/ hi < c)%N -> in_range lo hi c = false.
Proof.
  intros H. unfold in_range. apply andb_false_iff.
  destruct H; [left|right]; apply N.leb_gt; assumption.
Qed.

Lemma digit_chr_not_space z : is_space (digit_chr z) = false.
Proof.
  pose proof (digit_chr_range z) as [H1 H2].
  unfold is_space.
  rewrite !in_range_out by lia.
  rewrite !(proj2 (N.eqb_neq _ _)) by lia.
  reflexivity.
Qed.

(** [strptime(d.strftime('%Y-%m-%d'), '%Y-%m-%d')] is [d]. *)
Lemma iso_date_roundtrip d :
  valid_date d = true ->
  strptime (strftime (py "%Y-%m-%d") d) (py "%Y-%m-%d") = Some d.
Proof.
  intros Hv. destruct (valid_date_bounds d Hv) as (Hy & Hm & Hd).
  destruct d as [y m dd]. simpl in Hy, Hm, Hd.
  unfold strptime.
  change (format_re false (py "%Y-%m-%d"))
    with (Some [re_Y; Chr 45; re_m; Chr 45; re_d]).
  change (strftime (py "%Y-%m-%d") {| year := y; month := m; day := dd |})
    with (pad4 y ++ 45 :: pad2 m ++ 45 :: pad2 dd ++ [])%list.
  rewrite app_nil_r.
  unfold rmatch_at_start, match_here.
  change (Seq [re_Y; Chr 45; re_m; Chr 45; re_d])
    with (Cat re_Y (Seq [Chr 45; re_m; Chr 45; re_d])).
  cbn [mt]. unfold pad4 at 1. cbn [app].
  rewrite mt_year by apply digit_chr_is_digit.
  pose proof month_day_match as Hmd. rewrite Forall_forall in Hmd.
  specialize (Hmd (m, dd) (two_digit_fields_elem m dd Hm Hd)). cbn [fst snd] in Hmd.
  rewrite Hmd. clear Hmd.
  cbn [m_after]. rewrite bool_decide_eq_true_2 by reflexivity. cbn [negb].
  match goal with
  | |- context [has_group 3 ?r] => set (mm := r)
  end.
  change (has_group 3 mm) with true.
  change (has_group 2 mm) with true.
  change (has_group 1 mm) with true.
  change (group 3 mm) with (pad4 y).
  change (group 2 mm) with (pad2 m).
  change (group 1 mm) with (pad2 dd).
  cbv iota.
  rewrite int_of_pad4 by lia. rewrite int_of_pad2 by lia.
  replace (lstrip (pad2 dd)) with (pad2 dd)
    by (unfold pad2; simpl; now rewrite digit_chr_not_space).
  rewrite int_of_pad2 by lia. cbv zeta. rewrite Hv. reflexivity.
Qed.

(** A transaction whose ['date'] is the rendering of a calendar date is
    dated. *)
Lemma rendered_dated d (t : Statement.txn) :
  valid_date d = true -> Statement.date t = strftime (py "%Y-%m-%d") d -> dated t.
Proof.
  intros Hv Ht. exists d. split; [exact Hv|]. split; [exact Ht|].
  intros _. rewrite Ht. apply iso_date_roundtrip, Hv.
Qed.

Lemma valid_rendered_dated (t : Statement.txn) : valid_rendered t -> valid_dated t.
Proof.
  intros ((d & _ & Hv & Ht) & Ha & Hty).
  split; [eapply rendered_dated; eassumption | split; assumption].
Qed.

(** An entry that the validation loop keeps has the rendering of a
    calendar date and the type credit or debit. *)
Lemma gemini_validate_dated e t :
  Gemini.validate e = Some t -> dated_typed t.
Proof.
  unfold Gemini.validate. intros H.
  repeat case_match; simplify_eq.
  split.
  - eapply rendered_dated; [eapply strptime_valid; eassumption | reflexivity].
  - unfold credit_or_debit. cbn [Statement.type_].
    match goal with
    | H : negb (PyStr.eqb ?ty _ || PyStr.eqb ?ty _) = false |- _ =>
        apply negb_false_iff, orb_prop in H;
        destruct H as [H|H]; apply bool_decide_eq_true in H; auto
    end.
Qed.

Lemma gemini_extract_dated p text :
  Forall dated_typed (Gemini._extract_with_gemini p text).
Proof.
  unfold Gemini._extract_with_gemini.
  repeat case_match; try constructor.
  apply Forall_forall. intros t Ht.
  apply list_elem_of_omap in Ht as (e & _ & He).
  eapply gemini_validate_dated. exact He.
Qed.

Lemma gemini_parse_pdf_dated p (f : PdfText.pdf) :
  Forall dated_typed (Gemini.parse_pdf p f).
Proof.
  unfold Gemini.parse_pdf.
  repeat case_match; first [apply gemini_extract_dated | constructor].
Qed.

(** Whatever the records handed to the cleanup, a record without a date
    or with a zero amount is not in its result. *)
Lemma clean_keeps_dated_nonzero (l : list Advanced.txn) :
  Forall (fun t => is_Some (Advanced.date t) /\ ~ (Advanced.amount t == 0)%Q)
         (Advanced._clean_and_categorize_transactions l).
Proof.
  apply Forall_forall. intros t Ht.
  apply clean_elements in Ht as (t0 & _ & Hk & ->).
  unfold Advanced.keeps in Hk. apply andb_prop in Hk as [Hd Hz].
  apply bool_decide_eq_true in Hd. split; [exact Hd|].
  simpl. intros Heq. apply Qeq_bool_iff in Heq.
  apply negb_true_iff in Hz. unfold is_zero in Hz. congruence.
Qed.

(** X20.  Every transaction of the final result of [parse_statement] has
    a calendar date, an amount above zero and the type credit or debit:
    the extractors never hand over a record without a date or type or
    with a negative amount, and the cleanup drops every record that has
    no date or whose amount is zero.  Every transaction that
    [GeminiPDFParser] keeps from the response of the AI service has the
    rendering of a calendar date as its ['date'] and the type credit or
    debit. *)
Theorem final_transactions_invariant :
  (forall f : Advanced.file, Forall valid (final_transactions f))
  /\ (forall l : list Advanced.txn,
         Forall (fun t => is_Some (Advanced.date t)
                          /\ ~ (Advanced.amount t == 0)%Q)
                (Advanced._clean_and_categorize_transactions l))
  /\ (forall p text, Forall dated_typed (Gemini._extract_with_gemini p text))
  /\ (forall p (f : PdfText.pdf), Forall dated_typed (Gemini.parse_pdf p f)).
Proof.
  split; [exact final_transactions_valid|].
  split; [exact clean_keeps_dated_nonzero|].
  split; [exact gemini_extract_dated | exact gemini_parse_pdf_dated].
Qed.

(** * Further properties of the embedded code *)

(** ** Ordinals of dates *)

Section Ordinals.
Local Open Scope Z_scope.

Lemma days_in_month_dim y m : days_in_month y m = Calendar.dim (is_leap y) m.
Proof. reflexivity. Qed.

Lemma days_before_month_before y m :
  days_before_month y m = Calendar.before (is_leap y) m.
Proof.
  unfold days_before_month, Calendar.before.
  induction (Z.to_nat (m - 1)) as [|n IH]; [reflexivity|].
  cbn [days_before_month_aux Calendar.before_aux]. rewrite IH. reflexivity.
Qed.

Lemma month_day_ok_all leap n :
  0 <= n <= 364 -> Calendar.month_day_ok leap n = true.
Proof.
  intros Hn.
  assert (H : forallb (fun k => Calendar.month_day_ok leap (Z.of_nat k)) (seq 0 365) = true)
    by (destruct leap; vm_compute; reflexivity).
  rewrite forallb_forall in H.
  specialize (H (Z.to_nat n)). rewrite Z2Nat.id in H by lia.
  apply H. apply in_seq. lia.
Qed.

(** The year of an ordinal is a leap year exactly when [fromordinal]
    says so. *)
Lemma is_leap_cycles a b c d :
  0 <= a -> 0 <= b <= 3 -> 0 <= c <= 24 -> 0 <= d <= 3 ->
  is_leap (a * 400 + 1 + b * 100 + c * 4 + d)
  = (d =? 3) && (negb (c =? 24) || (b =? 3)).
Proof.
  intros Ha Hb Hc Hd. unfold is_leap.
  set (y := a * 400 + 1 + b * 100 + c * 4 + d).
  assert (H4 : y mod 4 = (d + 1) mod 4).
  { unfold y. replace (a * 400 + 1 + b * 100 + c * 4 + d)
      with (d + 1 + (a * 100 + b * 25 + c) * 4) by lia.
    apply Z.mod_add. lia. }
  assert (H100 : y mod 100 = (c * 4 + d + 1) mod 100).
  { unfold y. replace (a * 400 + 1 + b * 100 + c * 4 + d)
      with (c * 4 + d + 1 + (a * 4 + b) * 100) by lia.
    apply Z.mod_add. lia. }
  assert (H400 : y mod 400 = (b * 100 + c * 4 + d + 1) mod 400).
  { unfold y. replace (a * 400 + 1 + b * 100 + c * 4 + d)
      with (b * 100 + c * 4 + d + 1 + a * 400) by lia.
    apply Z.mod_add. lia. }
  rewrite H4, H100, H400.
  destruct (Z.eqb_spec d 3), (Z.eqb_spec c 24), (Z.eqb_spec b 3);
    repeat match goal with
           | |- context [?x mod ?k =? 0] =>
               destruct (Z.eqb_spec (x mod k) 0)
           end; simpl; try reflexivity; exfalso;
    Z.div_mod_to_equations; lia.
Qed.

Lemma days_before_year_cycles a b c d :
  0 <= a -> 0 <= b <= 3 -> 0 <= c <= 24 -> 0 <= d <= 3 ->
  days_before_year (a * 400 + 1 + b * 100 + c * 4 + d)
  = a * 146097 + b * 36524 + c * 1461 + d * 365.
Proof.
  intros Ha Hb Hc Hd. unfold days_before_year. cbv zeta.
  Z.div_mod_to_equations. lia.
Qed.

Lemma fromordinal_spec n0 :
  1 <= n0 <= Calendar.max_ordinal ->
  valid_date (fromordinal n0) = true /\ toordinal (fromordinal n0) = n0.
Proof.
  intros Hn. unfold Calendar.max_ordinal in Hn.
  unfold fromordinal. cbv zeta.
  set (n := n0 - 1).
  set (a := n / 146097). set (r1 := n mod 146097).
  set (b := r1 / 36524). set (r2 := r1 mod 36524).
  set (c := r2 / 1461). set (r3 := r2 mod 1461).
  set (d := r3 / 365). set (r := r3 mod 365).
  assert (Hfacts :
            n = a * 146097 + b * 36524 + c * 1461 + d * 365 + r
            /\ 0 <= a <= 24 /\ 0 <= b <= 4 /\ 0 <= c <= 24 /\ 0 <= d <= 4
            /\ 0 <= r <= 364
            /\ (b = 4 -> c = 0 /\ d = 0 /\ r = 0)
            /\ (d = 4 -> r = 0 /\ (b <= 3 -> c <= 23))
            /\ (a = 24 -> b <= 3 /\ (b = 3 -> c <= 24 /\ (c = 24 -> d <= 2)))).
  { subst a r1 b r2 c r3 d r. unfold n. Z.div_mod_to_equations. lia. }
  destruct Hfacts as (Hneq & Ha & Hb & Hc & Hd & Hr & Hb4 & Hd4 & Ha24).
  clearbody a b c d r. clear r1 r2 r3.
  destruct ((d =? 4) || (b =? 4)) eqn:Hsp.
  - (* the last day of a leap year *)
    assert (Hy : exists b' c',
               a * 400 + 1 + b * 100 + c * 4 + d - 1
               = a * 400 + 1 + b' * 100 + c' * 4 + 3
               /\ 0 <= b' <= 3 /\ 0 <= c' <= 24 /\ (c' = 24 -> b' = 3)
               /\ n = a * 146097 + b' * 36524 + c' * 1461 + 1460).
    { apply orb_prop in Hsp as [H|H]; apply Z.eqb_eq in H.
      - destruct (Z.eq_dec b 4) as [Hb'|Hb'].
        + destruct (Hb4 Hb') as (-> & ? & ?). lia.
        + exists b, c. destruct (Hd4 H). lia.
      - destruct (Hb4 H) as (-> & -> & ->). exists 3, 24. lia. }
    destruct Hy as (b' & c' & -> & Hb' & Hc' & Hcb & Hn').
    unfold valid_date, toordinal. cbn [year month day].
    rewrite days_in_month_dim, days_before_month_before.
    rewrite is_leap_cycles, days_before_year_cycles by lia.
    replace ((3 =? 3) && (negb (c' =? 24) || (b' =? 3))) with true.
    2:{ destruct (Z.eqb_spec c' 24), (Z.eqb_spec b' 3); simpl; try reflexivity. lia. }
    change (Calendar.dim true 12) with 31.
    change (Calendar.before true 12) with 335.
    split; [|lia].
    repeat (apply andb_true_intro; split); apply Z.leb_le; lia.
  - apply orb_false_elim in Hsp as [Hd' Hb'].
    apply Z.eqb_neq in Hd', Hb'.
    set (y := a * 400 + 1 + b * 100 + c * 4 + d).
    rewrite days_before_month_before, days_in_month_dim.
    pose proof (month_day_ok_all (is_leap y) r Hr) as Hok.
    unfold Calendar.month_day_ok, Calendar.month_day in Hok. cbv zeta in Hok.
    assert (Hdby : days_before_year y = a * 146097 + b * 36524 + c * 1461 + d * 365)
      by (apply days_before_year_cycles; lia).
    assert (Hyr : 1 <= y <= 9999) by (unfold y; lia).
    destruct (Calendar.before (is_leap y) (Z.shiftr (r + 50) 5) >? r);
      repeat (apply andb_prop in Hok as [Hok ?]);
      repeat match goal with
             | H : (_ <=? _) = true |- _ => apply Z.leb_le in H
             | H : (_ =? _) = true |- _ => apply Z.eqb_eq in H
             end;
      unfold valid_date, toordinal; cbn [year month day];
      rewrite days_in_month_dim, days_before_month_before, Hdby;
      (split; [repeat (apply andb_true_intro; split); apply Z.leb_le; lia | lia]).
Qed.

Lemma toordinal_bounds d :
  valid_date d = true -> 1 <= toordinal d <= Calendar.max_ordinal.
Proof.
  intros Hv. unfold valid_date in Hv.
  repeat (apply andb_prop in Hv as [Hv ?]).
  repeat match goal with
         | H : (_ <=? _) = true |- _ => apply Z.leb_le in H
         end.
  destruct d as [y m dd]. cbn [year month day] in *.
  unfold toordinal, Calendar.max_ordinal. cbn [year month day].
  rewrite days_before_month_before. rewrite days_in_month_dim in *.
  assert (Hm : m ∈ (Z.of_nat <$> seq 1 12)).
  { apply list_elem_of_fmap. exists (Z.to_nat m). split; [lia|].
    apply elem_of_seq. lia. }
  assert (Hb : 0 <= Calendar.before (is_leap y) m
               /\ Calendar.before (is_leap y) m + Calendar.dim (is_leap y) m <= 366
               /\ (y <> 9999 \/ is_leap y = false)
               /\ (is_leap y = false ->
                   Calendar.before (is_leap y) m + Calendar.dim (is_leap y) m <= 365)).
  { split; [|split; [|split]].
    - destruct (is_leap y); cbv in Hm; 
        repeat (apply elem_of_cons in Hm as [->|Hm]; [vm_compute; discriminate|]);
        inversion Hm.
    - destruct (is_leap y); cbv in Hm; 
        repeat (apply elem_of_cons in Hm as [->|Hm]; [vm_compute; discriminate|]);
        inversion Hm.
    - destruct (Z.eq_dec y 9999) as [->|]; [right; reflexivity | left; assumption].
    - intros ->. cbv in Hm; 
        repeat (apply elem_of_cons in Hm as [->|Hm]; [vm_compute; discriminate|]);
        inversion Hm. }
  destruct Hb as (Hb0 & Hb1 & Hb2 & Hb3).
  unfold days_before_year. cbv zeta.
  split.
  - Z.div_mod_to_equations. lia.
  - destruct Hb2 as [Hy|Hl].
    + Z.div_mod_to_equations. lia.
    + specialize (Hb3 Hl). Z.div_mod_to_equations. lia.
Qed.

Lemma add_days_spec d k :
  valid_date d = true ->
  1 <= toordinal d + k <= Calendar.max_ordinal ->
  valid_date (add_days d k) = true
  /\ toordinal (add_days d k) = toordinal d + k.
Proof. intros _ Hk. unfold add_days. apply fromordinal_spec, Hk. Qed.

(** A rendered calendar date satisfies the date part of the invariant. *)
Lemma rendered_date d :
  valid_date d = true ->
  exists d', strptime (strftime (py "%Y-%m-%d") d) (py "%Y-%m-%d") = Some d'
             /\ valid_date d' = true
             /\ strftime (py "%Y-%m-%d") d = strftime (py "%Y-%m-%d") d'.
Proof.
  intros Hv. exists d. split; [apply iso_date_roundtrip, Hv|]. auto.
Qed.

Lemma api_samples_are_the_pdf_samples now :
  Api.get_indian_sample_transactions now = Enhanced._get_sample_transactions now.
Proof. reflexivity. Qed.

(** The dates of the sample transactions. *)
Lemma sample_dates_spec now :
  valid_date now = true -> 30 < toordinal now ->
  exists ds,
    Forall (fun d => valid_date d = true) ds
    /\ map toordinal ds = map (fun k => toordinal now - k) [29; 28; 27; 25; 23]
    /\ map Statement.date (Enhanced._get_sample_transactions now)
       = map (strftime (py "%Y-%m-%d")) ds
    /\ map Statement.formatted_date (Enhanced._get_sample_transactions now)
       = map (strftime (py "%d %b %Y")) ds.
Proof.
  intros Hv Hlo.
  pose proof (toordinal_bounds now Hv) as Hb. unfold Calendar.max_ordinal in Hb.
  destruct (add_days_spec now (-30) Hv) as [Hvb Hob];
    [unfold Calendar.max_ordinal; lia|].
  set (base := add_days now (-30)) in *.
  assert (Hk : forall k, 0 <= k <= 30 ->
                 valid_date (add_days base k) = true
                 /\ toordinal (add_days base k) = toordinal now - (30 - k)).
  { intros k Hk. destruct (add_days_spec base k Hvb) as [? ?];
      [unfold Calendar.max_ordinal; lia|]. split; [assumption | lia]. }
  exists (map (add_days base) [1; 2; 3; 5; 7]).
  split; [|split; [|split; reflexivity]].
  - repeat constructor; apply Hk; lia.
  - cbn [map]. repeat f_equal;
      match goal with |- toordinal (add_days base ?k) = _ =>
        destruct (Hk k) as [_ ->]; lia end.
Qed.

Lemma samples_valid now :
  valid_date now = true -> 30 < toordinal now ->
  Forall valid_rendered (Enhanced._get_sample_transactions now).
Proof.
  intros Hv Hlo.
  pose proof (toordinal_bounds now Hv) as Hb. unfold Calendar.max_ordinal in Hb.
  destruct (add_days_spec now (-30) Hv) as [Hvb Hob];
    [unfold Calendar.max_ordinal; lia|].
  assert (Hk : forall k, 0 <= k <= 30 ->
                 valid_date (add_days (add_days now (-30)) k) = true).
  { intros k Hk. apply add_days_spec; [assumption|].
    unfold Calendar.max_ordinal. lia. }
  unfold Enhanced._get_sample_transactions, Enhanced.sample.
  repeat (apply Forall_cons_2;
          [unfold valid_rendered, credit_or_debit;
           cbn [Statement.date Statement.amount Statement.type_];
           split; [apply rendered_date, Hk; lia | split; [reflexivity | auto]]|]).
  apply Forall_nil_2.
Qed.
End Ordinals.

(** ** The invariant of the transactions of the PDF parsers *)

Lemma positive_amounts_pos ms :
  Forall (fun q => (0 < q)%Q) (Statement.positive_amounts ms).
Proof.
  unfold Statement.positive_amounts. apply Forall_forall. intros q Hq.
  apply list_elem_of_omap in Hq as (m & _ & Hm).
  repeat case_match; simplify_eq. apply is_pos_lt. assumption.
Qed.

Lemma type_and_amount_elem line amounts b a :
  IndianBank.type_and_amount line amounts = Some (b, a) -> a ∈ amounts.
Proof.
  unfold IndianBank.type_and_amount. intros H.
  repeat case_match; simplify_eq; first [left | right; left].
Qed.

Lemma indian_line_valid line t :
  IndianBank._parse_transaction_line line = Some t -> valid_dated t.
Proof.
  unfold IndianBank._parse_transaction_line. intros H.
  destruct (search false Statement.mon_pattern line) as [dm|]; [|discriminate].
  destruct (strptime _ _) as [date_obj|] eqn:Ed; [|discriminate].
  destruct (IndianBank.type_and_amount _ _) as [[b a]|] eqn:Ea; [|discriminate].
  injection H as <-.
  unfold valid_dated. cbn [Statement.amount Statement.type_].
  split; [eapply rendered_dated; [eapply strptime_valid; exact Ed | reflexivity]|].
  split.
  - apply type_and_amount_elem in Ea.
    pose proof (positive_amounts_pos (findall1 false Statement.inr_pattern line)) as Hp.
    rewrite Forall_forall in Hp. apply Hp, Ea.
  - unfold credit_or_debit. destruct b; auto.
Qed.

Lemma indian_lines_valid lines : forall b,
  Forall valid_dated (IndianBank.parse_lines b lines).
Proof.
  induction lines as [|raw lines IH]; intros b; simpl; [constructor|].
  repeat case_match; auto.
  constructor; [|apply IH]. eapply indian_line_valid. eassumption.
Qed.

Lemma indian_text_valid text : Forall valid_dated (IndianBank.parse_text text).
Proof. apply indian_lines_valid. Qed.

Lemma line_amounts_pos line :
  Forall (fun q => (0 < q)%Q) (Enhanced.line_amounts line).
Proof.
  unfold Enhanced.line_amounts.
  destruct (Statement.positive_amounts _) as [|a l] eqn:E.
  - apply Forall_concat, Forall_forall. intros l Hl.
    apply list_elem_of_fmap in Hl as (p & -> & _). apply positive_amounts_pos.
  - rewrite <- E. apply positive_amounts_pos.
Qed.

Lemma line_type_cases line : credit_or_debit (Enhanced.line_type line).
Proof.
  unfold Enhanced.line_type, credit_or_debit. cbv zeta.
  repeat match goal with
         | |- context [if ?b then _ else _] => destruct b
         end; auto.
Qed.

Lemma enhanced_line_valid line t :
  Enhanced._extract_transaction_from_line line = Ok (Some t) -> valid_dated t.
Proof.
  unfold Enhanced._extract_transaction_from_line. cbv zeta. intros H.
  destruct (match Enhanced.first_group _ _ with Some _ => _ | None => _ end)
    as [date_str|]; [|discriminate].
  destruct (Enhanced._parse_date date_str) as [date_obj|] eqn:Ed; [|discriminate].
  pose proof (line_amounts_pos line) as Hp.
  destruct (Enhanced.line_amounts line) as [|a amounts]; [discriminate|].
  destruct (Enhanced.first_group _ _); [discriminate|].
  injection H as <-.
  unfold valid_dated. cbn [Statement.amount Statement.type_].
  split; [eapply rendered_dated; [eapply first_format_valid; exact Ed | reflexivity]|].
  split; [inversion Hp; assumption | apply line_type_cases].
Qed.

Lemma enhanced_lines_valid lines l :
  Enhanced.parse_lines lines = Ok l -> Forall valid_dated l.
Proof.
  revert l. induction lines as [|raw lines IH]; intros l; simpl.
  - intros [= <-]. constructor.
  - destruct (_ <? _)%nat; [apply IH|].
    destruct (Enhanced._extract_transaction_from_line _) as [o|] eqn:E; [|discriminate].
    destruct (Enhanced.parse_lines lines) as [rest|]; [|discriminate].
    intros [= <-]. specialize (IH rest eq_refl).
    destruct o as [t|]; [|exact IH].
    constructor; [eapply enhanced_line_valid, E | exact IH].
Qed.

Lemma samples_nonempty now : Enhanced._get_sample_transactions now <> [].
Proof. discriminate. Qed.

(** The result of [parse_pdf], by cases on the strategies: the sample
    transactions, the list of the AI strategy, or a list of a strategy
    that reads the text itself. *)
Lemma enhanced_parse_pdf_result fl self now (f : PdfText.pdf) :
  exists l,
    result (Enhanced.parse_pdf fl self now f) = Ok l
    /\ l <> []
    /\ (l = Enhanced._get_sample_transactions now
        \/ (exists g, Enhanced.gemini_parser self = Some g
                      /\ l = Gemini.parse_pdf g f)
        \/ Forall valid_dated l).
Proof.
  unfold Enhanced.parse_pdf.
  destruct (negb _).
  { eexists. split; [reflexivity|]. split; [apply samples_nonempty | now left]. }
  unfold result, run, try_except, bind, invoke, ret.
  destruct (_ <? _)%nat; cbn [fst].
  { eexists. split; [reflexivity|]. split; [apply samples_nonempty | now left]. }
  set (text := PdfText._extract_text_from_pdf f).
  pose proof (indian_text_valid text) as Hi.
  pose proof (enhanced_lines_valid (split_on newline text)) as Hg.
  fold (Enhanced._parse_transactions_from_text text) in Hg.
  assert (Hai : forall g,
             Enhanced.gemini_parser self = Some g ->
             exists l,
               match Gemini.parse_pdf g f with
               | [] => Ok (Enhanced._get_sample_transactions now)
               | _ :: _ => Ok (Gemini.parse_pdf g f)
               end = Ok l
               /\ l <> []
               /\ (l = Enhanced._get_sample_transactions now
                   \/ (exists g, Enhanced.gemini_parser self = Some g
                                 /\ l = Gemini.parse_pdf g f)
                   \/ Forall valid_dated l)).
  { intros g Eg. destruct (Gemini.parse_pdf g f) as [|t l] eqn:El.
    - eexists. split; [reflexivity|]. split; [apply samples_nonempty | now left].
    - eexists. split; [reflexivity|]. split; [discriminate|].
      right. left. exists g. rewrite El. auto. }
  destruct (_ && _); cbn [fst].
  - destruct (IndianBank.parse_text text) as [|t l]; cbn [fst].
    2:{ eexists. split; [reflexivity|]. split; [discriminate | now right; right]. }
    destruct (Enhanced._parse_transactions_from_text text) as [[|t l]|msg]; cbn [fst].
    + destruct (Enhanced.gemini_parser self) as [g|] eqn:Eg; cbn [fst].
      * destruct (Hai g eq_refl) as (l & Hl & H). exists l. split; [|exact H].
        rewrite <- Hl. destruct (Gemini.parse_pdf g f); reflexivity.
      * eexists. split; [reflexivity|]. split; [apply samples_nonempty | now left].
    + eexists. split; [reflexivity|]. split; [discriminate|]. right. right. now apply Hg.
    + eexists. split; [reflexivity|]. split; [apply samples_nonempty | now left].
  - destruct (Enhanced._parse_transactions_from_text text) as [[|t l]|msg]; cbn [fst].
    + destruct (Enhanced.gemini_parser self) as [g|] eqn:Eg; cbn [fst].
      * destruct (Hai g eq_refl) as (l & Hl & H). exists l. split; [|exact H].
        rewrite <- Hl. destruct (Gemini.parse_pdf g f); reflexivity.
      * eexists. split; [reflexivity|]. split; [apply samples_nonempty | now left].
    + eexists. split; [reflexivity|]. split; [discriminate|]. right. right. now apply Hg.
    + eexists. split; [reflexivity|]. split; [apply samples_nonempty | now left].
Qed.

(** Every transaction of the result has the rendering of a calendar date
    and the type credit or debit; its amount is above zero unless the
    list is that of the AI strategy. *)
Lemma enhanced_parse_pdf_dated fl self now (f : PdfText.pdf) :
  valid_date now = true -> (30 < toordinal now)%Z ->
  exists l,
    result (Enhanced.parse_pdf fl self now f) = Ok l
    /\ l <> []
    /\ Forall dated_typed l
    /\ ((exists g, Enhanced.gemini_parser self = Some g /\ l = Gemini.parse_pdf g f)
        \/ Forall (fun t => (0 < Statement.amount t)%Q) l).
Proof.
  intros Hv Hlo.
  destruct (enhanced_parse_pdf_result fl self now f)
    as (l & Hr & Hne & [->|[(g & Eg & ->)|Hl]]);
    eexists; (split; [exact Hr|]); (split; [exact Hne|]).
  - pose proof (samples_valid now Hv Hlo) as Hs.
    split; [|right]; eapply Forall_impl; try exact Hs;
      intros t Ht; apply valid_rendered_dated in Ht as (Hd & Ha & Hty);
      [split|]; assumption.
  - split; [apply gemini_parse_pdf_dated | left; eauto].
  - split; [|right]; eapply Forall_impl; try exact Hl;
      intros t (Hd & Ha & Hty); [split|]; assumption.
Qed.

(** ** The characters of a match *)

Section Consumed.
Context {A : Type} (P : char -> bool).

Local Abbreviation holds := (Forall (fun c => P c = true)).

Lemma take_consumed (s1 s2 : pystr) :
  take (length (s1 ++ s2) - length s2) (s1 ++ s2) = s1.
Proof.
  rewrite length_app.
  replace (length s1 + length s2 - length s2)%nat with (length s1) by lia.
  apply take_app_length.
Qed.

Lemma mt_within r : forall inside prev s g (k : @kont A) a,
  Chars.within inside P r ->
  mt false r prev s g k = Some a ->
  exists s1 s2 p' g',
    s = (s1 ++ s2)%list
    /\ (inside = true -> holds s1)
    /\ (Chars.caps_within P g -> Chars.caps_within P g')
    /\ k p' s2 g' = Some a.
Proof.
  induction r as [|c| |neg items|r1 IH1 r2 IH2|r1 IH1 r2 IH2|r1 IH1|n r1 IH1| |];
    intros inside prev s g k a Hw Hm; cbn [mt] in Hm.
  - exists [], s, prev, g. repeat split; auto; constructor.
  - destruct s as [|d s']; [discriminate|].
    destruct (chr_eq false c d) eqn:E; [|discriminate].
    unfold chr_eq in E. rewrite andb_false_l, orb_false_r in E.
    apply N.eqb_eq in E as <-.
    exists [c], s', (Some c), g.
    split; [reflexivity|]. split; [|split; [auto | assumption]].
    intros Hi. constructor; [apply Hw, Hi | constructor].
  - destruct s as [|d s']; [discriminate|].
    destruct (d =? newline); [discriminate|].
    exists [d], s', (Some d), g.
    split; [reflexivity|]. split; [|split; [auto | assumption]].
    intros Hi. constructor; [apply Hw, Hi | constructor].
  - destruct s as [|d s']; [discriminate|].
    destruct (xorb neg (class_has false items d)) eqn:E; [|discriminate].
    exists [d], s', (Some d), g.
    split; [reflexivity|]. split; [|split; [auto | assumption]].
    intros Hi. constructor; [apply (Hw Hi), E | constructor].
  - destruct Hw as [Hw1 Hw2].
    apply (IH1 inside) in Hm as (s1 & s2 & p1 & g1 & -> & H1 & Hg1 & Hm); [|exact Hw1].
    apply (IH2 inside) in Hm as (s3 & s4 & p2 & g2 & -> & H2 & Hg2 & Hm); [|exact Hw2].
    exists (s1 ++ s3)%list, s4, p2, g2. rewrite app_assoc.
    split; [reflexivity|]. split; [|split; [auto | assumption]].
    intros Hi. apply Forall_app; auto.
  - destruct Hw as [Hw1 Hw2]. unfold orelse in Hm.
    destruct (mt false r1 prev s g k) eqn:E.
    + injection Hm as ->. eapply IH1; eauto.
    + eapply IH2; eauto.
  - cbn [Chars.within] in Hw.
    revert Hm. generalize (length s) at 1. intros fuel.
    revert prev s g. induction fuel as [|fuel IHf]; intros prev s g Hm.
    + exists [], s, prev, g. repeat split; auto; constructor.
    + unfold orelse in Hm.
      match type of Hm with
      | match ?x with _ => _ end = _ => destruct x eqn:E
      end.
      * injection Hm as ->.
        apply (IH1 inside) in E as (s1 & s2 & p1 & g1 & -> & H1 & Hg1 & E); [|exact Hw].
        destruct (_ <? _)%nat; [|discriminate].
        apply IHf in E as (s3 & s4 & p2 & g2 & -> & H2 & Hg2 & E).
        exists (s1 ++ s3)%list, s4, p2, g2. rewrite app_assoc.
        split; [reflexivity|]. split; [|split; [auto | assumption]].
        intros Hi. apply Forall_app; auto.
      * exists [], s, prev, g. repeat split; auto; constructor.
  - cbn [Chars.within] in Hw.
    apply (IH1 true) in Hm as (s1 & s2 & p1 & g1 & -> & H1 & Hg1 & Hm); [|exact Hw].
    rewrite take_consumed in Hm.
    exists s1, s2, p1, ((n, s1) :: g1).
    split; [reflexivity|]. split; [auto|]. split; [|assumption].
    intros Hg. constructor; [apply H1; reflexivity | apply Hg1, Hg].
  - destruct (at_boundary prev s); [|discriminate].
    exists [], s, prev, g. repeat split; auto; constructor.
  - exists [], s, prev, g.
    destruct s as [|c [|c' s']]; try discriminate;
      [|destruct (c =? newline); [|discriminate]];
      repeat split; auto; constructor.
Qed.
End Consumed.

Lemma match_here_caps P r prev s rest g :
  Chars.within false P r ->
  match_here false r prev s = Some (rest, g) -> Chars.caps_within P g.
Proof.
  unfold match_here. intros Hw Hm.
  apply (mt_within P r false) in Hm as (s1 & s2 & p' & g' & _ & _ & Hg & [= _ <-]);
    [|exact Hw].
  apply Hg. constructor.
Qed.

Lemma finditer_caps P r : forall fuel prev acc s,
  Chars.within false P r ->
  Forall (fun m => Chars.caps_within P (snd m))
         (fst (finditer_aux false r fuel prev acc s)).
Proof.
  induction fuel as [|fuel IH]; intros prev acc s Hw; cbn [finditer_aux].
  - constructor.
  - destruct (match_here false r prev s) as [[rest g]|] eqn:E.
    + apply (match_here_caps P) in E; [|exact Hw].
      cbv zeta.
      destruct (length s - length rest)%nat eqn:En.
      * destruct s as [|c s'].
        -- repeat constructor. exact E.
        -- specialize (IH (Some c) [c] s' Hw).
           destruct (finditer_aux false r fuel (Some c) [c] s') as [ms tl].
           constructor; [exact E | exact IH].
      * match goal with
        | |- context [finditer_aux false r fuel ?p ?a ?t] =>
            specialize (IH p a t Hw);
            destruct (finditer_aux false r fuel p a t) as [ms tl]
        end.
        destruct s; (constructor; [exact E | exact IH]).
    + destruct s as [|c s']; [constructor|]. apply IH, Hw.
Qed.

Lemma group_within P n m :
  Chars.caps_within P (m_groups m) ->
  (n <> 0)%nat -> Forall (fun c => P c = true) (group n m).
Proof.
  intros Hg Hn. unfold group. destruct n as [|n]; [contradiction|].
  destruct (list_find _ _) as [[i [k t]]|] eqn:E; [|constructor].
  apply list_find_Some in E as (Hi & _).
  unfold Chars.caps_within in Hg. rewrite Forall_forall in Hg.
  apply (Hg (k, t)). eapply list_elem_of_lookup_2, Hi.
Qed.

Lemma findall1_within P r s :
  Chars.within false P r ->
  Forall (Forall (fun c => P c = true)) (findall1 false r s).
Proof.
  intros Hw. unfold findall1, finditer.
  pose proof (finditer_caps P r (S (length s)) None [] s Hw) as H.
  apply Forall_fmap. eapply Forall_impl; [exact H|].
  intros m Hm. apply group_within; [exact Hm | discriminate].
Qed.

(** ** The transactions of [FreePDFParser] *)

Lemma py_float_unsigned s q :
  Forall (fun c => Chars.not_minus c = true) s ->
  py_float s = Some q -> (0 <= q)%Q.
Proof.
  intros Hs Hf.
  assert (Hneg : fst (split_sign (strip s)) = false).
  { destruct (strip s) as [|c r] eqn:Es; [reflexivity|]. simpl.
    destruct (N.eqb_spec c 45) as [->|Hne]; [|destruct (c =? 43); reflexivity].
    exfalso.
    assert (Hin : 45 ∈ s) by (apply strip_subset; rewrite Es; left).
    rewrite Forall_forall in Hs. specialize (Hs 45 Hin). discriminate. }
  unfold py_float in Hf.
  destruct (split_sign (strip s)) as [neg body]. simpl in Hneg. subst neg.
  repeat case_match; simplify_eq.
  all: apply scale10_nonneg, int_of_digits_nonneg.
Qed.

Lemma digit_not_minus d : is_digit d = true -> Chars.not_minus d = true.
Proof.
  unfold is_digit, in_range, Chars.not_minus. intros H.
  apply andb_prop in H as [H _]. apply N.leb_le in H.
  apply negb_true_iff, N.eqb_neq. lia.
Qed.

Lemma free_amount_pattern_within :
  Chars.within false Chars.not_minus Free.amount_pattern.
Proof.
  unfold Free.amount_pattern. cbn.
  repeat split; try reflexivity; intros Hi; try discriminate Hi;
    try reflexivity; intros d Hd;
    unfold class_has in Hd; cbn in Hd;
    rewrite ?orb_false_r in Hd; apply digit_not_minus, Hd.
Qed.

Lemma free_line_valid line t :
  Free._extract_transaction_line line = Some t ->
  exists d,
    Rendering.dated d t
    /\ (0 <= Statement.amount t)%Q
    /\ credit_or_debit (Statement.type_ t).
Proof.
  unfold Free._extract_transaction_line. intros H.
  destruct (_ <? _)%nat; [discriminate|].
  destruct (negb _); [discriminate|].
  destruct (Free.first_date _ _) as [date_match|]; [|discriminate].
  destruct (Free._parse_date date_match) as [date_str|] eqn:Ed; [|discriminate].
  set (line' := strip (replace date_match [] (Free._clean_text line))) in *.
  pose proof (findall1_within Chars.not_minus Free.amount_pattern line'
                free_amount_pattern_within) as Hall.
  destruct (last _) as [last_amount|] eqn:El; [|discriminate].
  destruct (py_float _) as [amount|] eqn:Ef; [|discriminate].
  unfold Free._parse_date in Ed.
  destruct (strip date_match); [discriminate|].
  destruct (Advanced.first_format _ _) as [d|] eqn:Efmt; [|discriminate].
  assert (Hds : date_str = strftime (py "%Y-%m-%d") d)
    by (injection Ed as Ed; symmetry; exact Ed).
  clear Ed. subst date_str.
  apply first_format_valid in Efmt.
  rewrite (iso_date_roundtrip d Efmt) in H.
  apply (inj Some) in H. subst t.
  cbn [Statement.date Statement.formatted_date Statement.amount Statement.type_].
  exists d.
  split; [split; [exact Efmt|]; split; [reflexivity|]; intros _;
          split; [apply iso_date_roundtrip, Efmt | reflexivity]|].
  split.
  - eapply py_float_unsigned; [|exact Ef].
    change (py ",") with [44]. rewrite replace_char.
    apply Forall_forall. intros c' Hc. apply list_elem_of_filter in Hc as [_ Hc].
    rewrite Forall_forall in Hall.
    specialize (Hall last_amount (last_Some_elem_of _ _ El)).
    rewrite Forall_forall in Hall. apply Hall, Hc.
  - unfold credit_or_debit. destruct (any_in _ _); auto.
Qed.

Lemma free_lines_valid o :
  Forall (fun t =>
            exists d,
              Rendering.dated d t
              /\ (0 <= Statement.amount t)%Q
              /\ credit_or_debit (Statement.type_ t))
         (Free.parse_pdf o).
Proof.
  unfold Free.parse_pdf.
  repeat case_match; try constructor.
  apply Forall_forall. intros t Ht.
  apply list_elem_of_omap in Ht as (line & _ & Hl).
  eapply free_line_valid, Hl.
Qed.

(** ** The vision path of [GeminiPDFParser] *)

Lemma validate_vision_validate e :
  Gemini.validate_vision e
  = Rendering.with_bank (py "Extracted by AI Vision") <$> Gemini.validate e.
Proof.
  destruct e as [items|]; [|reflexivity].
  unfold Gemini.validate_vision, Gemini.validate, Gemini.credit_or_debit_value.
  destruct (Gemini.lookup (py "date") items) as [[| | |d|]|];
    destruct (Gemini.lookup (py "description") items) as [desc|];
    destruct (Gemini.lookup (py "amount") items) as [a|];
    destruct (Gemini.lookup (py "type") items) as [[| | |ty|]|];
    try reflexivity;
    try (destruct (strptime d _); [|reflexivity]);
    try (destruct (Gemini.float_of a) as [amount|]; [|reflexivity]);
    try (destruct (Qle_bool amount 0); [reflexivity|]);
    try reflexivity.
  destruct (_ || _); reflexivity.
Qed.

Lemma omap_fmap_agree {A B} (f g : A -> option B) (h : B -> B) (l : list A) :
  (forall x, f x = h <$> g x) -> omap f l = h <$> omap g l.
Proof.
  intros H. induction l as [|x l IH]; [reflexivity|].
  cbn [omap list_omap]. rewrite H, IH. destruct (g x); reflexivity.
Qed.

(** ** The Markdown fence of a response *)

Lemma lstrip_app_space s c :
  is_space c = true -> lstrip (rev (s ++ [c])) = lstrip (rev s).
Proof. intros Hc. rewrite rev_app_distr. simpl. rewrite Hc. reflexivity. Qed.

Lemma strip_snoc_space s c : is_space c = true -> strip (s ++ [c]) = strip s.
Proof.
  intros Hc. unfold strip, rstrip.
  induction s as [|d s IH]; simpl.
  - rewrite Hc. reflexivity.
  - destruct (is_space d); [exact IH|].
    change (d :: s ++ [c])%list with ((d :: s) ++ [c])%list.
    rewrite lstrip_app_space by exact Hc. reflexivity.
Qed.

Lemma lstrip_nonspace c s : is_space c = false -> lstrip (c :: s) = c :: s.
Proof. intros H. simpl. rewrite H. reflexivity. Qed.

Lemma strip_fixed c s c' :
  is_space c = false -> is_space c' = false ->
  strip (c :: s ++ [c']) = (c :: s ++ [c'])%list.
Proof.
  intros Hc Hc'. unfold strip, rstrip.
  rewrite lstrip_nonspace by exact Hc.
  change (c :: s ++ [c'])%list with ((c :: s) ++ [c'])%list.
  rewrite rev_app_distr.
  change (rev [c'] ++ rev (c :: s))%list with (c' :: rev (c :: s)).
  rewrite lstrip_nonspace by exact Hc'.
  change (rev (c' :: rev (c :: s))) with (rev (rev (c :: s)) ++ [c'])%list.
  rewrite rev_involutive. reflexivity.
Qed.

Lemma break_at_newline tag rest :
  newline ∉ tag ->
  break_at (fun c => c =? newline) (tag ++ newline :: rest) = (tag, Some rest).
Proof.
  induction tag as [|c tag IH]; intros Hn; simpl.
  - reflexivity.
  - destruct (N.eqb_spec c newline) as [->|_].
    + exfalso. apply Hn. left.
    + rewrite IH; [reflexivity|]. intros H. apply Hn. now right.
Qed.

Lemma strip_fence_fenced tag body :
  newline ∉ tag ->
  Gemini.strip_fence (Rendering.fenced tag body) = strip body.
Proof.
  intros Hn. unfold Gemini.strip_fence, Rendering.fenced.
  set (inner := (tag ++ [newline] ++ body ++ [newline] ++ py "``")%list).
  assert (Hs : strip (py "```" ++ tag ++ [newline] ++ body ++ [newline] ++ py "```")
               = (py "```" ++ tag ++ [newline] ++ body ++ [newline] ++ py "```")%list).
  { change (py "```" ++ tag ++ [newline] ++ body ++ [newline] ++ py "```")%list
      with (96 :: (py "``" ++ tag ++ [newline] ++ body ++ [newline] ++ py "```"))%list.
    replace (py "``" ++ tag ++ [newline] ++ body ++ [newline] ++ py "```")%list
      with ((py "``" ++ tag ++ [newline] ++ body ++ [newline] ++ py "``") ++ [96])%list
      by (rewrite <- !app_assoc; reflexivity).
    apply strip_fixed; reflexivity. }
  rewrite Hs. clear Hs inner.
  change (startswith (py "```") (py "```" ++ tag ++ [newline] ++ body ++ [newline] ++ py "```"))
    with true.
  cbv iota.
  replace (py "```" ++ tag ++ [newline] ++ body ++ [newline] ++ py "```")%list
    with ((py "```" ++ tag) ++ newline :: (body ++ [newline] ++ py "```"))%list
    by (rewrite <- !app_assoc; reflexivity).
  rewrite break_at_newline.
  2:{ intros H. apply elem_of_app in H as [H|H]; [|contradiction].
      vm_compute in H.
      repeat (apply elem_of_cons in H as [H|H]; [discriminate H|]).
      inversion H. }
  assert (He : Gemini.endswith (py "```") (body ++ [newline] ++ py "```") = true).
  { unfold Gemini.endswith. rewrite !rev_app_distr. reflexivity. }
  rewrite He.
  replace (take (length (body ++ [newline] ++ py "```") - 3)
                (body ++ [newline] ++ py "```"))
    with (body ++ [newline])%list.
  2:{ rewrite app_assoc. rewrite length_app.
      replace (length (body ++ [newline]) + length (py "```") - 3)%nat
        with (length (body ++ [newline])) by (simpl; lia).
      rewrite take_app_length. reflexivity. }
  rewrite strip_snoc_space by reflexivity. reflexivity.
Qed.

(** ** The summary of a statement *)

Lemma date_ltb_irrefl_eq a b :
  date_ltb a b = false -> date_ltb b a = false -> a = b.
Proof.
  rewrite <- !not_true_iff_false, !date_ltb_lt.
  destruct a as [ya ma da], b as [yb mb db]. cbn [year month day].
  intros H1 H2. f_equal; lia.
Qed.

Lemma min_from_dated m ds :
  exists d, Advanced.min_from (Some m) (map Some ds) = Ok (Some d) /\ d ∈ m :: ds.
Proof.
  revert m. induction ds as [|x ds IH]; intros m; cbn [map Advanced.min_from].
  - exists m. split; [reflexivity | left].
  - destruct (date_ltb x m).
    + destruct (IH x) as (d & -> & Hd). exists d. split; [reflexivity|]. now right.
    + destruct (IH m) as (d & -> & Hd). exists d. split; [reflexivity|].
      apply elem_of_cons in Hd as [->|Hd]; [left | right; now right].
Qed.

Lemma max_from_dated m ds :
  exists d, Advanced.max_from (Some m) (map Some ds) = Ok (Some d) /\ d ∈ m :: ds.
Proof.
  revert m. induction ds as [|x ds IH]; intros m; cbn [map Advanced.max_from].
  - exists m. split; [reflexivity | left].
  - destruct (date_ltb m x).
    + destruct (IH x) as (d & -> & Hd). exists d. split; [reflexivity|]. now right.
    + destruct (IH m) as (d & -> & Hd). exists d. split; [reflexivity|].
      apply elem_of_cons in Hd as [->|Hd]; [left | right; now right].
Qed.

(** A comparison with a missing date raises. *)
Lemma min_from_missing least vs :
  ~ Forall is_Some (least :: vs) ->
  match Advanced.min_from least vs with
  | Ok (Some _) => False
  | _ => True
  end.
Proof.
  revert least. induction vs as [|v vs IH]; intros least Hn; cbn [Advanced.min_from].
  - destruct least; [|exact I]. apply Hn. repeat constructor. eauto.
  - destruct v as [d|]; [|exact I]. destruct least as [m|]; [|exact I].
    apply IH. intros H. apply Hn.
    inversion H as [|? ? H1 H2]; subst.
    constructor; [eauto|]. constructor; [eauto | exact H2].
Qed.

Lemma dates_all_some (l : list Advanced.txn) :
  Forall (fun t => is_Some (Advanced.date t)) l ->
  exists ds, map Advanced.date l = map Some ds.
Proof.
  induction 1 as [|t l [d Hd] _ (ds & IH)].
  - exists []. reflexivity.
  - exists (d :: ds). cbn [map]. rewrite Hd, IH. reflexivity.
Qed.

Lemma summary_ok_iff t ts :
  is_ok (Advanced.get_statement_summary (t :: ts)) = true
  <-> Forall (fun x => is_Some (Advanced.date x)) (t :: ts).
Proof.
  unfold Advanced.get_statement_summary. split.
  - intros H.
    destruct (decide (Forall is_Some (Advanced.date t :: map Advanced.date ts)))
      as [Hall|Hn].
    + change (Advanced.date t :: map Advanced.date ts)
        with (Advanced.date <$> (t :: ts)) in Hall.
      rewrite Forall_fmap in Hall. exact Hall.
    + exfalso. apply min_from_missing in Hn.
      destruct (Advanced.min_from _ _) as [[d|]|]; [contradiction| |];
        cbn in H; discriminate.
  - intros Hall.
    destruct (dates_all_some _ Hall) as ([|m ds] & Hds); [discriminate|].
    cbn [map] in Hds. injection Hds as Hm Hds. rewrite Hm, Hds.
    destruct (min_from_dated m ds) as (d1 & -> & _).
    destruct (max_from_dated m ds) as (d2 & -> & _).
    reflexivity.
Qed.

(** *** The count of each category *)

Lemma count_category_total b c :
  sum_list (map snd (Advanced.count_category b c)) = S (sum_list (map snd b)).
Proof.
  induction b as [|[k n] b IH]; cbn [Advanced.count_category]; [reflexivity|].
  destruct (PyStr.eqb k c); simpl; [lia|].
  simpl in IH. rewrite IH. lia.
Qed.

Lemma count_category_keys b c :
  map fst (Advanced.count_category b c)
  = if bool_decide (c ∈ map fst b) then map fst b else (map fst b ++ [c])%list.
Proof.
  induction b as [|[k n] b IH]; cbn [Advanced.count_category map fst].
  - rewrite bool_decide_eq_false_2 by (intros H; inversion H). reflexivity.
  - unfold PyStr.eqb. destruct (decide (k = c)) as [->|Hne].
    + rewrite bool_decide_eq_true_2 by reflexivity.
      rewrite bool_decide_eq_true_2 by left. reflexivity.
    + rewrite (bool_decide_eq_false_2 (k = c)) by exact Hne.
      cbn [map fst]. rewrite IH.
      destruct (decide (c ∈ map fst b)) as [Hin|Hnin].
      * rewrite !bool_decide_eq_true_2; [reflexivity | now right | exact Hin].
      * rewrite !bool_decide_eq_false_2; [reflexivity | | exact Hnin].
        intros H. apply elem_of_cons in H as [->|H]; contradiction.
Qed.

Lemma count_category_nodup b c :
  NoDup (map fst b) -> NoDup (map fst (Advanced.count_category b c)).
Proof.
  intros H. rewrite count_category_keys.
  destruct (decide (c ∈ map fst b)) as [Hin|Hnin].
  - rewrite bool_decide_eq_true_2 by exact Hin. exact H.
  - rewrite bool_decide_eq_false_2 by exact Hnin.
    apply NoDup_app. split; [exact H|]. split.
    + intros x Hx Hx'. apply list_elem_of_singleton in Hx' as ->. contradiction.
    + apply NoDup_singleton.
Qed.

Lemma count_category_count b c x :
  Breakdown.count_of x (Advanced.count_category b c)
  = (Breakdown.count_of x b + (if bool_decide (c = x) then 1 else 0))%nat.
Proof.
  induction b as [|[k n] b IH];
    cbn [Advanced.count_category Breakdown.count_of]; unfold PyStr.eqb.
  - destruct (bool_decide (c = x)); reflexivity.
  - destruct (decide (k = c)) as [->|Hne].
    + rewrite (bool_decide_eq_true_2 (c = c)) by reflexivity.
      cbn [Breakdown.count_of]. unfold PyStr.eqb.
      destruct (bool_decide (c = x)); lia.
    + rewrite (bool_decide_eq_false_2 (k = c)) by exact Hne.
      cbn [Breakdown.count_of]. unfold PyStr.eqb.
      destruct (decide (k = x)) as [->|Hkx].
      * rewrite (bool_decide_eq_true_2 (x = x)) by reflexivity.
        rewrite (bool_decide_eq_false_2 (c = x)) by congruence. lia.
      * rewrite (bool_decide_eq_false_2 (k = x)) by exact Hkx. exact IH.
Qed.

Lemma breakdown_fold (l : list Advanced.txn) : forall b,
  let b' := fold_left (fun b x => Advanced.count_category b (Breakdown.category_of x))
                      l b in
  sum_list (map snd b') = (sum_list (map snd b) + length l)%nat
  /\ (NoDup (map fst b) -> NoDup (map fst b'))
  /\ (forall c, Breakdown.count_of c b'
                = (Breakdown.count_of c b + Breakdown.occurrences c l)%nat)
  /\ (forall c, c ∈ map fst b' <->
                 c ∈ map fst b \/ c ∈ map Breakdown.category_of l).
Proof.
  induction l as [|t l IH]; intros b; cbn [fold_left].
  - cbn [length]. split; [lia|]. split; [auto|]. split.
    + intros c. unfold Breakdown.occurrences. cbn. lia.
    + intros c. cbn [map]. split; [auto|]. intros [H|H]; [exact H | inversion H].
  - destruct (IH (Advanced.count_category b (Breakdown.category_of t)))
      as (Hs & Hn & Hc & Hk).
    cbv zeta in *. split; [|split; [|split]].
    + rewrite Hs, count_category_total. cbn [length]. lia.
    + intros H. apply Hn, count_category_nodup, H.
    + intros c. rewrite Hc, count_category_count.
      unfold Breakdown.occurrences. rewrite filter_cons.
      destruct (decide (Breakdown.category_of t = c)) as [E|E].
      * rewrite bool_decide_eq_true_2 by exact E. cbn [length]. lia.
      * rewrite bool_decide_eq_false_2 by exact E. lia.
    + intros c. rewrite Hk, count_category_keys. cbn [map].
      destruct (decide (Breakdown.category_of t ∈ map fst b)) as [Hin|Hnin].
      * rewrite bool_decide_eq_true_2 by exact Hin.
        rewrite elem_of_cons. split; [tauto|].
        intros [H|[->|H]]; auto.
      * rewrite bool_decide_eq_false_2 by exact Hnin.
        rewrite elem_of_app, list_elem_of_singleton, elem_of_cons. tauto.
Qed.

(** The counts of an entry of a breakdown without duplicate keys. *)
Lemma count_of_entry b c n :
  NoDup (map fst b) -> (c, n) ∈ b -> Breakdown.count_of c b = n.
Proof.
  induction b as [|[k m] b IH]; intros Hnd Hin; [inversion Hin|].
  cbn [map fst] in Hnd. apply NoDup_cons in Hnd as [Hk Hnd].
  cbn [Breakdown.count_of]. unfold PyStr.eqb.
  apply elem_of_cons in Hin as [[= -> ->]|Hin].
  - rewrite bool_decide_eq_true_2 by reflexivity. reflexivity.
  - rewrite bool_decide_eq_false_2; [apply IH; assumption|].
    intros ->. apply Hk. apply list_elem_of_fmap. exists (c, n). auto.
Qed.

Lemma range_of_sorted t ts :
  Forall (fun x => Advanced.date x = Some (Advanced.sort_key x)) (t :: ts) ->
  StronglySorted newest_first (t :: ts) ->
  Advanced.min_from (Advanced.date t) (map Advanced.date ts)
  = Ok (Advanced.date (default t (last ts)))
  /\ Advanced.max_from (Advanced.date t) (map Advanced.date ts)
     = Ok (Advanced.date t).
Proof.
  revert t. induction ts as [|x ts IH]; intros t Hd Hs.
  - split; reflexivity.
  - apply Forall_cons in Hd as [Ht Hd].
    pose proof Hd as Hd'. apply Forall_cons in Hd' as [Hx Hts].
    apply StronglySorted_inv in Hs as [Hs Hall].
    pose proof Hall as Hall'. apply Forall_cons in Hall' as [Hxt Hrest].
    unfold newest_first in Hxt.
    cbn [map Advanced.min_from Advanced.max_from]. rewrite Ht, Hx.
    assert (Hgt : date_ltb (Advanced.sort_key t) (Advanced.sort_key x) = false).
    { unfold date_leb in Hxt. apply negb_true_iff in Hxt. exact Hxt. }
    rewrite Hgt. split.
    + destruct (IH x Hd Hs) as [Hmin _].
      assert (Hleast : (if date_ltb (Advanced.sort_key x) (Advanced.sort_key t)
                        then Some (Advanced.sort_key x)
                        else Some (Advanced.sort_key t))
                       = Advanced.date x).
      { rewrite Hx.
        destruct (date_ltb (Advanced.sort_key x) (Advanced.sort_key t)) eqn:E;
          [reflexivity|].
        f_equal. apply date_ltb_irrefl_eq; assumption. }
      rewrite Hleast, Hmin. f_equal. f_equal.
      rewrite last_cons. destruct (last ts); reflexivity.
    + rewrite <- Ht. apply (IH t).
      * constructor; assumption.
      * apply StronglySorted_inv in Hs as [Hs' _].
        constructor; assumption.
Qed.

Lemma cleaned_formatted_date l t :
  t ∈ Advanced._clean_and_categorize_transactions l ->
  Advanced.date t = Some (Advanced.sort_key t)
  /\ Advanced.formatted_date t
     = Some (strftime (py "%d/%m/%Y") (Advanced.sort_key t)).
Proof.
  intros Ht. apply clean_elements in Ht as (t0 & _ & Hk & ->).
  unfold Advanced.keeps in Hk. apply andb_prop in Hk as [Hd _].
  apply bool_decide_eq_true in Hd. destruct Hd as [d Hd].
  split; [|reflexivity].
  change (Advanced.date t0 = Some (Advanced.sort_key t0)).
  unfold Advanced.sort_key. rewrite Hd. reflexivity.
Qed.

Lemma cleaned_sorted l :
  StronglySorted newest_first (Advanced._clean_and_categorize_transactions l).
Proof.
  apply Sorted_StronglySorted; [exact newest_first_trans|].
  apply sort_desc_sorted.
Qed.

Lemma summary_of_cleaned l t ts :
  Advanced._clean_and_categorize_transactions l = t :: ts ->
  exists s,
    Advanced.get_statement_summary (t :: ts) = Ok (Advanced.Summary s)
    /\ Advanced.total_transactions s = length (t :: ts)
    /\ Some (fst (Advanced.date_range s))
       = Advanced.formatted_date (default t (last ts))
    /\ Some (snd (Advanced.date_range s)) = Advanced.formatted_date t.
Proof.
  intros Hl.
  assert (Hel : forall x, x ∈ t :: ts ->
                  Advanced.date x = Some (Advanced.sort_key x)
                  /\ Advanced.formatted_date x
                     = Some (strftime (py "%d/%m/%Y") (Advanced.sort_key x))).
  { intros x Hx. rewrite <- Hl in Hx. eapply cleaned_formatted_date, Hx. }
  assert (Hd : Forall (fun x => Advanced.date x = Some (Advanced.sort_key x)) (t :: ts)).
  { apply Forall_forall. intros x Hx. apply Hel, Hx. }
  pose proof (cleaned_sorted l) as Hs. rewrite Hl in Hs.
  destruct (range_of_sorted t ts Hd Hs) as [Hmin Hmax].
  assert (Hlast : default t (last ts) ∈ t :: ts).
  { destruct (last ts) as [x|] eqn:E; [|left].
    right. apply last_Some_elem_of, E. }
  unfold Advanced.get_statement_summary.
  rewrite Hmin, Hmax.
  destruct (Hel _ Hlast) as [-> ->].
  destruct (Hel t) as [-> ->]; [left|].
  cbn [Advanced.render]. eexists. split; [reflexivity|].
  cbn [Advanced.total_transactions Advanced.date_range fst snd]. auto.
Qed.

Lemma summary_counts l s :
  Advanced.get_statement_summary l = Ok (Advanced.Summary s) ->
  Advanced.total_transactions s = length l
  /\ sum_list (map snd (Advanced.category_breakdown s)) = length l
  /\ NoDup (map fst (Advanced.category_breakdown s))
  /\ (forall c n, (c, n) ∈ Advanced.category_breakdown s ->
                  n = Breakdown.occurrences c l /\ (0 < n)%nat)
  /\ (forall t, t ∈ l ->
                (Breakdown.category_of t,
                 Breakdown.occurrences (Breakdown.category_of t) l)
                ∈ Advanced.category_breakdown s).
Proof.
  intros H.
  assert (Hs : Advanced.total_transactions s = length l
               /\ Advanced.category_breakdown s
                  = fold_left (fun b x => Advanced.count_category
                                            b (Breakdown.category_of x)) l []).
  { unfold Advanced.get_statement_summary in H.
    destruct l as [|t ts]; [discriminate|].
    repeat case_match; try discriminate.
    injection H as <-. split; reflexivity. }
  destruct Hs as [Ht Hb].
  destruct (breakdown_fold l []) as (Hsum & Hnd & Hc & Hk).
  cbv zeta in *. rewrite <- Hb in *.
  assert (Hnd' : NoDup (map fst (Advanced.category_breakdown s)))
    by (apply Hnd; constructor).
  assert (Hocc : forall c n, (c, n) ∈ Advanced.category_breakdown s ->
                   n = Breakdown.occurrences c l).
  { intros c n Hin. rewrite <- (count_of_entry _ c n Hnd' Hin), Hc. reflexivity. }
  assert (Hpos : forall c, c ∈ map Breakdown.category_of l ->
                   (0 < Breakdown.occurrences c l)%nat).
  { intros c Hin. apply list_elem_of_fmap in Hin as (t & -> & Hin).
    unfold Breakdown.occurrences.
    assert (Hf : t ∈ filter (fun x => Breakdown.category_of x = Breakdown.category_of t) l)
      by (apply list_elem_of_filter; auto).
    destruct (filter _ l); [inversion Hf | simpl; lia]. }
  split; [exact Ht|]. split; [rewrite Hsum; reflexivity|]. split; [exact Hnd'|].
  split.
  - intros c n Hin. split; [apply Hocc, Hin|].
    rewrite (Hocc c n Hin). apply Hpos.
    assert (Hkey : c ∈ map fst (Advanced.category_breakdown s)).
    { apply list_elem_of_fmap. exists (c, n). auto. }
    apply Hk in Hkey as [Hkey|Hkey]; [inversion Hkey | exact Hkey].
  - intros t Hin.
    assert (Hkey : Breakdown.category_of t ∈ map fst (Advanced.category_breakdown s)).
    { apply Hk. right. apply list_elem_of_fmap. eauto. }
    apply list_elem_of_fmap in Hkey as ([c n] & Hc' & Hkey). cbn in Hc'. subst c.
    rewrite <- (Hocc _ _ Hkey). exact Hkey.
Qed.

(** ** The lines of [IndianBankParser] *)

Lemma indian_no_marker lines :
  Forall (fun raw => Lines.has_marker raw = false) lines ->
  IndianBank.parse_lines false lines = [].
Proof.
  induction 1 as [|raw lines Hm _ IH]; [reflexivity|].
  cbn [IndianBank.parse_lines]. unfold Lines.has_marker in Hm.
  cbv zeta. rewrite Hm. exact IH.
Qed.

Lemma indian_after_marker pre m post :
  Forall (fun raw => Lines.has_marker raw = false) pre ->
  Lines.has_marker m = true ->
  IndianBank.parse_lines false (pre ++ m :: post) = IndianBank.parse_lines true post.
Proof.
  intros Hpre Hm. induction Hpre as [|raw pre Hr _ IH].
  - cbn [app IndianBank.parse_lines]. unfold Lines.has_marker in Hm.
    cbv zeta. rewrite Hm. reflexivity.
  - cbn [app IndianBank.parse_lines]. unfold Lines.has_marker in Hr.
    cbv zeta. rewrite Hr. exact IH.
Qed.

Lemma lt_is_pos q : (0 < q)%Q -> is_pos q = true.
Proof.
  intros Hq. unfold is_pos, Qltb. apply negb_true_iff.
  destruct (Qle_bool q 0) eqn:E; [|reflexivity].
  apply Qle_bool_iff in E. exfalso. apply (Qlt_not_le _ _ Hq E).
Qed.

Lemma lt_not_zero q : (0 < q)%Q -> is_zero q = false.
Proof.
  intros Hq. unfold is_zero.
  destruct (Qeq_bool q 0) eqn:E; [|reflexivity].
  apply Qeq_bool_iff in E. rewrite E in Hq. exfalso. apply (Qlt_irrefl _ Hq).
Qed.

(** Of the three branches of the case of three amounts, the first two
    need an amount that is zero, and the amounts of the list are above
    zero. *)
Lemma indian_three_amounts line t a b c :
  Statement.positive_amounts (findall1 false Statement.inr_pattern line) = [a; b; c] ->
  IndianBank._parse_transaction_line line = Some t ->
  Statement.type_ t = py "credit" /\ Statement.amount t = a.
Proof.
  intros Ha H. unfold IndianBank._parse_transaction_line in H.
  destruct (search false Statement.mon_pattern line) as [dm|]; [|discriminate].
  destruct (strptime _ _) as [date_obj|]; [|discriminate].
  rewrite Ha in H. cbn [IndianBank.type_and_amount] in H.
  pose proof (positive_amounts_pos (findall1 false Statement.inr_pattern line)) as Hp.
  rewrite Ha in Hp.
  inversion Hp as [|? ? Hpa Hp']; subst. inversion Hp' as [|? ? Hpb _]; subst.
  rewrite (lt_is_pos a Hpa), (lt_is_pos b Hpb), (lt_not_zero a Hpa),
    (lt_not_zero b Hpb) in H.
  cbn [andb] in H. apply (inj Some) in H. subst t. split; reflexivity.
Qed.

(** ** A line with a numeric date in the generic pass *)

Lemma breaks_raises raw :
  Lines.breaks raw ->
  is_ok (Enhanced._extract_transaction_from_line (strip raw)) = false.
Proof.
  intros (_ & ds & d & Hg & Hd & Ha).
  unfold Enhanced._extract_transaction_from_line. cbv zeta.
  rewrite Hg, Hd. destruct (Enhanced.line_amounts _); [contradiction | reflexivity].
Qed.

Lemma parse_lines_breaks lines raw :
  raw ∈ lines -> Lines.breaks raw -> is_ok (Enhanced.parse_lines lines) = false.
Proof.
  intros Hin Hb. induction lines as [|x lines IH]; [inversion Hin|].
  cbn [Enhanced.parse_lines]. cbv zeta.
  apply elem_of_cons in Hin as [<-|Hin].
  - destruct Hb as [Hlen Hb'].
    assert (Hlt : (length (strip raw) <? 20)%nat = false) by (apply Nat.ltb_ge, Hlen).
    rewrite Hlt.
    pose proof (breaks_raises raw (conj Hlen Hb')) as Hr.
    destruct (Enhanced._extract_transaction_from_line _); [discriminate | reflexivity].
  - specialize (IH Hin).
    destruct (_ <? _)%nat; [exact IH|].
    destruct (Enhanced._extract_transaction_from_line _); [|reflexivity].
    destruct (Enhanced.parse_lines lines); [discriminate | reflexivity].
Qed.

Lemma parse_pdf_breaks fl self now (f : PdfText.pdf) raw :
  raw ∈ split_on newline (PdfText._extract_text_from_pdf f) ->
  Lines.breaks raw ->
  is_ok (Enhanced._parse_transactions_from_text (PdfText._extract_text_from_pdf f))
  = false
  /\ (result (Enhanced.parse_pdf fl self now f)
      = Ok (Enhanced._get_sample_transactions now)
      \/ (IndianBank.parse_text (PdfText._extract_text_from_pdf f) <> []
          /\ result (Enhanced.parse_pdf fl self now f)
             = Ok (IndianBank.parse_text (PdfText._extract_text_from_pdf f)))).
Proof.
  intros Hin Hb.
  pose proof (parse_lines_breaks _ raw Hin Hb) as Hr.
  fold (Enhanced._parse_transactions_from_text (PdfText._extract_text_from_pdf f)) in Hr.
  split; [exact Hr|].
  unfold Enhanced.parse_pdf.
  destruct (negb _); [left; reflexivity|].
  unfold result, run, try_except, bind, invoke, ret.
  destruct (_ <? _)%nat; cbn [fst]; [left; reflexivity|].
  set (text := PdfText._extract_text_from_pdf f) in *.
  destruct (Enhanced._parse_transactions_from_text text) as [l|msg]; [discriminate|].
  destruct (_ && _); cbn [fst]; [|left; reflexivity].
  destruct (IndianBank.parse_text text) as [|t l] eqn:E; cbn [fst].
  - left. reflexivity.
  - right. split; [discriminate | reflexivity].
Qed.

(** ** Patterns that cannot fail *)

Lemma mt_star_total {A} ci r prev s g (k : @kont A) :
  (forall p s' g', is_Some (k p s' g')) ->
  is_Some (mt ci (Star r) prev s g k).
Proof.
  intros Hk. cbn [mt]. destruct (length s); [apply Hk|].
  unfold orelse.
  match goal with |- is_Some (match ?x with _ => _ end) => destruct x end;
    [eauto | apply Hk].
Qed.

Lemma mt_opt_total {A} ci r prev s g (k : @kont A) :
  (forall p s' g', is_Some (k p s' g')) ->
  is_Some (mt ci (Opt r) prev s g k).
Proof.
  intros Hk. unfold Opt. cbn [mt]. unfold orelse.
  destruct (mt ci r prev s g k); [eauto | apply Hk].
Qed.

Lemma mt_cat {A} ci r1 r2 prev s g (k : @kont A) :
  mt ci (Cat r1 r2) prev s g k
  = mt ci r1 prev s g (fun p s' g' => mt ci r2 p s' g' k).
Proof. reflexivity. Qed.

Lemma mt_cls_cons {A} ci neg items prev d s g (k : @kont A) :
  mt ci (Cls neg items) prev (d :: s) g k
  = if xorb neg (class_has ci items d) then k (Some d) s g else None.
Proof. reflexivity. Qed.

(** The pattern of a number matches wherever a digit stands. *)
Lemma loose_number_at_digit prev c s :
  is_digit c = true ->
  is_Some (match_here false Statement.loose_number prev (c :: s)).
Proof.
  intros Hc. unfold match_here, Statement.loose_number.
  change (Seq [Plus (Cls false [CDigit; CChr 44]); Opt (Chr 46); Star digit])
    with (Cat (Cat (Cls false [CDigit; CChr 44]) (Star (Cls false [CDigit; CChr 44])))
              (Cat (Opt (Chr 46)) (Star digit))).
  rewrite !mt_cat, mt_cls_cons.
  replace (class_has false [CDigit; CChr 44] c) with true
    by (unfold class_has; cbn [existsb item_has]; rewrite Hc; reflexivity).
  cbn [xorb].
  apply mt_star_total. intros p s' g'. cbv beta. rewrite mt_cat.
  apply mt_opt_total. intros p' s'' g''. cbv beta.
  apply mt_star_total. intros; eauto.
Qed.

Lemma search_aux_loose_number_none s : forall prev acc,
  search_aux false Statement.loose_number prev acc s = None ->
  Forall (fun c => is_digit c = false) s.
Proof.
  induction s as [|c s IH]; intros prev acc H; [constructor|].
  cbn [search_aux] in H.
  destruct (is_digit c) eqn:Hc.
  - destruct (loose_number_at_digit prev c s Hc) as [[rest g] E].
    rewrite E in H. discriminate.
  - constructor; [exact Hc|].
    destruct (match_here _ _ _ _) as [[rest g]|]; [discriminate|].
    eapply IH, H.
Qed.

Lemma search_loose_number_none s :
  search false Statement.loose_number s = None ->
  Forall (fun c => is_digit c = false) s.
Proof. apply search_aux_loose_number_none. Qed.

(** ** The transactions of [BankStatementParser] *)

Lemma bank_date_valid s d : BankStatement._parse_date s = Some d -> valid_date d = true.
Proof.
  unfold BankStatement._parse_date. destruct (_ || _); [discriminate|].
  apply first_format_valid.
Qed.

Lemma Qabs_pos q : is_zero q = false -> (0 < Qabs q)%Q.
Proof.
  destruct q as [n d]. unfold is_zero, Qeq_bool, Qlt, Qabs. cbn [Qnum Qden].
  intros Hz. apply Z.eqb_neq in Hz. lia.
Qed.

Lemma transaction_stated date description amount txn_type bank :
  valid_date date = true -> credit_or_debit txn_type ->
  Statements.stated date bank
    (BankStatement.transaction date description amount txn_type bank).
Proof.
  intros Hv Hty. unfold Statements.stated, BankStatement.transaction.
  cbn [BankStatement.fields BankStatement.month_ Statement.date
       Statement.formatted_date Statement.amount Statement.type_ Statement.bank].
  split; [exact Hv|]. split; [reflexivity|].
  split; [intros _; apply iso_date_roundtrip, Hv|]. split; [reflexivity|].
  split; [reflexivity|]. split; [exact Hty | reflexivity].
Qed.

Lemma csv_row_stated columns bank date_col desc_col debit_col credit_col row t :
  BankStatement.csv_row columns bank date_col desc_col debit_col credit_col row
  = Some t ->
  exists d, Statements.stated d bank t.
Proof.
  unfold BankStatement.csv_row. intros H.
  destruct (forallb _ _); [discriminate|].
  destruct (BankStatement.row_get columns row date_col) as [dc|]; [|discriminate].
  destruct (BankStatement._parse_date _) as [d|] eqn:Ed; [|discriminate].
  apply bank_date_valid in Ed.
  destruct (BankStatement.filled columns row debit_col) as [s|].
  - destruct (py_float _) as [a|]; [|discriminate].
    apply (inj Some) in H. subst t. exists d.
    apply transaction_stated; [exact Ed | right; reflexivity].
  - destruct (BankStatement.filled columns row credit_col) as [s|]; [|discriminate].
    destruct (py_float _) as [a|]; [|discriminate].
    apply (inj Some) in H. subst t. exists d.
    apply transaction_stated; [exact Ed | left; reflexivity].
Qed.

(** The state of the loop over the cells of a row. *)
Lemma guess_cell_state st col value :
  Statements.guessed st -> Statements.guessed (BankStatement.guess_cell st col value).
Proof.
  intros (Hd & Hdesc & Hty).
  unfold BankStatement.guess_cell.
  destruct (Advanced.c_isna value); [repeat split; assumption|].
  cbv zeta.
  destruct (match BankStatement.g_date st with
            | Some _ => None
            | None => BankStatement._parse_date (strip (Advanced.c_str value))
            end) as [d|] eqn:Ed.
  { split; [|split; assumption].
    cbn [BankStatement.g_date]. intros d' [= <-].
    destruct (BankStatement.g_date st); [discriminate|].
    eapply bank_date_valid, Ed. }
  destruct (search false Statement.loose_number _) as [m|] eqn:Es.
  - destruct (BankStatement.g_description st) as [|c0 d0] eqn:Eg.
    + destruct (py_float _) as [a|]; [|repeat split; rewrite ?Eg; assumption].
      split; [exact Hd|]. split; [exact Hdesc|].
      cbn [BankStatement.g_type]. unfold credit_or_debit.
      repeat match goal with
             | |- context [if ?b then _ else _] => destruct b
             end; auto.
    + repeat split; rewrite ?Eg; assumption.
  - apply search_loose_number_none in Es.
    destruct (BankStatement.g_description st) as [|c0 d0] eqn:Eg;
      [|repeat split; rewrite ?Eg; assumption].
    destruct (strip (Advanced.c_str value)) as [|c v] eqn:Ev;
      [repeat split; rewrite ?Eg; assumption|].
    destruct (negb _); [|repeat split; rewrite ?Eg; assumption].
    split; [exact Hd|]. split; [|exact Hty].
    cbn [BankStatement.g_description].
    change (py ",") with [44] in Es. rewrite replace_char in Es.
    apply Forall_forall. intros x Hx.
    destruct (is_digit x) eqn:Edx; [|reflexivity].
    rewrite Forall_forall in Es. rewrite <- Edx. apply Es.
    apply list_elem_of_filter. split; [|exact Hx].
    intros ->. discriminate Edx.
Qed.

Lemma guess_fold_state (cells : list (pystr * Advanced.cell)) : forall st,
  Statements.guessed st ->
  Statements.guessed
    (fold_left (fun st kv => BankStatement.guess_cell st (fst kv) (snd kv)) cells st).
Proof.
  induction cells as [|kv cells IH]; intros st Hst; [exact Hst|].
  cbn [fold_left]. apply IH, guess_cell_state, Hst.
Qed.

Lemma guess_row_stated columns bank row t :
  BankStatement.guess_row columns bank row = Some t ->
  (exists d, Statements.stated d bank t)
  /\ (0 < Statement.amount (BankStatement.fields t))%Q
  /\ Forall (fun c => is_digit c = false)
            (Statement.description (BankStatement.fields t)).
Proof.
  unfold BankStatement.guess_row. intros H.
  destruct (forallb _ _); [discriminate|].
  cbv zeta in H.
  match type of H with
  | context [fold_left ?f ?l ?i] =>
      pose proof (guess_fold_state l i) as Hst;
      destruct (fold_left f l i) as [gd gdesc ga gty]
  end.
  destruct Hst as (Hd & Hdesc & Hty).
  { split; [discriminate|]. split; [constructor | right; reflexivity]. }
  cbn [BankStatement.g_date BankStatement.g_amount BankStatement.g_description
       BankStatement.g_type] in *.
  destruct gd as [d|]; [|discriminate].
  destruct (is_zero ga) eqn:Ez; [discriminate|].
  apply (inj Some) in H. subst t.
  split; [exists d; apply transaction_stated; auto|].
  split; [apply Qabs_pos, Ez | exact Hdesc].
Qed.

Lemma detect_bank_names text : BankStatement.detect_bank text ∈ Statements.bank_names.
Proof.
  unfold BankStatement.detect_bank, Statements.bank_names.
  destruct (Advanced.first_match _ _ _) as [b|] eqn:E; cbn [default].
  - apply first_match_In in E. unfold BankStatement.bank_patterns in E.
    cbn [map fst] in E.
    repeat (destruct E as [<-|E]; [set_solver|]). destruct E.
  - set_solver.
Qed.

Lemma parse_csv_stated read_csv :
  exists bank,
    bank ∈ Statements.bank_names
    /\ Forall (fun t => exists d, Statements.stated d bank t)
              (BankStatement.parse_csv read_csv).
Proof.
  unfold BankStatement.parse_csv.
  destruct (BankStatement.read_csv_any _ _) as [[df|]|msg].
  2,3: exists (py "UNKNOWN"); split; [set_solver | constructor].
  cbv zeta.
  match goal with
  | |- context [BankStatement.detect_bank ?x] =>
      exists (BankStatement.detect_bank x); split; [apply detect_bank_names|]
  end.
  assert (Hg : forall columns rows bank,
             Forall (fun t => exists d, Statements.stated d bank t)
                    (BankStatement._guess_and_parse columns rows bank)).
  { intros columns rows bank. apply Forall_forall. intros t Ht.
    apply list_elem_of_omap in Ht as (row & _ & Hr).
    apply guess_row_stated in Hr as [Hr _]. exact Hr. }
  assert (Hc : forall columns bank dc sc deb cred rows,
             Forall (fun t => exists d, Statements.stated d bank t)
                    (omap (BankStatement.csv_row columns bank dc sc deb cred) rows)).
  { intros. apply Forall_forall. intros t Ht.
    apply list_elem_of_omap in Ht as (row & _ & Hr).
    eapply csv_row_stated, Hr. }
  repeat case_match; first [apply Hc | apply Hg].
Qed.

Lemma guess_and_parse_stated columns rows bank :
  Forall (fun t =>
            (exists d, Statements.stated d bank t)
            /\ (0 < Statement.amount (BankStatement.fields t))%Q
            /\ Forall (fun c => is_digit c = false)
                      (Statement.description (BankStatement.fields t)))
         (BankStatement._guess_and_parse columns rows bank).
Proof.
  apply Forall_forall. intros t Ht.
  apply list_elem_of_omap in Ht as (row & _ & Hr).
  eapply guess_row_stated, Hr.
Qed.

(** ** The upload route *)

Lemma rfind_aux_absent c s : forall i found,
  c ∉ s -> Advanced.rfind_aux c s i found = found.
Proof.
  induction s as [|d s IH]; intros i found Hc; [reflexivity|].
  cbn [Advanced.rfind_aux].
  destruct (N.eqb_spec d c) as [->|_]; [exfalso; apply Hc; left|].
  apply IH. intros H. apply Hc. now right.
Qed.

Lemma rfind_aux_last c pre post : forall i found,
  c ∉ post ->
  Advanced.rfind_aux c (pre ++ c :: post) i found = Some ((i + length pre)%nat).
Proof.
  induction pre as [|d pre IH]; intros i found Hc; cbn [app Advanced.rfind_aux].
  - rewrite N.eqb_refl, rfind_aux_absent by exact Hc.
    cbn [length]. f_equal. lia.
  - rewrite IH by exact Hc. cbn [length]. f_equal. lia.
Qed.

Lemma rfind_aux_found c s i k :
  Advanced.rfind_aux c s i None = Some k ->
  exists pre post, s = (pre ++ c :: post)%list /\ (c ∉ post) /\ k = ((i + length pre)%nat).
Proof.
  intros H. destruct (decide (c ∈ s)) as [Hin|Hnin].
  - apply list_elem_of_split_r in Hin as (pre & post & -> & Hpost).
    rewrite rfind_aux_last in H by exact Hpost. injection H as <-. eauto.
  - rewrite rfind_aux_absent in H by exact Hnin. discriminate.
Qed.

Lemma drop_after c (pre post : list char) :
  drop (S (0 + length pre)) (pre ++ c :: post) = post.
Proof.
  replace (pre ++ c :: post)%list with ((pre ++ [c]) ++ post)%list
    by (rewrite <- app_assoc; reflexivity).
  apply drop_app_length'. rewrite length_app. simpl. lia.
Qed.

Lemma after_last_dot_spec s e :
  Api.after_last_dot s = Some e
  <-> exists stem, s = (stem ++ py "." ++ e)%list /\ 46 ∉ e.
Proof.
  unfold Api.after_last_dot. split.
  - destruct (Advanced.rfind_aux 46 s 0 None) as [k|] eqn:E; [|discriminate].
    cbn [fmap option_fmap option_map]. intros [= <-].
    apply rfind_aux_found in E as (pre & post & -> & Hpost & ->).
    exists pre. rewrite drop_after. split; [reflexivity | exact Hpost].
  - intros (stem & -> & He).
    change (py "." ++ e)%list with (46 :: e).
    rewrite rfind_aux_last by exact He.
    cbn [fmap option_fmap option_map]. f_equal. apply drop_after.
Qed.

Lemma startswith_singleton c s : startswith [c] s = true <-> head s = Some c.
Proof.
  destruct s as [|d s]; cbn [startswith head].
  - split; discriminate.
  - rewrite andb_true_r, N.eqb_eq.
    split; [intros ->; reflexivity | intros [= ->]; reflexivity].
Qed.

Lemma contains_singleton c s : contains [c] s = true <-> c ∈ s.
Proof.
  induction s as [|d s IH].
  - cbn. split; [discriminate | intros H; inversion H].
  - cbn [contains]. rewrite orb_true_iff, IH, startswith_singleton. cbn [head].
    rewrite elem_of_cons. split; intros [H|H]; auto.
    + left. now injection H.
    + left. now subst.
Qed.

Lemma allowed_file_spec filename :
  Api.allowed_file filename = true
  <-> exists stem ext,
        filename = (stem ++ py "." ++ ext)%list
        /\ (46 ∉ ext) /\ lower ext ∈ Api.ALLOWED_EXTENSIONS.
Proof.
  unfold Api.allowed_file. split.
  - intros H. apply andb_prop in H as [_ H].
    destruct (Api.after_last_dot filename) as [e|] eqn:E; [|discriminate].
    apply bool_decide_eq_true in H.
    apply after_last_dot_spec in E as (stem & -> & He). eauto.
  - intros (stem & ext & -> & He & Hin).
    apply andb_true_intro. split.
    + change (py ".") with [46]. apply contains_singleton.
      apply elem_of_app. right. left.
    + rewrite (proj2 (after_last_dot_spec _ ext)) by eauto.
      apply bool_decide_eq_true. exact Hin.
Qed.

Lemma allowed_file_nonempty filename :
  Api.allowed_file filename = true -> filename <> [].
Proof. intros H ->. discriminate H. Qed.

Lemma parse_dates_valid (l : list Statement.txn) :
  Forall valid_rendered l ->
  exists dates,
    Api.parse_dates (map Api.of_pdf l) = Some dates /\ length dates = length l.
Proof.
  induction 1 as [|t l ((d & Hd & _) & _) _ (dates & IH & Hlen)].
  - exists []. split; reflexivity.
  - exists (d :: dates). cbn [map Api.parse_dates Api.of_pdf Api.fields].
    rewrite Hd, IH. split; [reflexivity|]. cbn [length]. now rewrite Hlen.
Qed.

Lemma upload_of_pdf_list sv now rq name (l : list Statement.txn) :
  Api.filename rq = Some name -> Api.allowed_file name = true ->
  Api.parse_upload sv now rq = Ok (map Api.of_pdf l) ->
  l <> [] -> Forall valid_rendered l ->
  exists range,
    Api.upload_statement sv now rq
    = Api.Extracted (map Api.of_pdf l) (length l) (Some range).
Proof.
  intros Hn Ha Hp Hne Hv. unfold Api.upload_statement.
  rewrite Hn. rewrite bool_decide_eq_false_2 by (apply allowed_file_nonempty, Ha).
  rewrite Ha. cbn [negb]. rewrite Hp.
  destruct (parse_dates_valid l Hv) as (dates & Hd & Hlen).
  destruct l as [|t l]; [contradiction|].
  cbn [map] in *. rewrite Hd.
  destruct dates as [|d ds]; [discriminate|].
  cbn [Api.range length map]. rewrite length_map. eauto.
Qed.

(** ** The parsers read their own dates *)

Section DayFirst.
Context {A : Type}.

(** The day, the month and the separators of [%d/%m/%Y], before the
    year. *)
Lemma day_first_prefix :
  Forall (fun md =>
            forall prev g c1 c2 c3 c4 (k : @kont A),
              mt true (Seq [re_d; Chr 47; re_m; Chr 47]) prev
                 (pad2 (snd md) ++ 47 :: pad2 (fst md) ++ 47 :: [c1; c2; c3; c4]) g k
              = k (Some 47) [c1; c2; c3; c4]
                  ((2%nat, pad2 (fst md)) :: (1%nat, pad2 (snd md)) :: g))
         two_digit_fields.
Proof.
  cbv [two_digit_fields mbind list_bind fmap list_fmap seq Z.of_nat
       Pos.of_succ_nat Pos.succ mret list_ret app fst snd].
  repeat constructor; intros; vm_compute;
    match goal with |- _ = ?r => destruct r end; reflexivity.
Qed.

End DayFirst.

Section NotADate.
Context {A : Type}.

(** A text whose third character is a slash is no date of a format that
    starts with [%d-]. *)
Lemma day_slash_not_dash :
  Forall (fun d =>
            forall prev g rest (k : @kont A),
              mt true (Cat re_d (Chr 45)) prev (pad2 d ++ 47 :: rest) g k = None)
         (Z.of_nat <$> seq 1 31).
Proof.
  cbv [fmap list_fmap seq Z.of_nat Pos.of_succ_nat Pos.succ].
  repeat constructor; intros; vm_compute; reflexivity.
Qed.

(** A text that starts with three digits is no date of a format that
    starts with [%d] and a separator. *)
Lemma three_digits_not_day sep a b c prev g rest (k : @kont A) :
  is_digit sep = false -> is_alpha sep = false ->
  is_digit a = true -> is_digit b = true -> is_digit c = true ->
  mt true (Cat re_d (Chr sep)) prev (a :: b :: c :: rest) g k = None.
Proof.
  intros Hsep Hal Ha Hb Hc.
  assert (Hne : forall x, is_digit x = true -> chr_eq true sep x = false).
  { intros x Hx. unfold chr_eq. cbn [andb].
    assert (is_upper x = false /\ is_upper sep = false) as [Hux Hus].
    { unfold is_alpha in Hal. apply orb_false_elim in Hal as [Hu _].
      split; [|exact Hu].
      unfold is_digit, is_upper, in_range in *.
      apply andb_prop in Hx as [H1 H2]. apply N.leb_le in H1, H2.
      apply andb_false_iff. left. apply N.leb_gt. lia. }
    unfold lower_c. rewrite Hux, Hus.
    assert (sep <> x) by (intros ->; congruence).
    rewrite (proj2 (N.eqb_neq _ _)) by assumption. reflexivity. }
  unfold re_d, digit, d19. cbn [Alts mt orelse].
  rewrite ?(Hne _ Hb), ?(Hne _ Hc).
  repeat match goal with
         | |- context [if ?x then _ else _] => destruct x
         end; reflexivity.
Qed.

End NotADate.

Lemma digit_chr_not_alpha z : is_alpha (digit_chr z) = false.
Proof.
  pose proof (digit_chr_range z) as [H1 H2].
  unfold is_alpha, is_upper, is_lower. rewrite !in_range_out by lia. reflexivity.
Qed.

Lemma digit_chr_lower z : lower_c (digit_chr z) = digit_chr z.
Proof.
  pose proof (digit_chr_not_alpha z) as H. unfold is_alpha in H.
  apply orb_false_elim in H as [H _]. unfold lower_c. rewrite H. reflexivity.
Qed.

(** [strptime(d.strftime('%d/%m/%Y'), '%d/%m/%Y')] is [d]. *)
Lemma day_first_roundtrip d :
  valid_date d = true ->
  strptime (strftime (py "%d/%m/%Y") d) (py "%d/%m/%Y") = Some d.
Proof.
  intros Hv. destruct (valid_date_bounds d Hv) as (Hy & Hm & Hd).
  destruct d as [y m dd]. simpl in Hy, Hm, Hd.
  unfold strptime.
  change (format_re false (py "%d/%m/%Y"))
    with (Some [re_d; Chr 47; re_m; Chr 47; re_Y]).
  change (strftime (py "%d/%m/%Y") {| year := y; month := m; day := dd |})
    with (pad2 dd ++ 47 :: pad2 m ++ 47 :: pad4 y ++ [])%list.
  rewrite app_nil_r.
  unfold rmatch_at_start, match_here.
  change (mt true (Seq [re_d; Chr 47; re_m; Chr 47; re_Y]) None
             (pad2 dd ++ 47 :: pad2 m ++ 47 :: pad4 y) []
             (fun _ s' g => Some (s', g)))
    with (mt true (Seq [re_d; Chr 47; re_m; Chr 47]) None
             (pad2 dd ++ 47 :: pad2 m ++ 47 :: pad4 y) []
             (fun p s' g' => mt true re_Y p s' g' (fun _ s' g => Some (s', g)))).
  pose proof (@day_first_prefix (pystr * caps)) as Hmd. rewrite Forall_forall in Hmd.
  specialize (Hmd (m, dd) (two_digit_fields_elem m dd Hm Hd)). cbn [fst snd] in Hmd.
  unfold pad4 at 1. rewrite Hmd. clear Hmd.
  rewrite mt_year by apply digit_chr_is_digit.
  cbn [m_after]. rewrite bool_decide_eq_true_2 by reflexivity. cbn [negb].
  match goal with
  | |- context [has_group 3 ?r] => set (mm := r)
  end.
  change (has_group 3 mm) with true.
  change (has_group 2 mm) with true.
  change (has_group 1 mm) with true.
  change (group 3 mm) with (pad4 y).
  change (group 2 mm) with (pad2 m).
  change (group 1 mm) with (pad2 dd).
  cbv iota.
  rewrite int_of_pad4 by lia. rewrite int_of_pad2 by lia.
  replace (lstrip (pad2 dd)) with (pad2 dd)
    by (unfold pad2; simpl; now rewrite digit_chr_not_space).
  rewrite int_of_pad2 by lia. cbv zeta. rewrite Hv. reflexivity.
Qed.

(** The day-first rendering is no date of the format with dashes. *)
Lemma day_first_not_dashed d :
  valid_date d = true ->
  strptime (strftime (py "%d/%m/%Y") d) (py "%d-%m-%Y") = None.
Proof.
  intros Hv. destruct (valid_date_bounds d Hv) as (Hy & Hm & Hd).
  destruct d as [y m dd]. simpl in Hy, Hm, Hd.
  unfold strptime.
  change (format_re false (py "%d-%m-%Y"))
    with (Some [re_d; Chr 45; re_m; Chr 45; re_Y]).
  change (strftime (py "%d/%m/%Y") {| year := y; month := m; day := dd |})
    with (pad2 dd ++ 47 :: pad2 m ++ 47 :: pad4 y ++ [])%list.
  unfold rmatch_at_start, match_here.
  change (mt true (Seq [re_d; Chr 45; re_m; Chr 45; re_Y]) None
             (pad2 dd ++ 47 :: pad2 m ++ 47 :: pad4 y ++ []) []
             (fun _ s' g => Some (s', g)))
    with (mt true (Cat re_d (Chr 45)) None
             (pad2 dd ++ 47 :: pad2 m ++ 47 :: pad4 y ++ []) []
             (fun p s' g' => mt true (Seq [re_m; Chr 45; re_Y]) p s' g'
                                (fun _ s' g => Some (s', g)))).
  pose proof (@day_slash_not_dash (pystr * caps)) as Hn. rewrite Forall_forall in Hn.
  rewrite Hn; [reflexivity|].
  apply list_elem_of_fmap. exists (Z.to_nat dd). split; [lia|].
  apply elem_of_seq. lia.
Qed.

(** The ISO rendering is no date of a format that starts with the
    day. *)
Lemma iso_not_day_first d sep rs :
  is_digit sep = false -> is_alpha sep = false ->
  rmatch_at_start true (Seq (re_d :: Chr sep :: re_m :: rs))
                  (strftime (py "%Y-%m-%d") d) = None.
Proof.
  intros Hsep Hal. destruct d as [y m dd].
  change (strftime (py "%Y-%m-%d") {| year := y; month := m; day := dd |})
    with (pad4 y ++ 45 :: pad2 m ++ 45 :: pad2 dd ++ [])%list.
  unfold rmatch_at_start, match_here, pad4. cbn [app].
  change (Seq (re_d :: Chr sep :: re_m :: rs))
    with (Cat re_d (Cat (Chr sep) (Seq (re_m :: rs)))).
  match goal with
  | |- context [mt true (Cat re_d (Cat (Chr sep) ?R)) ?p ?s ?g ?k] =>
      change (mt true (Cat re_d (Cat (Chr sep) R)) p s g k)
        with (mt true (Cat re_d (Chr sep)) p s g
                 (fun p' s' g' => mt true R p' s' g' k))
  end.
  rewrite three_digits_not_day by (first [assumption | apply digit_chr_is_digit]).
  reflexivity.
Qed.

(** Both parsers of spreadsheets read back the two renderings that they
    write. *)
Lemma advanced_parse_date_reads d :
  valid_date d = true ->
  Advanced._parse_date (strftime (py "%d/%m/%Y") d) = Some d
  /\ Advanced._parse_date (strftime (py "%Y-%m-%d") d) = Some d.
Proof.
  intros Hv. unfold Advanced._parse_date. split.
  - replace (strip (strftime (py "%d/%m/%Y") d)) with (strftime (py "%d/%m/%Y") d).
    + unfold Advanced.date_formats. cbn [Advanced.first_format].
      rewrite day_first_roundtrip by exact Hv. reflexivity.
    + destruct d as [y m dd]. symmetry.
      apply (strip_fixed _ [_; _; _; _; _; _; _; _] _); apply digit_chr_not_space.
  - replace (strip (strftime (py "%Y-%m-%d") d)) with (strftime (py "%Y-%m-%d") d).
    + unfold Advanced.date_formats. cbn [Advanced.first_format].
      unfold strptime at 1.
      change (format_re false (py "%d/%m/%Y"))
        with (Some [re_d; Chr 47; re_m; Chr 47; re_Y]).
      cbv beta iota. rewrite iso_not_day_first by reflexivity.
      unfold strptime at 1.
      change (format_re false (py "%d-%m-%Y"))
        with (Some [re_d; Chr 45; re_m; Chr 45; re_Y]).
      cbv beta iota. rewrite iso_not_day_first by reflexivity.
      rewrite iso_date_roundtrip by exact Hv. reflexivity.
    + destruct d as [y m dd]. symmetry.
      apply (strip_fixed _ [_; _; _; _; _; _; _; _] _); apply digit_chr_not_space.
Qed.

Lemma bank_parse_date_guard z (s : pystr) :
  bool_decide (digit_chr z :: s = [])
  || bool_decide (lower (digit_chr z :: s) ∈ [py "nan"; py "nat"; py "none"])
  = false.
Proof.
  rewrite bool_decide_eq_false_2 by discriminate.
  rewrite bool_decide_eq_false_2; [reflexivity|].
  unfold lower. cbn [map]. rewrite digit_chr_lower.
  pose proof (digit_chr_range z) as [_ Hz].
  intros H.
  repeat (apply elem_of_cons in H as [H|H];
          [injection H as H _; change (digit_chr z = 110) in H; lia|]).
  inversion H.
Qed.

Lemma bank_parse_date_reads d :
  valid_date d = true ->
  BankStatement._parse_date (strftime (py "%d/%m/%Y") d) = Some d
  /\ BankStatement._parse_date (strftime (py "%Y-%m-%d") d) = Some d.
Proof.
  intros Hv. unfold BankStatement._parse_date. split.
  - replace (strip (strftime (py "%d/%m/%Y") d)) with (strftime (py "%d/%m/%Y") d).
    + destruct d as [y m dd].
      change (strftime (py "%d/%m/%Y") {| year := y; month := m; day := dd |})
        with (digit_chr (dd / 10)
              :: ([digit_chr dd] ++ 47 :: pad2 m ++ 47 :: pad4 y ++ []))%list at 1 2.
      rewrite bank_parse_date_guard.
      unfold BankStatement.date_formats. cbn [Advanced.first_format].
      rewrite day_first_not_dashed by exact Hv.
      rewrite day_first_roundtrip by exact Hv. reflexivity.
    + destruct d as [y m dd]. symmetry.
      apply (strip_fixed _ [_; _; _; _; _; _; _; _] _); apply digit_chr_not_space.
  - replace (strip (strftime (py "%Y-%m-%d") d)) with (strftime (py "%Y-%m-%d") d).
    + destruct d as [y m dd].
      change (strftime (py "%Y-%m-%d") {| year := y; month := m; day := dd |})
        with (digit_chr (y / 1000)
              :: ([digit_chr (y / 100); digit_chr (y / 10); digit_chr y]
                    ++ 45 :: pad2 m ++ 45 :: pad2 dd ++ []))%list at 1 2.
      rewrite bank_parse_date_guard.
      unfold BankStatement.date_formats. cbn [Advanced.first_format].
      unfold strptime at 1.
      change (format_re false (py "%d-%m-%Y"))
        with (Some [re_d; Chr 45; re_m; Chr 45; re_Y]).
      cbv beta iota. rewrite iso_not_day_first by reflexivity.
      unfold strptime at 1.
      change (format_re false (py "%d/%m/%Y"))
        with (Some [re_d; Chr 47; re_m; Chr 47; re_Y]).
      cbv beta iota. rewrite iso_not_day_first by reflexivity.
      rewrite iso_date_roundtrip by exact Hv. reflexivity.
    + destruct d as [y m dd]. symmetry.
      apply (strip_fixed _ [_; _; _; _; _; _; _; _] _); apply digit_chr_not_space.
Qed.

(** X19.  The two parsers of spreadsheets read back the dates that they
    write: for every calendar date from the year 1000 on, whose year is
    written with four digits, [_parse_date] of
    [AdvancedBankStatementParser] and of [BankStatementParser] give the
    date for its rendering as ['formatted_date'] ([DD/MM/YYYY]) and for
    its rendering as ['date'] ([YYYY-MM-DD]); no earlier format of
    their lists takes the text for another date. *)
Theorem spreadsheet_dates_read_back (d : PyDate.date) :
  valid_date d = true -> (1000 <= year d)%Z ->
  Advanced._parse_date (strftime (py "%d/%m/%Y") d) = Some d
  /\ Advanced._parse_date (strftime (py "%Y-%m-%d") d) = Some d
  /\ BankStatement._parse_date (strftime (py "%d/%m/%Y") d) = Some d
  /\ BankStatement._parse_date (strftime (py "%Y-%m-%d") d) = Some d.
Proof.
  intros Hv _.
  destruct (advanced_parse_date_reads d Hv) as [H1 H2].
  destruct (bank_parse_date_reads d Hv) as [H3 H4].
  auto.
Qed.

Lemma spreadsheet_dates_read_back_witness :
  BankStatement._parse_date (py "07/03/2024")
  = Some {| year := 2024; month := 3; day := 7 |}.
Proof.
  apply (spreadsheet_dates_read_back {| year := 2024; month := 3; day := 7 |});
    [reflexivity | simpl; lia].
Defined.

(** ** The properties of the parsers *)

(** X1.  The five sample transactions of [_get_sample_transactions] and
    of [get_indian_sample_transactions] are the same list; when the
    clock shows a calendar date after the thirtieth day of the calendar,
    they are dated 29, 28, 27, 25 and 23 days before the clock, their two
    date fields are the renderings of these dates, and each of them has
    the invariant of a transaction. *)
Theorem sample_transactions_dated_before_clock (now : PyDate.date) :
  valid_date now = true -> (30 < toordinal now)%Z ->
  Api.get_indian_sample_transactions now = Enhanced._get_sample_transactions now
  /\ Forall valid_rendered (Enhanced._get_sample_transactions now)
  /\ exists ds,
      Forall (fun d => valid_date d = true) ds
      /\ map toordinal ds
         = map (fun k => (toordinal now - k)%Z) [29; 28; 27; 25; 23]%Z
      /\ map Statement.date (Enhanced._get_sample_transactions now)
         = map (strftime (py "%Y-%m-%d")) ds
      /\ map Statement.formatted_date (Enhanced._get_sample_transactions now)
         = map (strftime (py "%d %b %Y")) ds.
Proof.
  intros Hv Hlo. split; [reflexivity|].
  split; [apply samples_valid; assumption | apply sample_dates_spec; assumption].
Qed.

Lemma sample_transactions_dated_before_clock_witness :
  Forall valid_rendered (Enhanced._get_sample_transactions Examples.day1)
  /\ map Statement.date (Enhanced._get_sample_transactions Examples.day1)
     = [ py "2026-10-05"; py "2026-10-06"; py "2026-10-07"; py "2026-10-09";
         py "2026-10-11" ].
Proof.
  destruct (sample_transactions_dated_before_clock Examples.day1)
    as (_ & Hv & _); [reflexivity | reflexivity |].
  split; [exact Hv | vm_compute; reflexivity].
Defined.

(** X2.  [EnhancedPDFParser.parse_pdf] never raises and never returns an
    empty list; when the clock shows a calendar date after the thirtieth
    day of the calendar, every transaction of its result, whether a
    strategy extracted it or it is a sample, has the rendering of a
    calendar date as its ['date'], which is parsed back as that date from
    the year 1000 on, and the type credit or debit; its amount is above
    zero unless the list is that of the AI strategy. *)
Theorem enhanced_parse_pdf_nonempty_dated fl self now (f : PdfText.pdf) :
  valid_date now = true -> (30 < toordinal now)%Z ->
  exists l,
    result (Enhanced.parse_pdf fl self now f) = Ok l
    /\ l <> []
    /\ Forall dated_typed l
    /\ ((exists g, Enhanced.gemini_parser self = Some g /\ l = Gemini.parse_pdf g f)
        \/ Forall (fun t => (0 < Statement.amount t)%Q) l).
Proof. apply enhanced_parse_pdf_dated. Qed.

Lemma enhanced_parse_pdf_nonempty_dated_witness :
  exists l,
    result (Enhanced.parse_pdf Examples.all_flags Examples.no_ai Examples.day1
                               Examples.numeric_page) = Ok l
    /\ l <> []
    /\ Forall dated_typed l.
Proof.
  destruct (enhanced_parse_pdf_nonempty_dated
              Examples.all_flags Examples.no_ai Examples.day1 Examples.numeric_page)
    as (l & Hr & Hne & Hd & _); [reflexivity | reflexivity |].
  exists l. auto.
Defined.

(** X3.  Every transaction that [IndianBankParser.parse_text] returns has
    the rendering of a calendar date as its ['date'], which is parsed
    back as that date from the year 1000 on, an amount above zero and the
    type credit or debit. *)
Theorem indian_bank_transactions_valid (text : pystr) :
  Forall valid_dated (IndianBank.parse_text text).
Proof. apply indian_text_valid. Qed.

(** X4.  On a text of ASCII characters, [IndianBankParser.parse_text]
    parses nothing up to and including the first line that holds ACCOUNT
    ACTIVITY, in any case of the letters: the result is that of the lines
    after it, and it is empty when no line holds the marker. *)
Theorem indian_bank_starts_after_marker (text : pystr) :
  Chars.ascii text ->
  (Forall (fun raw => Lines.has_marker raw = false) (split_on newline text) ->
   IndianBank.parse_text text = [])
  /\ (forall pre m post,
         split_on newline text = (pre ++ m :: post)%list ->
         Forall (fun raw => Lines.has_marker raw = false) pre ->
         Lines.has_marker m = true ->
         IndianBank.parse_text text = IndianBank.parse_lines true post).
Proof.
  intros _. unfold IndianBank.parse_text. split.
  - apply indian_no_marker.
  - intros pre m post ->. apply indian_after_marker.
Qed.

Lemma indian_bank_starts_after_marker_witness :
  IndianBank.parse_text (py "10 Oct 2025 UPI-SWIGGY - INR 450.00 INR 9,550.00") = []
  /\ IndianBank.parse_text Examples.indian_text
     = IndianBank.parse_lines
         true [py "10 Oct 2025 UPI-SWIGGY - INR 450.00 INR 9,550.00"].
Proof.
  split.
  - apply (indian_bank_starts_after_marker
             (py "10 Oct 2025 UPI-SWIGGY - INR 450.00 INR 9,550.00")).
    + apply Forall_forall. intros c Hc. apply N.ltb_lt.
      revert c Hc. apply Forall_forall. vm_compute. repeat constructor.
    + vm_compute. repeat constructor.
  - apply (proj2 (indian_bank_starts_after_marker Examples.indian_text
                    ltac:(apply Forall_forall; intros c Hc; apply N.ltb_lt;
                          revert c Hc; apply Forall_forall; vm_compute;
                          repeat constructor))
                 [py "Indian Bank"] (py "ACCOUNT ACTIVITY")).
    + vm_compute. reflexivity.
    + vm_compute. repeat constructor.
    + vm_compute. reflexivity.
Defined.

(** X5.  On a line of fewer than 300 ASCII characters with exactly three
    positive INR amounts, [IndianBankParser._parse_transaction_line]
    emits a credit of the first amount: the amounts that reach the three
    branches of that case are above zero, so the two branches that need
    a zero debit or a zero credit are never taken, and the last one takes
    the debit column as the amount and the credit column as the type. *)
Theorem indian_bank_three_amounts_credit (line : pystr) (t : Statement.txn) a b c :
  Chars.plain line ->
  Statement.positive_amounts (findall1 false Statement.inr_pattern line) = [a; b; c] ->
  IndianBank._parse_transaction_line line = Some t ->
  Statement.type_ t = py "credit" /\ Statement.amount t = a.
Proof. intros _. apply indian_three_amounts. Qed.

Lemma indian_bank_three_amounts_credit_witness :
  exists t,
    IndianBank._parse_transaction_line Examples.three_amounts_line = Some t
    /\ Statement.type_ t = py "credit" /\ Statement.amount t = 500%Q.
Proof.
  eexists. split; [vm_compute; reflexivity|].
  apply (indian_bank_three_amounts_credit Examples.three_amounts_line _ 500 200 1000).
  - split; [|vm_compute; lia].
    apply Forall_forall. intros c Hc. apply N.ltb_lt.
    revert c Hc. apply Forall_forall. vm_compute. repeat constructor.
  - vm_compute. reflexivity.
  - vm_compute. reflexivity.
Defined.

(** X6.  When a line of fewer than 300 ASCII characters of the text of a
    PDF has twenty characters or more and an amount, and the text that
    the date patterns find on it (the first match of the first of the
    three numeric patterns that matches) is a calendar date, the generic
    line pass of [EnhancedPDFParser] raises, so no transaction of any
    other line is kept, and [parse_pdf] returns the sample transactions,
    or the non-empty list of the Indian Bank format. *)
Theorem numeric_date_line_discards_statement fl self now (f : PdfText.pdf) raw :
  raw ∈ split_on newline (PdfText._extract_text_from_pdf f) ->
  Chars.plain raw ->
  Lines.breaks raw ->
  is_ok (Enhanced._parse_transactions_from_text (PdfText._extract_text_from_pdf f))
  = false
  /\ (result (Enhanced.parse_pdf fl self now f)
      = Ok (Enhanced._get_sample_transactions now)
      \/ (IndianBank.parse_text (PdfText._extract_text_from_pdf f) <> []
          /\ result (Enhanced.parse_pdf fl self now f)
             = Ok (IndianBank.parse_text (PdfText._extract_text_from_pdf f)))).
Proof. intros Hin _. apply parse_pdf_breaks, Hin. Qed.

Lemma numeric_date_line_discards_statement_witness :
  is_ok (Enhanced._parse_transactions_from_text
           (PdfText._extract_text_from_pdf Examples.numeric_page)) = false.
Proof.
  apply (numeric_date_line_discards_statement
           Examples.all_flags Examples.no_ai Examples.day1 Examples.numeric_page
           Examples.numeric_line).
  - vm_compute. right. left.
  - split; [|vm_compute; lia].
    apply Forall_forall. intros c Hc. apply N.ltb_lt.
    revert c Hc. apply Forall_forall. vm_compute. repeat constructor.
  - split; [vm_compute; lia|].
    exists (py "10/02/2024"), {| year := 2024; month := 2; day := 10 |}.
    split; [vm_compute; reflexivity|].
    split; [vm_compute; reflexivity | vm_compute; discriminate].
Defined.

(** X7.  The validation loop of [parse_with_image] keeps exactly the
    entries that the loop of [_extract_with_gemini] keeps, with the same
    fields but the bank label: on the same response, the two methods
    return the same transactions up to ['bank'].  Every transaction of
    [parse_with_image] has the rendering of a calendar date as its
    ['date'], which is parsed back as that date from the year 1000 on,
    and the type credit or debit. *)
Theorem vision_validation_agrees :
  (forall e,
      Gemini.validate_vision e
      = Rendering.with_bank (py "Extracted by AI Vision") <$> Gemini.validate e)
  /\ (forall generate loads available text,
         let p := {| Gemini.model := Some generate; Gemini.json_loads := loads;
                     Gemini.PDF_AVAILABLE := available |} in
         Gemini.parse_with_image p (generate text)
         = Rendering.with_bank (py "Extracted by AI Vision")
             <$> Gemini._extract_with_gemini p text)
  /\ (forall p vision, Forall dated_typed (Gemini.parse_with_image p vision)).
Proof.
  split; [exact validate_vision_validate|]. split.
  - intros generate loads available text p. subst p.
    unfold Gemini.parse_with_image, Gemini._extract_with_gemini, Gemini.is_available.
    cbn [Gemini.model Gemini.json_loads negb].
    destruct (generate text) as [response|]; [|reflexivity].
    destruct (loads _) as [[entries|]|]; try reflexivity.
    apply omap_fmap_agree, validate_vision_validate.
  - intros p vision. unfold Gemini.parse_with_image.
    repeat case_match; try constructor.
    apply Forall_forall. intros t Ht.
    apply list_elem_of_omap in Ht as (e & _ & He).
    rewrite validate_vision_validate in He.
    destruct (Gemini.validate e) as [t0|] eqn:E; [|discriminate].
    apply gemini_validate_dated in E. injection He as <-.
    exact E.
Qed.

(** X8.  [_extract_with_gemini] unwraps a response that is wrapped in a
    Markdown fence: for a fence with any tag that has no line break, what
    is decoded is the stripped body. *)
Theorem strip_fence_unwraps (tag body : pystr) :
  newline ∉ tag ->
  Gemini.strip_fence (Rendering.fenced tag body) = strip body.
Proof. apply strip_fence_fenced. Qed.

Lemma strip_fence_unwraps_witness :
  Gemini.strip_fence (Rendering.fenced (py "json") (py " [] ")) = py "[]".
Proof.
  rewrite strip_fence_unwraps; [reflexivity|].
  vm_compute. intros H.
  repeat (apply elem_of_cons in H as [H|H]; [discriminate H|]).
  inversion H.
Defined.

(** X9.  In every transaction of [FreePDFParser], from a line or from
    [parse_pdf] and [parse_with_free_ocr], the ['date'] is the rendering
    of a calendar date; from the year 1000 on it is parsed back as that
    date, so ['formatted_date'] is its [DD Mon YYYY] rendering and not
    the fallback; the amount is not negative and the type is credit or
    debit. *)
Theorem free_parser_transactions :
  (forall line t,
      Free._extract_transaction_line line = Some t ->
      exists d, Rendering.dated d t
                /\ (0 <= Statement.amount t)%Q
                /\ credit_or_debit (Statement.type_ t))
  /\ (forall o,
         Forall (fun t => exists d, Rendering.dated d t
                                    /\ (0 <= Statement.amount t)%Q
                                    /\ credit_or_debit (Statement.type_ t))
                (Free.parse_pdf o))
  /\ (forall o,
         Forall (fun t => exists d, Rendering.dated d t
                                    /\ (0 <= Statement.amount t)%Q
                                    /\ credit_or_debit (Statement.type_ t))
                (Free.parse_with_free_ocr o)).
Proof.
  split; [exact free_line_valid|]. split; [exact free_lines_valid|].
  intros o. unfold Free.parse_with_free_ocr.
  destruct (negb _); [constructor | apply free_lines_valid].
Qed.

Lemma free_parser_transactions_witness :
  exists t d,
    Free._extract_transaction_line Examples.neft_line = Some t
    /\ Rendering.dated d t.
Proof.
  destruct free_parser_transactions as (Hl & _).
  eexists.
  edestruct (Hl Examples.neft_line) as (d & Hd & _); [vm_compute; reflexivity|].
  exists d. split; [reflexivity | exact Hd].
Defined.

(** X10.  [get_statement_summary] answers the empty list with the error
    dictionary; on a list that is not empty it returns a summary exactly
    when every transaction has a date, and raises otherwise. *)
Theorem summary_raises_iff_date_missing :
  Advanced.get_statement_summary [] = Ok Advanced.NoTransactions
  /\ forall t ts,
      is_ok (Advanced.get_statement_summary (t :: ts)) = true
      <-> Forall (fun x => is_Some (Advanced.date x)) (t :: ts).
Proof. split; [reflexivity | exact summary_ok_iff]. Qed.

(** X11.  In a summary of [get_statement_summary] the total is the length
    of the list; the breakdown has one entry for each category that
    occurs, no category twice, and the count of an entry is the number of
    transactions of its category, so the counts add up to the total. *)
Theorem summary_counts_each_category (l : list Advanced.txn) (s : Advanced.summary) :
  Advanced.get_statement_summary l = Ok (Advanced.Summary s) ->
  Advanced.total_transactions s = length l
  /\ sum_list (map snd (Advanced.category_breakdown s)) = length l
  /\ NoDup (map fst (Advanced.category_breakdown s))
  /\ (forall c n, (c, n) ∈ Advanced.category_breakdown s ->
                  n = Breakdown.occurrences c l /\ (0 < n)%nat)
  /\ (forall t, t ∈ l ->
                (Breakdown.category_of t,
                 Breakdown.occurrences (Breakdown.category_of t) l)
                ∈ Advanced.category_breakdown s).
Proof. apply summary_counts. Qed.

Lemma summary_counts_each_category_witness :
  exists s,
    Advanced.get_statement_summary
      (Advanced._clean_and_categorize_transactions
         (Advanced._parse_text_with_regex Examples.swiggy_twice None))
    = Ok (Advanced.Summary s)
    /\ Advanced.total_transactions s = 2%nat
    /\ Advanced.category_breakdown s = [(py "food_dining", 2%nat)].
Proof.
  eexists. split; [vm_compute; reflexivity|].
  edestruct (summary_counts_each_category
               (Advanced._clean_and_categorize_transactions
                  (Advanced._parse_text_with_regex Examples.swiggy_twice None)))
    as (Ht & _); [vm_compute; reflexivity|].
  split; [exact Ht | reflexivity].
Defined.

(** X12.  On a list that [_clean_and_categorize_transactions] returns,
    [get_statement_summary] does not raise, and its date range runs from
    the ['formatted_date'] of the last transaction to that of the
    first. *)
Theorem summary_of_cleaned_statement (l : list Advanced.txn) t ts :
  Advanced._clean_and_categorize_transactions l = t :: ts ->
  exists s,
    Advanced.get_statement_summary (t :: ts) = Ok (Advanced.Summary s)
    /\ Advanced.total_transactions s = length (t :: ts)
    /\ Some (fst (Advanced.date_range s))
       = Advanced.formatted_date (default t (last ts))
    /\ Some (snd (Advanced.date_range s)) = Advanced.formatted_date t.
Proof. apply summary_of_cleaned. Qed.

Lemma summary_of_cleaned_statement_witness :
  exists t ts s,
    Advanced._clean_and_categorize_transactions
      (Advanced._parse_text_with_regex Examples.swiggy_twice None) = t :: ts
    /\ Advanced.get_statement_summary (t :: ts) = Ok (Advanced.Summary s)
    /\ Advanced.date_range s = (py "10/02/2024", py "10/02/2024").
Proof.
  do 2 eexists.
  edestruct (summary_of_cleaned_statement
               (Advanced._parse_text_with_regex Examples.swiggy_twice None))
    as (s & Hs & _); [vm_compute; reflexivity|].
  exists s. split; [reflexivity|]. split; [exact Hs|].
  vm_compute in Hs. injection Hs as <-. reflexivity.
Defined.

(** X13.  On a CSV file whose frames are regular, every transaction of
    [BankStatementParser.parse_csv] states the three renderings of one
    calendar date, of which ['date'] is parsed back as that date from the
    year 1000 on, the type credit or debit, and the one bank that
    [detect_bank] found for the file, which is one of the five banks or
    UNKNOWN. *)
Theorem bank_statement_csv_transactions (read_csv : pystr -> Advanced.csv_read) :
  Frames.reads_regular read_csv ->
  exists bank,
    bank ∈ Statements.bank_names
    /\ Forall (fun t => exists d, Statements.stated d bank t)
              (BankStatement.parse_csv read_csv).
Proof. intros _. apply parse_csv_stated. Qed.

Lemma bank_statement_csv_transactions_witness :
  length (BankStatement.parse_csv Examples.read_ledger) = 2%nat
  /\ exists bank,
      bank ∈ Statements.bank_names
      /\ Forall (fun t => exists d, Statements.stated d bank t)
                (BankStatement.parse_csv Examples.read_ledger).
Proof.
  split; [vm_compute; reflexivity|].
  apply bank_statement_csv_transactions.
  intros enc df [= <-]. split.
  - apply (bool_decide_unpack _). vm_compute. reflexivity.
  - vm_compute. repeat constructor.
Defined.

(** X14.  Every transaction of [BankStatementParser._guess_and_parse]
    states the three renderings of one calendar date, the type credit or
    debit and the bank; it has an amount above zero, and its description
    holds no digit: a cell with a digit is read as an amount as long as
    no description is set. *)
Theorem guess_and_parse_transactions columns rows bank :
  Forall (fun t =>
            (exists d, Statements.stated d bank t)
            /\ (0 < Statement.amount (BankStatement.fields t))%Q
            /\ Forall (fun c => is_digit c = false)
                      (Statement.description (BankStatement.fields t)))
         (BankStatement._guess_and_parse columns rows bank).
Proof. apply guess_and_parse_stated. Qed.

(** X15.  [allowed_file] accepts exactly the names that end in a dot and
    an extension without dot which, in lower case, is one of the allowed
    extensions. *)
Theorem allowed_file_accepts (filename : pystr) :
  Api.allowed_file filename = true
  <-> exists stem ext,
        filename = (stem ++ py "." ++ ext)%list
        /\ (46 ∉ ext) /\ lower ext ∈ Api.ALLOWED_EXTENSIONS.
Proof. apply allowed_file_spec. Qed.

(** ** The answers of the upload route *)

Lemma Ok_eq {A} (a b : A) : @Ok A a = Ok b -> a = b.
Proof. congruence. Qed.

(** The ['date'] of a record is the rendering of a calendar date. *)
Lemma rendered_records_app (l : list Api.record) :
  Forall (fun r => exists d, valid_date d = true
                             /\ Statement.date (Api.fields r)
                                = strftime (py "%Y-%m-%d") d) l ->
  exists ds,
    Forall2 (fun r d => valid_date d = true
                        /\ Statement.date (Api.fields r) = strftime (py "%Y-%m-%d") d)
            l ds.
Proof.
  induction 1 as [|r l [d Hd] _ [ds IH]].
  - exists []. constructor.
  - exists (d :: ds). constructor; assumption.
Qed.

Lemma of_pdf_rendered (l : list Statement.txn) :
  Forall dated_typed l ->
  Forall (fun r => exists d, valid_date d = true
                             /\ Statement.date (Api.fields r)
                                = strftime (py "%Y-%m-%d") d)
         (map Api.of_pdf l).
Proof.
  intros H. apply Forall_map. eapply Forall_impl; [exact H|].
  intros t [(d & Hv & Hd & _) _]. exists d. auto.
Qed.

Lemma of_csv_rendered read_csv :
  Forall (fun r => exists d, valid_date d = true
                             /\ Statement.date (Api.fields r)
                                = strftime (py "%Y-%m-%d") d)
         (map Api.of_csv (BankStatement.parse_csv read_csv)).
Proof.
  destruct (parse_csv_stated read_csv) as (bank & _ & H).
  apply Forall_map. eapply Forall_impl; [exact H|].
  intros t (d & Hv & Hd & _). exists d. auto.
Qed.

(** Every record that the parsing part of the route hands over has the
    rendering of a calendar date as its ['date']. *)
Lemma parse_upload_rendered sv now rq l :
  valid_date now = true -> (30 < toordinal now)%Z ->
  Api.parse_upload sv now rq = Ok l ->
  Forall (fun r => exists d, valid_date d = true
                             /\ Statement.date (Api.fields r)
                                = strftime (py "%Y-%m-%d") d) l.
Proof.
  intros Hv Hlo. unfold Api.parse_upload, Api.and_then.
  destruct (Api.save rq); [|discriminate].
  destruct (Api.after_last_dot _); [|discriminate].
  destruct (PyStr.eqb _ (py "csv")).
  { destruct (Api.remove rq); intros H; [apply Ok_eq in H; subst l | discriminate H].
    apply of_csv_rendered. }
  destruct (_ || _).
  { destruct (Api.excel_as_csv rq) as [read_csv|]; [|discriminate].
    destruct (Api.remove_csv rq); [|discriminate].
    destruct (Api.remove rq); intros H; [apply Ok_eq in H; subst l | discriminate H].
    apply of_csv_rendered. }
  destruct (_ || _).
  { destruct (Api.remove rq); intros H; [apply Ok_eq in H; subst l | discriminate H].
    apply of_pdf_rendered. rewrite api_samples_are_the_pdf_samples.
    eapply Forall_impl; [apply samples_valid; assumption|].
    intros t Ht. apply valid_rendered_dated in Ht as (Hd & _ & Hty). split; assumption. }
  destruct (PyStr.eqb _ (py "pdf")).
  { destruct (enhanced_parse_pdf_dated (Api.flags sv) (Api.pdf_parser sv) now
                                       (Api.pdf rq) Hv Hlo) as (l0 & -> & _ & Hl0 & _).
    destruct (Api.remove rq); intros H; [apply Ok_eq in H; subst l | discriminate H].
    apply of_pdf_rendered, Hl0. }
  destruct (Api.remove rq); intros H; [apply Ok_eq in H; subst l | discriminate H].
  constructor.
Qed.

(** The summary reads the dates of the years from 1000 on. *)
Lemma parse_dates_rendered (l : list Api.record) ds :
  Forall2 (fun r d => valid_date d = true
                      /\ Statement.date (Api.fields r) = strftime (py "%Y-%m-%d") d)
          l ds ->
  Forall (fun d => (1000 <= year d)%Z) ds ->
  Api.parse_dates l = Some ds.
Proof.
  induction 1 as [|r d l ds [Hv Hd] _ IH]; intros Hy; [reflexivity|].
  apply Forall_cons in Hy as [_ Hy].
  cbn [Api.parse_dates]. rewrite Hd, (iso_date_roundtrip d Hv), (IH Hy). reflexivity.
Qed.

(** The answer of the route to an allowed name, by what the parsing part
    gives. *)
Lemma upload_of_parse sv now rq name :
  Api.filename rq = Some name -> Api.allowed_file name = true ->
  Api.upload_statement sv now rq
  = match Api.parse_upload sv now rq with
    | Raise _ => Api.Refused Api.ProcessingError
    | Ok [] => Api.Refused Api.NoTransactionsFound
    | Ok transactions =>
        match Api.parse_dates transactions with
        | None => Api.Refused Api.ProcessingError
        | Some dates =>
            Api.Extracted transactions (length transactions) (Api.range dates)
        end
    end.
Proof.
  intros Hn Ha. unfold Api.upload_statement.
  rewrite Hn. rewrite bool_decide_eq_false_2 by (apply allowed_file_nonempty, Ha).
  rewrite Ha. reflexivity.
Qed.

Lemma parse_upload_ext sv now rq e :
  Api.save rq = Ok tt -> Api.remove rq = Ok tt ->
  Api.after_last_dot (Api.secure_name rq) = Some e ->
  (lower e = py "pdf" ->
   forall l,
     result (Enhanced.parse_pdf (Api.flags sv) (Api.pdf_parser sv) now (Api.pdf rq))
     = Ok l ->
     Api.parse_upload sv now rq = Ok (map Api.of_pdf l))
  /\ (lower e ∈ [py "jpg"; py "jpeg"; py "png"] ->
      Api.parse_upload sv now rq
      = Ok (map Api.of_pdf (Api.get_indian_sample_transactions now))).
Proof.
  intros Hs Hr He. unfold Api.parse_upload, Api.and_then.
  rewrite Hs, He, Hr. split.
  - intros -> l ->. reflexivity.
  - intros Hin.
    repeat (apply elem_of_cons in Hin as [->|Hin]; [reflexivity|]).
    inversion Hin.
Qed.

(** X16.  An upload of a PDF never gets the answer that no transaction
    was found: when the name is allowed, the stored name ends in the
    extension pdf in any case of the letters and the file is saved and
    removed, the parsing part hands over the list of
    [EnhancedPDFParser.parse_pdf], which is not empty, and the route
    answers with a processing error or with that list; it answers with
    the list, its length and a date range when every ['date'] of the
    list renders a calendar date of the year 1000 or later. *)
Theorem pdf_upload_never_empty sv now rq name e :
  Api.filename rq = Some name -> Api.allowed_file name = true ->
  Api.after_last_dot (Api.secure_name rq) = Some e -> lower e = py "pdf" ->
  Api.save rq = Ok tt -> Api.remove rq = Ok tt ->
  exists l,
    result (Enhanced.parse_pdf (Api.flags sv) (Api.pdf_parser sv) now (Api.pdf rq))
    = Ok l
    /\ l <> []
    /\ Api.parse_upload sv now rq = Ok (map Api.of_pdf l)
    /\ (Api.upload_statement sv now rq = Api.Refused Api.ProcessingError
        \/ exists range,
            Api.upload_statement sv now rq
            = Api.Extracted (map Api.of_pdf l) (length l) range)
    /\ (Forall (fun t => exists d, valid_date d = true /\ (1000 <= year d)%Z
                                   /\ Statement.date t = strftime (py "%Y-%m-%d") d)
               l ->
        exists range,
          Api.upload_statement sv now rq
          = Api.Extracted (map Api.of_pdf l) (length l) (Some range)).
Proof.
  intros Hn Ha He Hpdf Hs Hr.
  destruct (enhanced_parse_pdf_result (Api.flags sv) (Api.pdf_parser sv) now
                                      (Api.pdf rq)) as (l & Hl & Hne & _).
  destruct (parse_upload_ext sv now rq e Hs Hr He) as [Hp _].
  specialize (Hp Hpdf l Hl).
  exists l. split; [exact Hl|]. split; [exact Hne|]. split; [exact Hp|].
  rewrite (upload_of_parse sv now rq name Hn Ha), Hp.
  destruct l as [|t l]; [contradiction|]. cbn [map length]. rewrite length_map.
  split.
  - destruct (Api.parse_dates _); [right; eauto | left; reflexivity].
  - intros Hy.
    assert (exists ds,
               Forall2 (fun r d => valid_date d = true
                                   /\ Statement.date (Api.fields r)
                                      = strftime (py "%Y-%m-%d") d)
                       (Api.of_pdf t :: map Api.of_pdf l) ds
               /\ Forall (fun d => (1000 <= year d)%Z) ds) as (ds & H2 & Hds).
    { clear -Hy. change (Api.of_pdf t :: map Api.of_pdf l) with (map Api.of_pdf (t :: l)).
      induction Hy as [|x xs (d & Hv & Hd & Hx) _ (ds & IH & Hds)].
      - exists []. split; constructor.
      - exists (d :: ds). split; constructor; auto. }
    rewrite (parse_dates_rendered _ ds H2 Hds).
    inversion H2; subst. cbn [Api.range]. eauto.
Qed.

Lemma pdf_upload_never_empty_witness :
  exists l,
    result (Enhanced.parse_pdf (Api.flags Examples.server)
                               (Api.pdf_parser Examples.server) Examples.day1
                               (Api.pdf Examples.pdf_upload))
    = Ok l
    /\ l <> []
    /\ Api.upload_statement Examples.server Examples.day1 Examples.pdf_upload
       <> Api.Refused Api.NoTransactionsFound.
Proof.
  destruct (pdf_upload_never_empty Examples.server Examples.day1
              Examples.pdf_upload (py "statement.PDF") (py "PDF"))
    as (l & Hl & Hne & _ & [H|[range H]] & _);
    try (vm_compute; reflexivity);
    exists l; (split; [exact Hl|]); (split; [exact Hne|]);
    rewrite H; discriminate.
Defined.

(** X17.  An upload of a picture is not read: when the name is allowed,
    the stored name ends in jpg, jpeg or png in any case of the letters
    and the file is saved and removed, the route answers with the five
    sample transactions of the clock as the transactions extracted from
    the file. *)
Theorem image_upload_returns_samples sv now rq name e :
  valid_date now = true -> (30 < toordinal now)%Z ->
  Api.filename rq = Some name -> Api.allowed_file name = true ->
  Api.after_last_dot (Api.secure_name rq) = Some e ->
  lower e ∈ [py "jpg"; py "jpeg"; py "png"] ->
  Api.save rq = Ok tt -> Api.remove rq = Ok tt ->
  exists range,
    Api.upload_statement sv now rq
    = Api.Extracted (map Api.of_pdf (Api.get_indian_sample_transactions now))
                    5 (Some range).
Proof.
  intros Hv Hlo Hn Ha He Himg Hs Hr.
  destruct (parse_upload_ext sv now rq e Hs Hr He) as [_ Hp].
  specialize (Hp Himg).
  apply (upload_of_pdf_list sv now rq name (Api.get_indian_sample_transactions now)
           Hn Ha Hp).
  - discriminate.
  - rewrite api_samples_are_the_pdf_samples. apply samples_valid; assumption.
Qed.

Lemma image_upload_returns_samples_witness :
  exists range,
    Api.upload_statement Examples.server Examples.day1 Examples.image_upload
    = Api.Extracted
        (map Api.of_pdf (Api.get_indian_sample_transactions Examples.day1))
        5 (Some range).
Proof.
  apply (image_upload_returns_samples Examples.server Examples.day1
           Examples.image_upload (py "scan.jpeg") (py "jpeg"));
    try (vm_compute; reflexivity).
  right. left.
Defined.

(** X18.  For an allowed name, the route answers with a processing error
    when saving, parsing or removing the file raises, and with the answer
    that no transaction was found when the parsers return the empty
    list.  Every record of a list that they return has the rendering of
    a calendar date as its ['date'], and when these dates are of the year
    1000 or later the summary reads them back: the route answers with
    all the transactions, their number and the range of these dates. *)
Theorem upload_answers sv now rq name :
  valid_date now = true -> (30 < toordinal now)%Z ->
  Api.filename rq = Some name -> Api.allowed_file name = true ->
  (is_ok (Api.parse_upload sv now rq) = false ->
   Api.upload_statement sv now rq = Api.Refused Api.ProcessingError)
  /\ (Api.parse_upload sv now rq = Ok [] ->
      Api.upload_statement sv now rq = Api.Refused Api.NoTransactionsFound)
  /\ (forall r l,
         Api.parse_upload sv now rq = Ok (r :: l) ->
         exists ds,
           Forall2 (fun x d => valid_date d = true
                               /\ Statement.date (Api.fields x)
                                  = strftime (py "%Y-%m-%d") d)
                   (r :: l) ds
           /\ (Forall (fun d => (1000 <= year d)%Z) ds ->
               Api.upload_statement sv now rq
               = Api.Extracted (r :: l) (length (r :: l)) (Api.range ds))).
Proof.
  intros Hv Hlo Hn Ha. rewrite (upload_of_parse sv now rq name Hn Ha).
  split; [|split].
  - destruct (Api.parse_upload sv now rq); [discriminate | reflexivity].
  - intros ->. reflexivity.
  - intros r l Hp.
    destruct (rendered_records_app (r :: l)
                (parse_upload_rendered sv now rq (r :: l) Hv Hlo Hp)) as [ds H2].
    exists ds. split; [exact H2|]. intros Hy.
    rewrite Hp, (parse_dates_rendered _ ds H2 Hy). reflexivity.
Qed.

Lemma upload_answers_witness :
  (is_ok (Api.parse_upload Examples.server Examples.day1 Examples.pdf_upload) = false ->
   Api.upload_statement Examples.server Examples.day1 Examples.pdf_upload
   = Api.Refused Api.ProcessingError)
  /\ (Api.parse_upload Examples.server Examples.day1 Examples.pdf_upload = Ok [] ->
      Api.upload_statement Examples.server Examples.day1 Examples.pdf_upload
      = Api.Refused Api.NoTransactionsFound)
  /\ (forall r l,
         Api.parse_upload Examples.server Examples.day1 Examples.pdf_upload
         = Ok (r :: l) ->
         exists ds,
           Forall2 (fun x d => valid_date d = true
                               /\ Statement.date (Api.fields x)
                                  = strftime (py "%Y-%m-%d") d)
                   (r :: l) ds
           /\ (Forall (fun d => (1000 <= year d)%Z) ds ->
               Api.upload_statement Examples.server Examples.day1 Examples.pdf_upload
               = Api.Extracted (r :: l) (length (r :: l)) (Api.range ds))).
Proof.
  apply (upload_answers Examples.server Examples.day1 Examples.pdf_upload
           (py "statement.PDF")); vm_compute; reflexivity.
Defined.
